(** * Alumni network backend: relationship and mentorship engines

    A shallow embedding of the connection, mentorship and login routes of
    the Express/PostgreSQL backend, together with the part of the schema
    (schema.sql) and of the database helpers (database/connection.ts) they
    rely on.

    - Tables are lists of rows, in storage order; a [SELECT] is a filter,
      [rows[0]] is the head of the result.
    - A statement sent to the server is one step of the [Sql] monad: it
      may be refused by a schema constraint, or fail for an outside reason
      (lost connection, pool time-out, malformed parameter), which the
      [Faults] oracle decides per statement.
    - [query] auto-commits; [transaction] restores the snapshot taken at
      [BEGIN] when its callback throws.
    - Identifiers produced by [uuidv4()] and values of [RANDOM()] are
      inputs of the handlers.
    - Identifiers in rows and in tokens are in the text form the server
      prints, so that [===] on two of them in a handler and [=] in a
      statement agree. An identifier in a request body is a text of the
      client's choosing, which the server may read as an identifier
      without it being spelled that way: see [UuidText]. A text that is
      no identifier makes the statement that receives it fail.
    - The columns [created_at] and [updated_at], and the triggers that
      maintain the latter, are not modelled: what is said of a row is
      said of the columns of its record.
    - Functions of the platform and of libraries ([toLowerCase], the
      collation of the database, [bcrypt.compare], zod's e-mail check,
      [encodeURIComponent]) are parameters of the routes that call
      them. *)

From Stdlib Require Import ZArith NArith List String Ascii Bool Lia Permutation.
Import ListNotations.
Local Open Scope string_scope.
Local Open Scope list_scope.

(** ** Rows of the schema *)

(** A [UUID] column, after the driver parsed its text form. *)
Definition uuid := N.

(** An identifier as a client writes it in a body. The server reads
    more spellings than the one it prints (capitals, no hyphens,
    braces): the text is given by the identifier it is read as and by
    whether it is spelled as the server prints it. *)
Record UuidText := { parsed : uuid; canonical : bool }.

(** The text the server prints for [id]. *)
Definition printed (id : uuid) : UuidText := {| parsed := id; canonical := true |}.

(** [text === id], for the [id] of a token or of a row. *)
Definition same_text (text : UuidText) (id : uuid) : bool :=
  canonical text && (parsed text =? id)%N.

Inductive Role := alumni | admin | superadmin.

(** [CHECK (status IN ('pending', 'accepted', 'rejected'))] *)
Inductive Status := pending | accepted | rejected.

Definition Role_eqb (a b : Role) : bool :=
  match a, b with
  | alumni, alumni | admin, admin | superadmin, superadmin => true
  | _, _ => false
  end.

Definition Status_eqb (a b : Status) : bool :=
  match a, b with
  | pending, pending | accepted, accepted | rejected, rejected => true
  | _, _ => false
  end.

Record University := {
  un_id : string;
  un_name : string;
  un_is_enabled : bool
}.

Record User := {
  u_id : uuid;
  u_email : string;
  u_password_hash : string;
  u_name : string;
  u_avatar : option string;
  u_university_id : option string;
  u_graduation_year : option Z;
  u_major : option string;
  u_role : Role;
  u_is_mentor : bool;
  u_is_active : bool
}.

Record UserProfile := {
  up_user_id : uuid;
  up_job_title : option string;
  up_company : option string
}.

Record Connection := {
  c_id : uuid;
  c_user_id : uuid;
  c_connected_user_id : uuid
}.

Record ConnectionRequest := {
  cr_id : uuid;
  cr_from_user_id : uuid;
  cr_to_user_id : uuid;
  cr_status : Status
}.

Record Mentor := {
  m_id : uuid;
  m_user_id : uuid;
  m_title : option string;
  m_company : option string;
  m_location : option string;
  m_bio : option string;
  m_expertise : list string;
  m_availability : option string;
  m_years_experience : Z;
  m_mentees_count : Z;
  m_is_active : bool
}.

Record MentorshipRequest := {
  mr_id : uuid;
  mr_mentor_id : uuid;
  mr_mentee_id : uuid;
  mr_message : option string;
  mr_status : Status
}.

(** The [id] of a notification is generated by the server
    ([DEFAULT uuid_generate_v4()]) and never read by the routes below. *)
Record Notification := {
  n_user_id : uuid;
  n_type : string;
  n_title : string;
  n_message : string;
  n_avatar : option string;
  n_is_read : bool;
  n_action_url : option string;
  n_related_id : option uuid
}.

Record Db := {
  universities : list University;
  users : list User;
  user_profiles : list UserProfile;
  connections : list Connection;
  connection_requests : list ConnectionRequest;
  mentors : list Mentor;
  mentorship_requests : list MentorshipRequest;
  notifications : list Notification
}.

Definition empty_db : Db :=
  {| universities := []; users := []; user_profiles := []; connections := [];
     connection_requests := []; mentors := []; mentorship_requests := [];
     notifications := [] |}.

Definition set_connections (l : list Connection) (db : Db) : Db :=
  {| universities := universities db; users := users db;
     user_profiles := user_profiles db; connections := l;
     connection_requests := connection_requests db; mentors := mentors db;
     mentorship_requests := mentorship_requests db;
     notifications := notifications db |}.

Definition set_connection_requests (l : list ConnectionRequest) (db : Db) : Db :=
  {| universities := universities db; users := users db;
     user_profiles := user_profiles db; connections := connections db;
     connection_requests := l; mentors := mentors db;
     mentorship_requests := mentorship_requests db;
     notifications := notifications db |}.

Definition set_mentors (l : list Mentor) (db : Db) : Db :=
  {| universities := universities db; users := users db;
     user_profiles := user_profiles db; connections := connections db;
     connection_requests := connection_requests db; mentors := l;
     mentorship_requests := mentorship_requests db;
     notifications := notifications db |}.

Definition set_mentorship_requests (l : list MentorshipRequest) (db : Db) : Db :=
  {| universities := universities db; users := users db;
     user_profiles := user_profiles db; connections := connections db;
     connection_requests := connection_requests db; mentors := mentors db;
     mentorship_requests := l;
     notifications := notifications db |}.

Definition set_notifications (l : list Notification) (db : Db) : Db :=
  {| universities := universities db; users := users db;
     user_profiles := user_profiles db; connections := connections db;
     connection_requests := connection_requests db; mentors := mentors db;
     mentorship_requests := mentorship_requests db;
     notifications := l |}.

Definition set_users (l : list User) (db : Db) : Db :=
  {| universities := universities db; users := l;
     user_profiles := user_profiles db; connections := connections db;
     connection_requests := connection_requests db; mentors := mentors db;
     mentorship_requests := mentorship_requests db;
     notifications := notifications db |}.

Definition set_user_profiles (l : list UserProfile) (db : Db) : Db :=
  {| universities := universities db; users := users db;
     user_profiles := l; connections := connections db;
     connection_requests := connection_requests db; mentors := mentors db;
     mentorship_requests := mentorship_requests db;
     notifications := notifications db |}.

(** ** Results of statements and the [Sql] monad *)

Inductive Outcome (A : Type) : Type :=
| Ok (a : A)
| Throw (message : string).
Arguments Ok {A} a.
Arguments Throw {A} message.

(** [faults k = Some msg]: the [k]-th statement issued while serving the
    request fails with an [Error] whose message is [msg]. *)
Definition Faults := nat -> option string.

Definition no_faults : Faults := fun _ => None.

Record World := { w_db : Db; w_tick : nat }.

Definition Sql (A : Type) : Type := Faults -> World -> Outcome A * World.

Definition ret {A} (a : A) : Sql A := fun _ w => (Ok a, w).

Definition throw {A} (message : string) : Sql A := fun _ w => (Throw message, w).

Definition bind {A B} (m : Sql A) (k : A -> Sql B) : Sql B :=
  fun f w =>
    match m f w with
    | (Ok a, w') => k a f w'
    | (Throw message, w') => (Throw message, w')
    end.

Declare Scope sql_scope.
Delimit Scope sql_scope with sql.
Notation "x <- m ;; k" := (bind m (fun x => k))
  (at level 100, m at next level, right associativity) : sql_scope.
Notation "m ;;; k" := (bind m (fun _ => k))
  (at level 100, right associativity) : sql_scope.
Local Open Scope sql_scope.

Definition next_tick (w : World) (db : Db) : World :=
  {| w_db := db; w_tick := S (w_tick w) |}.

(** One statement: refused by the oracle, refused by the schema ([run]
    throws, nothing is written), or executed. *)
Definition statement {A} (run : Db -> Outcome (A * Db)) : Sql A :=
  fun f w =>
    match f (w_tick w) with
    | Some message => (Throw message, next_tick w (w_db w))
    | None =>
        match run (w_db w) with
        | Ok (a, db') => (Ok a, next_tick w db')
        | Throw message => (Throw message, next_tick w (w_db w))
        end
    end.

(** [query(text, params)] of database/connection.ts for a [SELECT]. *)
Definition query {A} (select : Db -> list A) : Sql (list A) :=
  statement (fun db => Ok (select db, db)).

(** [query] for an [INSERT], [UPDATE] or [DELETE]. *)
Definition execute (write : Db -> Outcome Db) : Sql unit :=
  statement (fun db =>
    match write db with
    | Ok db' => Ok (tt, db')
    | Throw message => Throw message
    end).

(** [client.query('BEGIN')] and [client.query('COMMIT')]: nothing is
    written by the statement itself. *)
Definition BEGIN : Sql unit := execute Ok.
Definition COMMIT : Sql unit := execute Ok.

(** [transaction(callback)]: [pool.connect()], [BEGIN], the callback,
    [COMMIT]; on any throw after [connect], [ROLLBACK] and rethrow. An
    error of [ROLLBACK] itself replaces the one being handled; the
    uncommitted writes are lost with the session either way. *)
Definition transaction {A} (callback : Sql A) : Sql A :=
  fun f w =>
    match f (w_tick w) with
    | Some message => (Throw message, next_tick w (w_db w))
    | None =>
        let snapshot := w_db w in
        let body := (BEGIN ;;; result <- callback ;; COMMIT ;;; ret result) in
        match body f (next_tick w snapshot) with
        | (Ok result, w') => (Ok result, w')
        | (Throw message, w') =>
            match f (w_tick w') with
            | Some message' => (Throw message', next_tick w' snapshot)
            | None => (Throw message, next_tick w' snapshot)
            end
        end
    end.

(** ** HTTP responses *)

Record ConnectionUser := {
  cu_id : uuid;
  cu_name : string;
  cu_avatar : option string;
  cu_university : option string;
  cu_year : option Z;
  cu_major : option string;
  cu_job_title : option string;
  cu_company : option string
}.

Record ConnectionItem := {
  ci_id : uuid;
  ci_user : ConnectionUser
}.

Record MentorItem := {
  mi_id : uuid;
  mi_user_id : uuid;
  mi_name : string;
  mi_avatar : option string;
  mi_title : option string;
  mi_company : option string;
  mi_location : option string;
  mi_bio : option string;
  mi_expertise : list string;
  mi_availability : option string;
  mi_years_experience : Z;
  mi_mentees_count : Z;
  mi_match_score : Z
}.

(** Payload signed by [generateToken]; the signature is not modelled. *)
Record JWTPayload := {
  jwt_userId : uuid;
  jwt_email : string;
  jwt_role : Role;
  jwt_universityId : option string
}.

(** The user of a login response: the joined row without
    [password_hash], [logo], [colors] and [is_enabled]. *)
Record SafeUser := {
  su_id : uuid;
  su_email : string;
  su_name : string;
  su_avatar : option string;
  su_university_id : option string;
  su_role : Role;
  su_is_mentor : bool;
  su_is_active : bool;
  su_university_name : option string
}.

Record Branding := {
  br_id : string;
  br_name : option string;
  br_is_enabled : option bool
}.

(** [ValidationFailed] is [{ detail: 'Validation failed', errors }]; the
    errors are zod's messages. *)
Inductive Body :=
| Detail (detail : string)
| Success (message : string)
| CheckResult (is_connected : bool) (request_status : option Status)
| ConnectionList (items : list ConnectionItem) (total : nat)
| MentorList (items : list MentorItem) (total : nat)
| LoginResult (access_token : JWTPayload) (user : SafeUser)
    (university_branding : option Branding)
    (all_universities : option (list University))
| ValidationFailed.

Record Response := { res_status : nat; res_body : Body }.

Definition json (code : nat) (b : Body) : Response :=
  {| res_status := code; res_body := b |}.

Definition Handler := Faults -> World -> Response * World.

(** [try { ... } catch (error) { ... }] around the body of a route. *)
Definition try_catch (body : Sql Response) (on_error : string -> Response) : Handler :=
  fun f w =>
    match body f w with
    | (Ok r, w') => (r, w')
    | (Throw message, w') => (on_error message, w')
    end.

(** Serving one request on a database. *)
Definition serve (h : Handler) (f : Faults) (db : Db) : Response * Db :=
  let (r, w) := h f {| w_db := db; w_tick := 0 |} in (r, w_db w).

(** ** The schema: constraints checked by the storage layer

    Each [insert_*] follows the [CREATE TABLE] of its table in schema.sql:
    primary key, then [UNIQUE] constraints, then foreign keys. Columns the
    routes always fill are modelled without [NULL]. The text of the error
    messages is PostgreSQL's, without its quotation marks. *)

Definition unique_violation (name : string) : string :=
  ("duplicate key value violates unique constraint " ++ name)%string.

Definition foreign_key_violation (table name : string) : string :=
  ("insert or update on table " ++ table
   ++ " violates foreign key constraint " ++ name)%string.

Definition has_user (id : uuid) (db : Db) : bool :=
  existsb (fun u => (u_id u =? id)%N) (users db).

Definition has_university (id : string) (db : Db) : bool :=
  existsb (fun un => (un_id un =? id)%string) (universities db).

Definition has_mentor (id : uuid) (db : Db) : bool :=
  existsb (fun m => (m_id m =? id)%N) (mentors db).

(** [users]: [id UUID PRIMARY KEY], [email VARCHAR(255) UNIQUE NOT NULL],
    [university_id ... REFERENCES universities(id)]. *)
Definition insert_user (u : User) (db : Db) : Outcome Db :=
  if existsb (fun x => (u_id x =? u_id u)%N) (users db)
  then Throw (unique_violation "users_pkey")
  else if existsb (fun x => (u_email x =? u_email u)%string) (users db)
  then Throw (unique_violation "users_email_key")
  else
    match u_university_id u with
    | Some un =>
        if has_university un db
        then Ok (set_users (users db ++ [u]) db)
        else Throw (foreign_key_violation "users" "users_university_id_fkey")
    | None => Ok (set_users (users db ++ [u]) db)
    end.

(** [user_profiles]: [user_id UUID UNIQUE REFERENCES users(id)]. *)
Definition insert_user_profile (p : UserProfile) (db : Db) : Outcome Db :=
  if existsb (fun x => (up_user_id x =? up_user_id p)%N) (user_profiles db)
  then Throw (unique_violation "user_profiles_user_id_key")
  else if negb (has_user (up_user_id p) db)
  then Throw (foreign_key_violation "user_profiles" "user_profiles_user_id_fkey")
  else Ok (set_user_profiles (user_profiles db ++ [p]) db).

(** [connections]: [UNIQUE(user_id, connected_user_id)]. *)
Definition insert_connection (c : Connection) (db : Db) : Outcome Db :=
  if existsb (fun x => (c_id x =? c_id c)%N) (connections db)
  then Throw (unique_violation "connections_pkey")
  else if existsb (fun x => (c_user_id x =? c_user_id c)%N
                            && (c_connected_user_id x =? c_connected_user_id c)%N)
            (connections db)
  then Throw (unique_violation "connections_user_id_connected_user_id_key")
  else if negb (has_user (c_user_id c) db)
  then Throw (foreign_key_violation "connections" "connections_user_id_fkey")
  else if negb (has_user (c_connected_user_id c) db)
  then Throw (foreign_key_violation "connections" "connections_connected_user_id_fkey")
  else Ok (set_connections (connections db ++ [c]) db).

(** [connection_requests]: [UNIQUE(from_user_id, to_user_id)]. *)
Definition insert_connection_request (r : ConnectionRequest) (db : Db) : Outcome Db :=
  if existsb (fun x => (cr_id x =? cr_id r)%N) (connection_requests db)
  then Throw (unique_violation "connection_requests_pkey")
  else if existsb (fun x => (cr_from_user_id x =? cr_from_user_id r)%N
                            && (cr_to_user_id x =? cr_to_user_id r)%N)
            (connection_requests db)
  then Throw (unique_violation "connection_requests_from_user_id_to_user_id_key")
  else if negb (has_user (cr_from_user_id r) db)
  then Throw (foreign_key_violation "connection_requests" "connection_requests_from_user_id_fkey")
  else if negb (has_user (cr_to_user_id r) db)
  then Throw (foreign_key_violation "connection_requests" "connection_requests_to_user_id_fkey")
  else Ok (set_connection_requests (connection_requests db ++ [r]) db).

(** [mentors]: [user_id UUID UNIQUE REFERENCES users(id)]. *)
Definition insert_mentor (m : Mentor) (db : Db) : Outcome Db :=
  if existsb (fun x => (m_id x =? m_id m)%N) (mentors db)
  then Throw (unique_violation "mentors_pkey")
  else if existsb (fun x => (m_user_id x =? m_user_id m)%N) (mentors db)
  then Throw (unique_violation "mentors_user_id_key")
  else if negb (has_user (m_user_id m) db)
  then Throw (foreign_key_violation "mentors" "mentors_user_id_fkey")
  else Ok (set_mentors (mentors db ++ [m]) db).

(** [mentorship_requests]: [UNIQUE(mentor_id, mentee_id)]. *)
Definition insert_mentorship_request (r : MentorshipRequest) (db : Db) : Outcome Db :=
  if existsb (fun x => (mr_id x =? mr_id r)%N) (mentorship_requests db)
  then Throw (unique_violation "mentorship_requests_pkey")
  else if existsb (fun x => (mr_mentor_id x =? mr_mentor_id r)%N
                            && (mr_mentee_id x =? mr_mentee_id r)%N)
            (mentorship_requests db)
  then Throw (unique_violation "mentorship_requests_mentor_id_mentee_id_key")
  else if negb (has_mentor (mr_mentor_id r) db)
  then Throw (foreign_key_violation "mentorship_requests" "mentorship_requests_mentor_id_fkey")
  else if negb (has_user (mr_mentee_id r) db)
  then Throw (foreign_key_violation "mentorship_requests" "mentorship_requests_mentee_id_fkey")
  else Ok (set_mentorship_requests (mentorship_requests db ++ [r]) db).

(** [notifications]: [user_id UUID REFERENCES users(id)]; the rows of an
    [INSERT ... SELECT] are checked and written together. *)
Definition insert_notifications (rows : list Notification) (db : Db) : Outcome Db :=
  if forallb (fun n => has_user (n_user_id n) db) rows
  then Ok (set_notifications (notifications db ++ rows) db)
  else Throw (foreign_key_violation "notifications" "notifications_user_id_fkey").

(** [mentees_count INTEGER]: a 32-bit signed column. *)
Definition INTEGER_MAX : Z := 2147483647.

(** ** middleware/auth.ts *)

(** What [jwt.verify] makes of the [Authorization] header: no bearer
    token, a [JsonWebTokenError], a [TokenExpiredError], an error of
    another name, or the [userId] of the payload. *)
Inductive Credential :=
| NoBearer
| InvalidToken
| ExpiredToken
| OtherTokenError
| Verified (userId : uuid).

Record AuthenticatedRequest := { userId : uuid; user : User }.

(** [SELECT * FROM users WHERE id = $1 AND is_active = true] *)
Definition select_active_user (id : uuid) (db : Db) : list User :=
  filter (fun u => (u_id u =? id)%N && u_is_active u) (users db).

(** [authenticate]: the first row found becomes [req.user]. *)
Definition authenticate (cred : Credential)
    (next : AuthenticatedRequest -> Handler) : Handler :=
  fun f w =>
    match cred with
    | NoBearer => (json 401 (Detail "Authentication required"), w)
    | InvalidToken => (json 401 (Detail "Invalid token"), w)
    | ExpiredToken => (json 401 (Detail "Token expired"), w)
    | OtherTokenError => (json 500 (Detail "Internal server error"), w)
    | Verified id =>
        match query (select_active_user id) f w with
        | (Throw _, w') => (json 500 (Detail "Internal server error"), w')
        | (Ok [], w') => (json 401 (Detail "User not found or inactive"), w')
        | (Ok (u :: _), w') => next {| userId := id; user := u |} f w'
        end
    end.

Definition generateToken (u : User) : JWTPayload :=
  {| jwt_userId := u_id u; jwt_email := u_email u; jwt_role := u_role u;
     jwt_universityId := u_university_id u |}.

(** JavaScript's [a || b] on strings. *)
Definition or_else (a b : string) : string :=
  match a with EmptyString => b | _ => a end.

(** ** routes/connections.ts *)

(** [(user_id = $1 AND connected_user_id = $2) OR
     (user_id = $2 AND connected_user_id = $1)] *)
Definition connects (a b : uuid) (c : Connection) : bool :=
  ((c_user_id c =? a)%N && (c_connected_user_id c =? b)%N)
  || ((c_user_id c =? b)%N && (c_connected_user_id c =? a)%N).

(** [(from_user_id = $1 AND to_user_id = $2) OR
     (from_user_id = $2 AND to_user_id = $1)] *)
Definition requested (a b : uuid) (r : ConnectionRequest) : bool :=
  ((cr_from_user_id r =? a)%N && (cr_to_user_id r =? b)%N)
  || ((cr_from_user_id r =? b)%N && (cr_to_user_id r =? a)%N).

(** [SELECT id FROM connections WHERE ...] for the pair. *)
Definition select_connections (a b : uuid) (db : Db) : list Connection :=
  filter (connects a b) (connections db).

(** [SELECT id, status FROM connection_requests WHERE ...] for the pair. *)
Definition select_requests (a b : uuid) (db : Db) : list ConnectionRequest :=
  filter (requested a b) (connection_requests db).

Definition set_status (s : Status) (r : ConnectionRequest) : ConnectionRequest :=
  {| cr_id := cr_id r; cr_from_user_id := cr_from_user_id r;
     cr_to_user_id := cr_to_user_id r; cr_status := s |}.

Definition with_status (s : Status) (id : uuid) (l : list ConnectionRequest)
    : list ConnectionRequest :=
  map (fun r => if (cr_id r =? id)%N then set_status s r else r) l.

(** [UPDATE connection_requests SET status = $1 WHERE id = $2] *)
Definition update_request_status (s : Status) (id : uuid) (db : Db) : Outcome Db :=
  Ok (set_connection_requests (with_status s id (connection_requests db)) db).

(** [SELECT $1, 'connection_request', 'New Connection Request',
     $2 || ' wants to connect with you', avatar, '/connections', $3
     FROM users WHERE id = $4] *)
Definition connection_request_rows (to_user_id : uuid) (name : string)
    (requestId from : uuid) (db : Db) : list Notification :=
  map (fun u =>
         {| n_user_id := to_user_id; n_type := "connection_request";
            n_title := "New Connection Request";
            n_message := (name ++ " wants to connect with you")%string;
            n_avatar := u_avatar u; n_is_read := false;
            n_action_url := Some "/connections";
            n_related_id := Some requestId |})
      (filter (fun u => (u_id u =? from)%N) (users db)).

(** [INSERT INTO notifications (...)] of the rows above. *)
Definition notify_connection_request (to_user_id : uuid) (name : string)
    (requestId from : uuid) (db : Db) : Outcome Db :=
  insert_notifications (connection_request_rows to_user_id name requestId from db) db.

(** [SELECT $1, 'connection_accepted', 'Connection Accepted',
     name || ' accepted your connection request', avatar, '/connections'
     FROM users WHERE id = $2] *)
Definition connection_accepted_rows (from_user_id actor : uuid) (db : Db)
    : list Notification :=
  map (fun u =>
         {| n_user_id := from_user_id; n_type := "connection_accepted";
            n_title := "Connection Accepted";
            n_message := (u_name u ++ " accepted your connection request")%string;
            n_avatar := u_avatar u; n_is_read := false;
            n_action_url := Some "/connections";
            n_related_id := None |})
      (filter (fun u => (u_id u =? actor)%N) (users db)).

(** [INSERT INTO notifications (...)] of the rows above. *)
Definition notify_connection_accepted (from_user_id actor : uuid) (db : Db) : Outcome Db :=
  insert_notifications (connection_accepted_rows from_user_id actor db) db.

Definition nonempty {A} (rows : list A) : bool := (0 <? List.length rows)%nat.

(** [POST /connections/request] (sendRequest). [to_user_id] is [None]
    when the body has no [to_user_id] or a falsy one, and otherwise the
    text the client wrote, which [===] compares with the identifier of
    the token and the statements read as an identifier; [requestId] is
    the value of [uuidv4()]. *)
Definition post_request (to_user_id : option UuidText) (requestId : uuid)
    (req : AuthenticatedRequest) : Handler :=
  try_catch
    match to_user_id with
    | None => ret (json 400 (Detail "Target user ID is required"))
    | Some text =>
        if same_text text (userId req)
        then ret (json 400 (Detail "Cannot connect to yourself"))
        else
          let to := parsed text in
          existingConnection <- query (select_connections (userId req) to) ;;
          if nonempty existingConnection
          then ret (json 400 (Detail "Already connected"))
          else
            existingRequest <- query (select_requests (userId req) to) ;;
            if nonempty existingRequest
            then ret (json 400 (Detail "Request already exists"))
            else
              execute (insert_connection_request
                         {| cr_id := requestId; cr_from_user_id := userId req;
                            cr_to_user_id := to; cr_status := pending |}) ;;;
              execute (notify_connection_request to (u_name (user req))
                         requestId (userId req)) ;;;
              ret (json 200 (Success "Connection request sent"))
    end
    (fun _ => json 500 (Detail "Failed to send request")).

(** [SELECT * FROM connection_requests
     WHERE id = $1 AND to_user_id = $2 AND status = $3] *)
Definition select_pending_request (requestId actor : uuid) (db : Db)
    : list ConnectionRequest :=
  filter (fun r => (cr_id r =? requestId)%N && (cr_to_user_id r =? actor)%N
                   && Status_eqb (cr_status r) pending)
         (connection_requests db).

(** The callback of the transaction of the accept route. *)
Definition accept_callback (requestId connId actor : uuid) : Sql unit :=
  request <- query (select_pending_request requestId actor) ;;
  match request with
  | [] => throw "Request not found or already processed"
  | req_ :: _ =>
      execute (update_request_status accepted requestId) ;;;
      execute (insert_connection
                 {| c_id := connId; c_user_id := cr_from_user_id req_;
                    c_connected_user_id := cr_to_user_id req_ |}) ;;;
      execute (notify_connection_accepted (cr_from_user_id req_) actor)
  end.

(** [PUT /connections/requests/:requestId/accept] (acceptRequest);
    [connId] is the value of [uuidv4()]. *)
Definition put_request_accept (requestId connId : uuid)
    (req : AuthenticatedRequest) : Handler :=
  try_catch
    (transaction (accept_callback requestId connId (userId req)) ;;;
     ret (json 200 (Success "Request accepted")))
    (fun message => json 400 (Detail (or_else message "Failed to accept request"))).

(** [UPDATE connection_requests SET status = $1
     WHERE id = $2 AND to_user_id = $3 AND status = $4 RETURNING id] *)
Definition update_reject (requestId actor : uuid) (db : Db)
    : Outcome (list uuid * Db) :=
  let hit r := (cr_id r =? requestId)%N && (cr_to_user_id r =? actor)%N
               && Status_eqb (cr_status r) pending in
  Ok (map cr_id (filter hit (connection_requests db)),
      set_connection_requests
        (map (fun r => if hit r then set_status rejected r else r)
             (connection_requests db)) db).

(** [PUT /connections/requests/:requestId/reject] (rejectRequest). *)
Definition put_request_reject (requestId : uuid)
    (req : AuthenticatedRequest) : Handler :=
  try_catch
    (result <- statement (update_reject requestId (userId req)) ;;
     if nonempty result
     then ret (json 200 (Success "Request rejected"))
     else ret (json 404 (Detail "Request not found or already processed")))
    (fun _ => json 500 (Detail "Failed to reject request")).

(** [DELETE FROM connections WHERE (user_id = $1 AND connected_user_id = $2)
     OR (user_id = $2 AND connected_user_id = $1)] *)
Definition delete_connections (a b : uuid) (db : Db) : Outcome Db :=
  Ok (set_connections (filter (fun c => negb (connects a b c)) (connections db)) db).

(** [DELETE /connections/:connectionId] (removeConnection); the parameter
    is the other user's id. *)
Definition delete_connection (connectionId : uuid)
    (req : AuthenticatedRequest) : Handler :=
  try_catch
    (execute (delete_connections (userId req) connectionId) ;;;
     ret (json 200 (Success "Connection removed")))
    (fun _ => json 500 (Detail "Failed to remove connection")).

(** [GET /connections/check/:userId] (checkStatus). *)
Definition get_check (other : uuid) (req : AuthenticatedRequest) : Handler :=
  try_catch
    (connection <- query (select_connections (userId req) other) ;;
     if nonempty connection
     then ret (json 200 (CheckResult true None))
     else
       request <- query (select_requests (userId req) other) ;;
       match request with
       | r :: _ => ret (json 200 (CheckResult false (Some (cr_status r))))
       | [] => ret (json 200 (CheckResult false None))
       end)
    (fun _ => json 500 (Detail "Failed to check connection")).

(** *** Suggestions *)

(** The rows a left join makes of one row of its left table: every
    match, or the row alone. *)
Definition joined_rows {A B} (on : A -> B -> bool) (r : list B) (a : A)
    : list (A * option B) :=
  match filter (on a) r with
  | [] => [(a, None)]
  | bs => map (fun b => (a, Some b)) bs
  end.

(** [a LEFT JOIN b ON on a b] *)
Definition left_join {A B} (on : A -> B -> bool) (l : list A) (r : list B)
    : list (A * option B) :=
  flat_map (joined_rows on r) l.

(** [a JOIN b ON on a b] *)
Definition inner_join {A B} (on : A -> B -> bool) (l : list A) (r : list B)
    : list (A * B) :=
  flat_map (fun a => map (fun b => (a, b)) (filter (on a) r)) l.

(** SQL equality of two nullable texts: unknown, hence not selected, when
    either is [NULL]. *)
Definition sql_eq (a b : option string) : bool :=
  match a, b with
  | Some x, Some y => (x =? y)%string
  | _, _ => false
  end.

Definition references_university (u : User) (un : University) : bool :=
  sql_eq (u_university_id u) (Some (un_id un)).

(** [ORDER BY]: a row goes behind the rows that sort before it, and rows
    that sort alike stay in the order of the scan. *)
Fixpoint insert_by {A} (before : A -> A -> bool) (x : A) (l : list A) : list A :=
  match l with
  | [] => [x]
  | y :: l' => if before y x then y :: insert_by before x l' else x :: l
  end.

Definition order_by {A} (before : A -> A -> bool) (l : list A) : list A :=
  fold_right (insert_by before) [] l.

(** Rows paired with their position. *)
Definition indexed {A} (l : list A) : list (nat * A) :=
  combine (seq 0 (List.length l)) l.

(** [ORDER BY RANDOM()]: [random i] is the value drawn for the [i]-th row. *)
Definition order_by_random {A} (random : nat -> Z) (l : list A) : list A :=
  map snd (order_by (fun p q => (random (fst p) <? random (fst q))%Z) (indexed l)).

(** [LIMIT n] *)
Definition limit_rows {A} (n : Z) (l : list A) : Outcome (list A) :=
  if (n <? 0)%Z then Throw "LIMIT must not be negative"
  else Ok (firstn (Z.to_nat n) l).

(** [OFFSET n] *)
Definition offset_rows {A} (n : Z) (l : list A) : Outcome (list A) :=
  if (n <? 0)%Z then Throw "OFFSET must not be negative"
  else Ok (skipn (Z.to_nat n) l).

(** [(SELECT university_id FROM users WHERE id = $1)] used as a value. *)
Definition university_of (actor : uuid) (db : Db) : Outcome (option string) :=
  match filter (fun u => (u_id u =? actor)%N) (users db) with
  | [] => Ok None
  | [u] => Ok (u_university_id u)
  | _ => Throw "more than one row returned by a subquery used as an expression"
  end.

(** [SELECT connected_user_id FROM connections WHERE user_id = $1 UNION
     SELECT user_id FROM connections WHERE connected_user_id = $1] *)
Definition connected_ids (actor : uuid) (db : Db) : list uuid :=
  map c_connected_user_id
      (filter (fun c => (c_user_id c =? actor)%N) (connections db))
  ++ map c_user_id
      (filter (fun c => (c_connected_user_id c =? actor)%N) (connections db)).

(** [SELECT to_user_id FROM connection_requests
     WHERE from_user_id = $1 AND status = 'pending'] *)
Definition pending_targets (actor : uuid) (db : Db) : list uuid :=
  map cr_to_user_id
      (filter (fun r => (cr_from_user_id r =? actor)%N
                        && Status_eqb (cr_status r) pending)
              (connection_requests db)).

Definition mem (id : uuid) (l : list uuid) : bool :=
  existsb (fun x => (x =? id)%N) l.

(** The [WHERE] clause of the suggestions query. *)
Definition suggestion_where (actor : uuid) (tenant : option string) (db : Db)
    (u : User) : bool :=
  negb (u_id u =? actor)%N
  && u_is_active u
  && Role_eqb (u_role u) alumni
  && sql_eq (u_university_id u) tenant
  && negb (mem (u_id u) (connected_ids actor db))
  && negb (mem (u_id u) (pending_targets actor db)).

Definition SuggestionRow : Type := (User * option University) * option UserProfile.

Definition select_suggestions (actor : uuid) (limit : Z) (random : nat -> Z)
    (db : Db) : Outcome (list SuggestionRow * Db) :=
  match university_of actor db with
  | Throw message => Throw message
  | Ok tenant =>
      let joined :=
        left_join (fun p up => (u_id (fst p) =? up_user_id up)%N)
          (left_join references_university (users db) (universities db))
          (user_profiles db) in
      let kept := filter (fun row => suggestion_where actor tenant db (fst (fst row))) joined in
      match limit_rows limit (order_by_random random kept) with
      | Throw message => Throw message
      | Ok rows => Ok (rows, db)
      end
  end.

Definition suggestion_item (fresh : nat -> uuid) (p : nat * SuggestionRow)
    : ConnectionItem :=
  let '(i, ((u, un), up)) := p in
  {| ci_id := fresh i;
     ci_user :=
       {| cu_id := u_id u; cu_name := u_name u; cu_avatar := u_avatar u;
          cu_university := option_map un_name un;
          cu_year := u_graduation_year u; cu_major := u_major u;
          cu_job_title := match up with Some p => up_job_title p | None => None end;
          cu_company := match up with Some p => up_company p | None => None end |} |}.

Definition or_default (d : Z) (o : option Z) : Z :=
  match o with Some z => z | None => d end.

(** [GET /connections/suggestions] (listSuggestions). [limit] is
    [Number(req.query.limit)] when present; [fresh i] is the [uuidv4()]
    of the [i]-th item. *)
Definition get_suggestions (limit : option Z) (random : nat -> Z)
    (fresh : nat -> uuid) (req : AuthenticatedRequest) : Handler :=
  try_catch
    (result <- statement (select_suggestions (userId req) (or_default 10 limit) random) ;;
     let items := map (suggestion_item fresh) (indexed result) in
     ret (json 200 (ConnectionList items (List.length items))))
    (fun _ => json 500 (Detail "Failed to get suggestions")).

(** ** routes/mentors.ts *)

(** JavaScript truthiness of an optional string. *)
Definition truthy (o : option string) : bool :=
  match o with
  | Some (String _ _) => true
  | _ => false
  end.

Record MentorQuery := {
  q_expertise : option string;
  q_availability : option string;
  q_search : option string;
  q_page : option Z;
  q_page_size : option Z
}.

Definition set_mentor_status (s : Status) (r : MentorshipRequest) : MentorshipRequest :=
  {| mr_id := mr_id r; mr_mentor_id := mr_mentor_id r;
     mr_mentee_id := mr_mentee_id r; mr_message := mr_message r;
     mr_status := s |}.

Definition add_mentee (m : Mentor) : Mentor :=
  {| m_id := m_id m; m_user_id := m_user_id m; m_title := m_title m;
     m_company := m_company m; m_location := m_location m; m_bio := m_bio m;
     m_expertise := m_expertise m; m_availability := m_availability m;
     m_years_experience := m_years_experience m;
     m_mentees_count := (m_mentees_count m + 1)%Z;
     m_is_active := m_is_active m |}.

Section Mentors.

(** [text ILIKE pattern] of the storage layer. *)
Variable ilike : string -> string -> bool.

Definition ilike_null (text : option string) (pattern : string) : bool :=
  match text with
  | Some t => ilike t pattern
  | None => false
  end.

(** The conditions pushed on [conditions] by [GET /mentors], joined by
    [AND]; [tenant] is [req.user?.university_id]. *)
Definition mentor_where (tenant : option string) (q : MentorQuery)
    (row : Mentor * User) : bool :=
  let (m, u) := row in
  m_is_active m && u_is_mentor u && u_is_active u
  && (if truthy tenant then sql_eq (u_university_id u) tenant else true)
  && (match q_expertise q with
      | Some (String a e) =>
          existsb (fun t => (t =? String a e)%string) (m_expertise m)
      | _ => true
      end)
  && (match q_availability q with
      | Some (String a e) => sql_eq (m_availability m) (Some (String a e))
      | _ => true
      end)
  && (match q_search q with
      | Some (String a e) =>
          let pattern := ("%" ++ String a e ++ "%")%string in
          ilike (u_name u) pattern || ilike_null (m_bio m) pattern
          || ilike_null (m_title m) pattern
      | _ => true
      end).

(** [FROM mentors m JOIN users u ON m.user_id = u.id WHERE ...] *)
Definition mentor_rows (tenant : option string) (q : MentorQuery) (db : Db)
    : list (Mentor * User) :=
  filter (mentor_where tenant q)
         (inner_join (fun m u => (m_user_id m =? u_id u)%N) (mentors db) (users db)).

(** [... ORDER BY m.years_experience DESC LIMIT $n OFFSET $m] *)
Definition select_mentors (tenant : option string) (q : MentorQuery)
    (page_size offset : Z) (db : Db) : Outcome (list (Mentor * User) * Db) :=
  let sorted :=
    order_by (fun a b => (m_years_experience (fst b) <? m_years_experience (fst a))%Z)
             (mentor_rows tenant q db) in
  match offset_rows offset sorted with
  | Throw message => Throw message
  | Ok rest =>
      match limit_rows page_size rest with
      | Throw message => Throw message
      | Ok rows => Ok (rows, db)
      end
  end.

Definition mentor_item (score : nat -> Z) (p : nat * (Mentor * User)) : MentorItem :=
  let '(i, (m, u)) := p in
  {| mi_id := m_id m; mi_user_id := u_id u; mi_name := u_name u;
     mi_avatar := u_avatar u; mi_title := m_title m; mi_company := m_company m;
     mi_location := m_location m; mi_bio := m_bio m;
     mi_expertise := m_expertise m; mi_availability := m_availability m;
     mi_years_experience := m_years_experience m;
     mi_mentees_count := m_mentees_count m; mi_match_score := score i |}.

(** [GET /mentors] (listMentors). [score i] is the value of
    [ROUND(RANDOM() * 30 + 70)] for the [i]-th row. *)
Definition get_mentors (q : MentorQuery) (score : nat -> Z)
    (req : AuthenticatedRequest) : Handler :=
  try_catch
    (let tenant := u_university_id (user req) in
     let page := or_default 1 (q_page q) in
     let page_size := or_default 20 (q_page_size q) in
     let offset := ((page - 1) * page_size)%Z in
     countResult <- query (mentor_rows tenant q) ;;
     let total := List.length countResult in
     result <- statement (select_mentors tenant q page_size offset) ;;
     ret (json 200 (MentorList (map (mentor_item score) (indexed result)) total)))
    (fun _ => json 500 (Detail "Failed to get mentors")).

End Mentors.

(** [SELECT id FROM mentorship_requests WHERE mentor_id = $1 AND mentee_id = $2] *)
Definition select_mentorship_requests (mentorId mentee : uuid) (db : Db)
    : list MentorshipRequest :=
  filter (fun r => (mr_mentor_id r =? mentorId)%N && (mr_mentee_id r =? mentee)%N)
         (mentorship_requests db).

(** [SELECT user_id FROM mentors WHERE id = $1 AND is_active = true] *)
Definition select_active_mentor (mentorId : uuid) (db : Db) : list Mentor :=
  filter (fun m => (m_id m =? mentorId)%N && m_is_active m) (mentors db).

(** [SELECT $1, 'mentorship_request', 'New Mentorship Request',
     $2 || ' wants to be your mentee', avatar, '/mentorship', $3
     FROM users WHERE id = $4] *)
Definition mentorship_request_rows (mentor_user : uuid) (name : string)
    (requestId mentee : uuid) (db : Db) : list Notification :=
  map (fun u =>
         {| n_user_id := mentor_user; n_type := "mentorship_request";
            n_title := "New Mentorship Request";
            n_message := (name ++ " wants to be your mentee")%string;
            n_avatar := u_avatar u; n_is_read := false;
            n_action_url := Some "/mentorship";
            n_related_id := Some requestId |})
      (filter (fun u => (u_id u =? mentee)%N) (users db)).

(** [POST /mentors/:mentorId/request] (requestMentorship); [requestId]
    is the value of [uuidv4()]. *)
Definition post_mentorship_request (mentorId : uuid) (message : option string)
    (requestId : uuid) (req : AuthenticatedRequest) : Handler :=
  try_catch
    (existing <- query (select_mentorship_requests mentorId (userId req)) ;;
     if nonempty existing
     then ret (json 400 (Detail "Request already sent"))
     else
       mentor <- query (select_active_mentor mentorId) ;;
       match mentor with
       | [] => ret (json 404 (Detail "Mentor not found"))
       | m :: _ =>
           if (m_user_id m =? userId req)%N
           then ret (json 400 (Detail "Cannot request mentorship from yourself"))
           else
             execute (insert_mentorship_request
                        {| mr_id := requestId; mr_mentor_id := mentorId;
                           mr_mentee_id := userId req; mr_message := message;
                           mr_status := pending |}) ;;;
             execute (fun db =>
                        insert_notifications
                          (mentorship_request_rows (m_user_id m)
                             (u_name (user req)) requestId (userId req) db) db) ;;;
             ret (json 200 (Success "Mentorship request sent"))
       end)
    (fun _ => json 500 (Detail "Failed to send request")).

(** [SELECT mr.*, m.user_id as mentor_user_id
     FROM mentorship_requests mr JOIN mentors m ON mr.mentor_id = m.id
     WHERE mr.id = $1 AND mr.status = 'pending'] *)
Definition select_pending_mentorship (requestId : uuid) (db : Db)
    : list (MentorshipRequest * Mentor) :=
  filter (fun row => (mr_id (fst row) =? requestId)%N
                     && Status_eqb (mr_status (fst row)) pending)
         (inner_join (fun mr m => (mr_mentor_id mr =? m_id m)%N)
                     (mentorship_requests db) (mentors db)).

Definition with_mentor_status (s : Status) (id : uuid) (l : list MentorshipRequest)
    : list MentorshipRequest :=
  map (fun r => if (mr_id r =? id)%N then set_mentor_status s r else r) l.

Definition with_new_mentee (id : uuid) (l : list Mentor) : list Mentor :=
  map (fun m => if (m_id m =? id)%N then add_mentee m else m) l.

(** [UPDATE mentorship_requests SET status = ... WHERE id = $1] *)
Definition update_mentorship_status (s : Status) (id : uuid) (db : Db) : Outcome Db :=
  Ok (set_mentorship_requests
        (with_mentor_status s id (mentorship_requests db)) db).

(** [UPDATE mentors SET mentees_count = mentees_count + 1 WHERE id = $1];
    the statement fails when a new value leaves the range of [INTEGER]. *)
Definition increment_mentees (id : uuid) (db : Db) : Outcome Db :=
  if existsb (fun m => (m_id m =? id)%N && (INTEGER_MAX <? m_mentees_count m + 1)%Z)
             (mentors db)
  then Throw "integer out of range"
  else Ok (set_mentors (with_new_mentee id (mentors db)) db).

(** [SELECT $1, 'mentorship_accepted', 'Mentorship Request Accepted',
     name || ' accepted your mentorship request', avatar, '/mentorship'
     FROM users WHERE id = $2] *)
Definition mentorship_accepted_rows (mentee actor : uuid) (db : Db)
    : list Notification :=
  map (fun u =>
         {| n_user_id := mentee; n_type := "mentorship_accepted";
            n_title := "Mentorship Request Accepted";
            n_message := (u_name u ++ " accepted your mentorship request")%string;
            n_avatar := u_avatar u; n_is_read := false;
            n_action_url := Some "/mentorship";
            n_related_id := None |})
      (filter (fun u => (u_id u =? actor)%N) (users db)).

(** [INSERT INTO notifications (...)] of the rows above. *)
Definition notify_mentorship_accepted (mentee actor : uuid) (db : Db) : Outcome Db :=
  insert_notifications (mentorship_accepted_rows mentee actor db) db.

Definition mentorship_accept_callback (requestId actor : uuid) : Sql unit :=
  request <- query (select_pending_mentorship requestId) ;;
  match request with
  | [] => throw "Request not found or already processed"
  | (mr, m) :: _ =>
      if negb (m_user_id m =? actor)%N
      then throw "Not authorized"
      else
        execute (update_mentorship_status accepted requestId) ;;;
        execute (increment_mentees (mr_mentor_id mr)) ;;;
        execute (notify_mentorship_accepted (mr_mentee_id mr) actor)
  end.

(** [PUT /mentors/requests/:requestId/accept] (acceptMentorship). *)
Definition put_mentorship_accept (requestId : uuid)
    (req : AuthenticatedRequest) : Handler :=
  try_catch
    (transaction (mentorship_accept_callback requestId (userId req)) ;;;
     ret (json 200 (Success "Request accepted")))
    (fun message => json 400 (Detail (or_else message "Failed to accept request"))).

(** [SELECT mr.* FROM mentorship_requests mr JOIN mentors m ON mr.mentor_id = m.id
     WHERE mr.id = $1 AND m.user_id = $2 AND mr.status = 'pending'] *)
Definition select_own_pending_mentorship (requestId actor : uuid) (db : Db)
    : list (MentorshipRequest * Mentor) :=
  filter (fun row => (mr_id (fst row) =? requestId)%N
                     && (m_user_id (snd row) =? actor)%N
                     && Status_eqb (mr_status (fst row)) pending)
         (inner_join (fun mr m => (mr_mentor_id mr =? m_id m)%N)
                     (mentorship_requests db) (mentors db)).

(** [PUT /mentors/requests/:requestId/reject] (rejectMentorship). *)
Definition put_mentorship_reject (requestId : uuid)
    (req : AuthenticatedRequest) : Handler :=
  try_catch
    (request <- query (select_own_pending_mentorship requestId (userId req)) ;;
     if nonempty request
     then
       execute (update_mentorship_status rejected requestId) ;;;
       ret (json 200 (Success "Request rejected"))
     else ret (json 404 (Detail "Request not found or already processed")))
    (fun _ => json 500 (Detail "Failed to reject request")).

(** ** middleware/validation.ts *)

(** [validate(schema)] in front of a handler: [schema.parse(req.body)]
    throws a [ZodError], answered with
    [{ detail: 'Validation failed', errors }], or the handler runs on the
    body as it was sent. A body is [None] when a field of the schema is
    missing or has not the type the schema names. *)
Definition validate {A} (schema : A -> bool) (body : option A)
    (next : A -> Handler) : Handler :=
  fun f w =>
    match body with
    | Some b => if schema b then next b f w else (json 400 ValidationFailed, w)
    | None => (json 400 ValidationFailed, w)
    end.

(** ** routes/auth.ts *)

Definition lower_ascii (c : ascii) : ascii :=
  let n := nat_of_ascii c in
  if ((65 <=? n) && (n <=? 90))%nat then ascii_of_nat (n + 32) else c.

(** Lower case on the letters A to Z: what [toLowerCase] does to a text
    of ASCII characters. *)
Fixpoint lower_ascii_text (s : string) : string :=
  match s with
  | EmptyString => EmptyString
  | String c s' => String (lower_ascii c) (lower_ascii_text s')
  end.

(** [SELECT u.*, un.name as university_name, un.logo, un.colors, un.is_enabled
     FROM users u LEFT JOIN universities un ON u.university_id = un.id
     WHERE u.email = $1] *)
Definition select_login (email : string) (db : Db) : list (User * option University) :=
  filter (fun row => (u_email (fst row) =? email)%string)
         (left_join references_university (users db) (universities db)).

Definition safe_user (row : User * option University) : SafeUser :=
  let (u, un) := row in
  {| su_id := u_id u; su_email := u_email u; su_name := u_name u;
     su_avatar := u_avatar u; su_university_id := u_university_id u;
     su_role := u_role u; su_is_mentor := u_is_mentor u;
     su_is_active := u_is_active u;
     su_university_name := option_map un_name un |}.

(** [user.is_enabled === false] on the joined row. *)
Definition is_disabled (un : option University) : bool :=
  match un with
  | Some x => negb (un_is_enabled x)
  | None => false
  end.

Record LoginBody := {
  lg_email : string;
  lg_password : string
}.

Record RegisterBody := {
  rg_email : string;
  rg_password : string;
  rg_name : string;
  rg_university_id : option string;
  rg_graduation_year : option Z;
  rg_major : option string
}.

(** [SELECT * FROM universities WHERE id = $1 AND is_enabled = true] *)
Definition select_enabled_university (id : string) (db : Db) : list University :=
  filter (fun un => (un_id un =? id)%string && un_is_enabled un) (universities db).

(** [SELECT id FROM users WHERE email = $1] *)
Definition select_by_email (email : string) (db : Db) : list User :=
  filter (fun u => (u_email u =? email)%string) (users db).

(** [SELECT u.*, un.name as university_name, un.logo, un.colors
     FROM users u LEFT JOIN universities un ON u.university_id = un.id
     WHERE u.id = $1] *)
Definition select_registered (id : uuid) (db : Db) : list (User * option University) :=
  filter (fun row => (u_id (fst row) =? id)%N)
         (left_join references_university (users db) (universities db)).

Section Auth.

(** [String.prototype.toLowerCase] *)
Variable toLowerCase : string -> string.

(** [a < b] in the collation of the database. *)
Variable text_lt : string -> string -> bool.

(** What [z.string().email()] accepts. *)
Variable is_email : string -> bool.

(** [bcrypt.compare(password, hash)] *)
Variable bcrypt_compare : string -> string -> bool.

(** [encodeURIComponent(text)] *)
Variable encodeURIComponent : string -> string.

(** [SELECT * FROM universities ORDER BY name] *)
Definition select_universities (db : Db) : list University :=
  order_by (fun a b => text_lt (un_name a) (un_name b)) (universities db).

(** [schemas.login] *)
Definition login_schema (b : LoginBody) : bool :=
  is_email (lg_email b) && negb (lg_password b =? "").

(** [schemas.register]; [min(6)] counts the characters of the text. *)
Definition register_schema (b : RegisterBody) : bool :=
  is_email (rg_email b)
  && (6 <=? String.length (rg_password b))%nat
  && negb (rg_name b =? "")
  && match rg_graduation_year b with
     | Some year => (1900 <=? year)%Z && (year <=? 2100)%Z
     | None => true
     end.

(** The handler of [POST /auth/register], behind
    [validate(schemas.register)]. [passwordHash] is the value of
    [bcrypt.hash(password, 10)] and [newId] that of [uuidv4()]. *)
Definition post_register (body : RegisterBody) (passwordHash : string)
    (newId : uuid) : Handler :=
  try_catch
    (known <- match rg_university_id body with
              | Some (String a s) =>
                  uniResult <- query (select_enabled_university (String a s)) ;;
                  ret (nonempty uniResult)
              | _ => ret true
              end ;;
     if negb known
     then ret (json 400 (Detail "Invalid or disabled university"))
     else
       existingUser <- query (select_by_email (toLowerCase (rg_email body))) ;;
       if nonempty existingUser
       then ret (json 400 (Detail "Email already registered"))
       else
         let avatar :=
           ("https://api.dicebear.com/7.x/avataaars/svg?seed="
            ++ encodeURIComponent (rg_email body))%string in
         transaction
           (execute (insert_user
                       {| u_id := newId;
                          u_email := toLowerCase (rg_email body);
                          u_password_hash := passwordHash;
                          u_name := rg_name body;
                          u_avatar := Some avatar;
                          u_university_id := rg_university_id body;
                          u_graduation_year := rg_graduation_year body;
                          u_major := rg_major body;
                          u_role := alumni;
                          u_is_mentor := false;
                          u_is_active := true |}) ;;;
            execute (insert_user_profile
                       {| up_user_id := newId; up_job_title := None;
                          up_company := None |})) ;;;
         userResult <- query (select_registered newId) ;;
         match userResult with
         | [] => throw "Cannot read properties of undefined (reading 'id')"
         | (user, un) :: _ =>
             let universityBranding :=
               match u_university_id user with
               | Some (String a s) =>
                   Some {| br_id := String a s; br_name := option_map un_name un;
                           br_is_enabled := None |}
               | _ => None
               end in
             ret (json 201 (LoginResult (generateToken user) (safe_user (user, un))
                              universityBranding None))
         end)
    (fun _ => json 500 (Detail "Registration failed")).

(** The handler of [POST /auth/login], behind [validate(schemas.login)]. *)
Definition post_login (email password : string) : Handler :=
  try_catch
    (userResult <- query (select_login (toLowerCase email)) ;;
     match userResult with
     | [] => ret (json 401 (Detail "Invalid email or password"))
     | (user, un) :: _ =>
         if negb (u_is_active user)
         then ret (json 401 (Detail "Account is deactivated"))
         else if negb (Role_eqb (u_role user) superadmin)
                 && truthy (u_university_id user) && is_disabled un
         then ret (json 401 (Detail "University is currently disabled"))
         else if negb (bcrypt_compare password (or_else (u_password_hash user) ""))
         then ret (json 401 (Detail "Invalid email or password"))
         else
           let token := generateToken user in
           let universityBranding :=
             match u_university_id user with
             | Some (String a s) =>
                 Some {| br_id := String a s; br_name := option_map un_name un;
                         br_is_enabled := option_map un_is_enabled un |}
             | _ => None
             end in
           all <- (if Role_eqb (u_role user) superadmin
                   then rows <- query select_universities ;; ret (Some rows)
                   else ret None) ;;
           ret (json 200 (LoginResult token (safe_user (user, un))
                            universityBranding all))
     end)
    (fun _ => json 500 (Detail "Login failed")).

(** [router.post('/login', validate(schemas.login), handler)] *)
Definition route_login (body : option LoginBody) : Handler :=
  validate login_schema body (fun b => post_login (lg_email b) (lg_password b)).

(** [router.post('/register', validate(schemas.register), handler)] *)
Definition route_register (body : option RegisterBody) (passwordHash : string)
    (newId : uuid) : Handler :=
  validate register_schema body (fun b => post_register b passwordHash newId).

End Auth.

(** ** The routes, behind [authenticate] *)

Definition route_send (cred : Credential) (to_user_id : option UuidText)
    (requestId : uuid) : Handler :=
  authenticate cred (post_request to_user_id requestId).

Definition route_accept (cred : Credential) (requestId connId : uuid) : Handler :=
  authenticate cred (put_request_accept requestId connId).

Definition route_reject (cred : Credential) (requestId : uuid) : Handler :=
  authenticate cred (put_request_reject requestId).

Definition route_remove (cred : Credential) (other : uuid) : Handler :=
  authenticate cred (delete_connection other).

Definition route_check (cred : Credential) (other : uuid) : Handler :=
  authenticate cred (get_check other).

Definition route_suggestions (cred : Credential) (limit : option Z)
    (random : nat -> Z) (fresh : nat -> uuid) : Handler :=
  authenticate cred (get_suggestions limit random fresh).

Definition route_mentors (ilike : string -> string -> bool) (cred : Credential)
    (q : MentorQuery) (score : nat -> Z) : Handler :=
  authenticate cred (get_mentors ilike q score).

Definition route_mentorship_request (cred : Credential) (mentorId : uuid)
    (message : option string) (requestId : uuid) : Handler :=
  authenticate cred (post_mentorship_request mentorId message requestId).

Definition route_mentorship_accept (cred : Credential) (requestId : uuid) : Handler :=
  authenticate cred (put_mentorship_accept requestId).

Definition route_mentorship_reject (cred : Credential) (requestId : uuid) : Handler :=
  authenticate cred (put_mentorship_reject requestId).

(** * What the routes are expected to do *)

(** ** Properties of the connection routes *)

(** The sentence of the specification on [checkStatus], read on the
    response: connected, a pending request, or nothing. *)
Definition check_three_valued : Prop :=
  forall (db : Db) (actor other : uuid) (r : Response) (db' : Db),
    select_active_user actor db <> [] ->
    serve (route_check (Verified actor) other) no_faults db = (r, db') ->
    res_body r = CheckResult true None
    \/ res_body r = CheckResult false (Some pending)
    \/ res_body r = CheckResult false None.

(** The database once request [R] is accepted by [actor]: the status of
    the request, one connection row from sender to receiver, and the
    notification rows selected for the sender. *)
Definition after_accept (R : ConnectionRequest) (connId actor : uuid) (db : Db) : Db :=
  set_notifications
    (notifications db ++ connection_accepted_rows (cr_from_user_id R) actor db)
    (set_connections
       (connections db
        ++ [{| c_id := connId; c_user_id := cr_from_user_id R;
               c_connected_user_id := cr_to_user_id R |}])
       (set_connection_requests
          (with_status accepted (cr_id R) (connection_requests db)) db)).

(** The primary key of [users]. *)
Definition users_pkey (db : Db) : Prop := NoDup (map u_id (users db)).

(** The pending request written by [sendRequest]. *)
Definition new_request (requestId from to : uuid) : ConnectionRequest :=
  {| cr_id := requestId; cr_from_user_id := from; cr_to_user_id := to;
     cr_status := pending |}.

(** The database once the request row is written. *)
Definition after_request_insert (requestId from to : uuid) (db : Db) : Db :=
  set_connection_requests
    (connection_requests db ++ [new_request requestId from to]) db.

(** The database once the notification rows are written as well. *)
Definition after_send (requestId from to : uuid) (name : string) (db : Db) : Db :=
  set_notifications
    (notifications db ++ connection_request_rows to name requestId from db)
    (after_request_insert requestId from to db).


(** ** The relationship engine as a state machine *)

(** One request served by the engine. *)
Inductive Call :=
| Send (cred : Credential) (to_user_id : option UuidText) (requestId : uuid)
| Accept (cred : Credential) (requestId connId : uuid)
| Reject (cred : Credential) (requestId : uuid)
| Remove (cred : Credential) (other : uuid)
| CheckStatus (cred : Credential) (other : uuid).

Definition route_of (c : Call) : Handler :=
  match c with
  | Send cred to requestId => route_send cred to requestId
  | Accept cred requestId connId => route_accept cred requestId connId
  | Reject cred requestId => route_reject cred requestId
  | Remove cred other => route_remove cred other
  | CheckStatus cred other => route_check cred other
  end.

(** Requests served one after the other, each with its own failures of
    the storage layer. *)
Fixpoint run (calls : list (Call * Faults)) (db : Db) : Db :=
  match calls with
  | [] => db
  | (c, f) :: rest => run rest (snd (serve (route_of c) f db))
  end.

(** What the engine keeps true of [connections] and
    [connection_requests]. *)
Record engine_inv (db : Db) : Prop := {
  one_request_per_pair :
    forall a b, (List.length (select_requests a b db) <= 1)%nat;
  pending_not_connected :
    forall q, In q (connection_requests db) -> cr_status q = pending ->
              select_connections (cr_from_user_id q) (cr_to_user_id q) db = [];
  one_connection_per_pair :
    forall a b, (List.length (select_connections a b db) <= 1)%nat
}.

(** ** Uniqueness in the schema *)

(** The sentence of the specification on pairs: a second row for the same
    two users, in either direction, is refused by the schema. *)
Definition unordered_unique_connections : Prop :=
  forall db c x,
    In x (connections db) ->
    connects (c_user_id c) (c_connected_user_id c) x = true ->
    exists message, insert_connection c db = Throw message.

Definition unordered_unique_requests : Prop :=
  forall db q x,
    In x (connection_requests db) ->
    requested (cr_from_user_id q) (cr_to_user_id q) x = true ->
    exists message, insert_connection_request q db = Throw message.

(** ** The mentorship engine *)

(** The database once mentorship request [mr] is accepted by [actor]. *)
Definition after_mentorship_accept (mr : MentorshipRequest) (actor : uuid) (db : Db) : Db :=
  set_notifications
    (notifications db ++ mentorship_accepted_rows (mr_mentee_id mr) actor db)
    (set_mentors (with_new_mentee (mr_mentor_id mr) (mentors db))
       (set_mentorship_requests
          (with_mentor_status accepted (mr_id mr) (mentorship_requests db)) db)).

(** [menteesCount] of the mentor profile [M]. *)
Definition mentees_count (M : uuid) (db : Db) : option Z :=
  option_map m_mentees_count (find (fun m => (m_id m =? M)%N) (mentors db)).

(** The mentor of the pending request an accept would pick. *)
Definition pending_mentor (requestId : uuid) (db : Db) : option uuid :=
  match select_pending_mentorship requestId db with
  | (mr, _) :: _ => Some (mr_mentor_id mr)
  | [] => None
  end.

Inductive MentorCall :=
| AcceptMentorship (cred : Credential) (requestId : uuid)
| RejectMentorship (cred : Credential) (requestId : uuid).

Definition mentor_route (c : MentorCall) : Handler :=
  match c with
  | AcceptMentorship cred requestId => route_mentorship_accept cred requestId
  | RejectMentorship cred requestId => route_mentorship_reject cred requestId
  end.

Fixpoint run_mentorship (calls : list (MentorCall * Faults)) (db : Db) : Db :=
  match calls with
  | [] => db
  | (c, f) :: rest => run_mentorship rest (snd (serve (mentor_route c) f db))
  end.

(** 1 when the call is an accept, answered with 200, of a pending
    request whose mentor is [M]; 0 otherwise. *)
Definition accepts (M : uuid) (c : MentorCall) (f : Faults) (db : Db) : nat :=
  match c with
  | AcceptMentorship cred requestId =>
      match pending_mentor requestId db with
      | Some M' =>
          if (M' =? M)%N
             && Nat.eqb (res_status (fst (serve (mentor_route c) f db))) 200
          then 1%nat else 0%nat
      | None => 0%nat
      end
  | RejectMentorship _ _ => 0%nat
  end.

(** The number of requests of mentor [M] accepted along [calls]. *)
Fixpoint accepted_for (M : uuid) (calls : list (MentorCall * Faults)) (db : Db) : nat :=
  match calls with
  | [] => 0%nat
  | (c, f) :: rest =>
      (accepts M c f db
       + accepted_for M rest (snd (serve (mentor_route c) f db)))%nat
  end.

(** Every call of [calls] is an accept, answered with 200, of a pending
    request of mentor [M]. *)
Fixpoint all_accepted (M : uuid) (calls : list (MentorCall * Faults)) (db : Db) : Prop :=
  match calls with
  | [] => True
  | (c, f) :: rest =>
      accepts M c f db = 1%nat
      /\ all_accepted M rest (snd (serve (mentor_route c) f db))
  end.

Definition request_of (c : MentorCall) : uuid :=
  match c with
  | AcceptMentorship _ requestId => requestId
  | RejectMentorship _ requestId => requestId
  end.

(** No request with this id is pending any more. *)
Definition settled (requestId : uuid) (db : Db) : Prop :=
  forall mr, In mr (mentorship_requests db) -> mr_id mr = requestId ->
             mr_status mr <> pending.

(** ** Tenants *)


(** ** Login *)

(** The account registered under an e-mail address. *)
Definition account (email : string) (db : Db) : option User :=
  find (fun u => (u_email u =? email)%string) (users db).

(** The university a user belongs to. *)
Definition owning_university (u : User) (db : Db) : option University :=
  match u_university_id u with
  | Some id => find (fun un => (un_id un =? id)%string) (universities db)
  | None => None
  end.


(** Slugs of universities are not empty ([POST /universities] refuses an
    empty [id]). *)
Definition slugs_nonempty (db : Db) : Prop :=
  forall un, In un (universities db) -> un_id un <> "".

Definition has_token (r : Response) : Prop :=
  exists token su branding all,
    res_body r = LoginResult token su branding all.

(** ** Sample data *)

Module Sample.

Definition member (id : uuid) (email name : string) (tenant : option string)
    (role : Role) (active : bool) : User :=
  {| u_id := id; u_email := email; u_password_hash := "secret"; u_name := name;
     u_avatar := None; u_university_id := tenant; u_graduation_year := None;
     u_major := None; u_role := role; u_is_mentor := false;
     u_is_active := active |}.

Definition mit : University :=
  {| un_id := "mit"; un_name := "MIT"; un_is_enabled := true |}.

Definition ann : User := member 1%N "ann@mit.edu" "Ann" (Some "mit") alumni true.
Definition bob : User := member 2%N "bob@mit.edu" "Bob" (Some "mit") alumni true.

(** Two alumni of one university, nothing else. *)
Definition campus : Db :=
  {| universities := [mit]; users := [ann; bob]; user_profiles := [];
     connections := []; connection_requests := []; mentors := [];
     mentorship_requests := []; notifications := [] |}.

(** Ann asks; Bob rejects; or Bob accepts. *)
Definition ann_asks : list (Call * Faults) :=
  [(Send (Verified 1%N) (Some (printed 2%N)) 100%N, no_faults)].

Definition ann_then_bob_rejects : list (Call * Faults) :=
  ann_asks ++ [(Reject (Verified 2%N) 100%N, no_faults)].

Definition ann_then_bob : list (Call * Faults) :=
  ann_asks ++ [(Accept (Verified 2%N) 100%N 200%N, no_faults)].

(** Ann asked Bob to connect; Bob has not answered. *)
Definition campus_pending : Db := run ann_asks campus.

(** Ann's request to Bob was rejected. *)
Definition campus_rejected : Db := run ann_then_bob_rejects campus.

(** Bob accepted: one connection row, stored from Ann to Bob. *)
Definition campus_connected : Db := run ann_then_bob campus.


(** The answers of the routes in the scenarios below. *)
Definition request_sent : Response :=
  json 200 (Success "Connection request sent").

Definition request_accepted : Response :=
  json 200 (Success "Request accepted").


(** The item suggested to Ann: Bob. *)
Definition item_of_bob : ConnectionItem :=
  suggestion_item (fun i => N.of_nat i) (0%nat, ((bob, Some mit), None)).

(** A stand-in for the e-mail check of the validation: an [@] occurs. *)
Definition is_email (s : string) : bool :=
  match index 0 "@" s with
  | Some _ => true
  | None => false
  end.


(** Ann's identifier without its hyphens. *)
Definition ann_unhyphenated : UuidText := {| parsed := 1%N; canonical := false |}.


End Sample.

(** Two mentors of different universities and two members without a
    university: Carol, an alumna registered without one, and Root, the
    superadmin. *)
Module Tenants.

Definition stanford : University :=
  {| un_id := "stanford"; un_name := "Stanford"; un_is_enabled := true |}.

(** What Carol sent to [POST /auth/register]: no university. *)
Definition carol_body : RegisterBody :=
  {| rg_email := "Carol@example.org"; rg_password := "s3cret!";
     rg_name := "Carol"; rg_university_id := None;
     rg_graduation_year := None; rg_major := None |}.

Definition carol : User :=
  {| u_id := 3%N; u_email := "carol@example.org";
     u_password_hash := "$2a$10$carol"; u_name := "Carol";
     u_avatar :=
       Some "https://api.dicebear.com/7.x/avataaars/svg?seed=Carol%40example.org";
     u_university_id := None; u_graduation_year := None; u_major := None;
     u_role := alumni; u_is_mentor := false; u_is_active := true |}.

Definition dave : User :=
  {| u_id := 4%N; u_email := "dave@mit.edu"; u_password_hash := "secret";
     u_name := "Dave"; u_avatar := None; u_university_id := Some "mit";
     u_graduation_year := None; u_major := None; u_role := alumni;
     u_is_mentor := true; u_is_active := true |}.

Definition profile_of_dave : Mentor :=
  {| m_id := 40%N; m_user_id := 4%N; m_title := None; m_company := None;
     m_location := None; m_bio := None; m_expertise := [];
     m_availability := None; m_years_experience := 5%Z;
     m_mentees_count := 0%Z; m_is_active := true |}.

(** Before Carol registered. *)
Definition before : Db :=
  {| universities := [Sample.mit; stanford];
     users := [Sample.ann; Sample.bob; dave];
     user_profiles := []; connections := []; connection_requests := [];
     mentors := [profile_of_dave]; mentorship_requests := [];
     notifications := [] |}.

Definition db : Db :=
  set_user_profiles
    [{| up_user_id := 3%N; up_job_title := None; up_company := None |}]
    (set_users [Sample.ann; Sample.bob; dave; carol] before).


(** Ann and Bob each asked Dave to be their mentor. *)
Definition mentoring : Db :=
  set_mentorship_requests
    [{| mr_id := 500%N; mr_mentor_id := 40%N; mr_mentee_id := 1%N;
        mr_message := None; mr_status := pending |};
     {| mr_id := 501%N; mr_mentor_id := 40%N; mr_mentee_id := 2%N;
        mr_message := None; mr_status := pending |}] db.

(** Dave accepts Ann and rejects Bob. *)
Definition dave_answers : list (MentorCall * Faults) :=
  [(AcceptMentorship (Verified 4%N) 500%N, no_faults);
   (RejectMentorship (Verified 4%N) 501%N, no_faults)].

(** Dave accepts both. *)
Definition dave_accepts_both : list (MentorCall * Faults) :=
  [(AcceptMentorship (Verified 4%N) 500%N, no_faults);
   (AcceptMentorship (Verified 4%N) 501%N, no_faults)].

End Tenants.

(** * The rest of the middleware and of the routes

    The routes below answer with payloads of their own, so their handlers
    are typed by the payload: an [Answer] is either
    [res.status(code).json({ detail })] or [res.status(code).json(payload)]
    ([res.json] is status 200).

    As for identifiers, a parameter the server cannot store (a text wider
    than its column, a number out of range) makes the statement that
    receives it fail: this is one of the outside reasons the [Faults]
    oracle stands for. *)

From Stdlib Require Import DecimalString.

Module Api.

Inductive Answer (A : Type) : Type :=
| Refuse (code : nat) (detail : string)
| Reply (code : nat) (payload : A).
Arguments Refuse {A} code detail.
Arguments Reply {A} code payload.

Definition status {A} (a : Answer A) : nat :=
  match a with
  | Refuse code _ => code
  | Reply code _ => code
  end.

Definition Route (A : Type) : Type := Faults -> World -> Answer A * World.

(** [try { ... } catch (error) { ... }] around the body of a route. *)
Definition try_catch {A} (body : Sql (Answer A)) (on_error : string -> Answer A)
    : Route A :=
  fun f w =>
    match body f w with
    | (Ok a, w') => (a, w')
    | (Throw message, w') => (on_error message, w')
    end.

Definition serve {A} (h : Route A) (f : Faults) (db : Db) : Answer A * Db :=
  let (a, w) := h f {| w_db := db; w_tick := 0 |} in (a, w_db w).

(** The answer as a [Response], the payload rendered by [render]. *)
Definition response {A} (render : A -> Body) (a : Answer A) : Response :=
  match a with
  | Refuse code detail => json code (Detail detail)
  | Reply code payload => json code (render payload)
  end.

(** [authenticate] of middleware/auth.ts, in front of a typed route. *)
Definition authenticate {A} (cred : Credential)
    (next : AuthenticatedRequest -> Route A) : Route A :=
  fun f w =>
    match cred with
    | NoBearer => (Refuse 401 "Authentication required", w)
    | InvalidToken => (Refuse 401 "Invalid token", w)
    | ExpiredToken => (Refuse 401 "Token expired", w)
    | OtherTokenError => (Refuse 500 "Internal server error", w)
    | Verified id =>
        match query (select_active_user id) f w with
        | (Throw _, w') => (Refuse 500 "Internal server error", w')
        | (Ok [], w') => (Refuse 401 "User not found or inactive", w')
        | (Ok (u :: _), w') => next {| userId := id; user := u |} f w'
        end
    end.

(** [optionalAuth]: the inner [try] swallows the errors of [jwt.verify]
    and of the query; [req.user] stays undefined then. *)
Definition optionalAuth {A} (cred : Credential)
    (next : option AuthenticatedRequest -> Route A) : Route A :=
  fun f w =>
    match cred with
    | NoBearer => next None f w
    | InvalidToken | ExpiredToken | OtherTokenError => next None f w
    | Verified id =>
        match query (select_active_user id) f w with
        | (Ok (u :: _), w') => next (Some {| userId := id; user := u |}) f w'
        | (_, w') => next None f w'
        end
    end.

(** [requireAdmin]; [user] is [req.user]. *)
Definition requireAdmin {A} (user : option User) (next : Route A) : Route A :=
  fun f w =>
    match user with
    | None => (Refuse 403 "Admin access required", w)
    | Some u =>
        if negb (Role_eqb (u_role u) admin) && negb (Role_eqb (u_role u) superadmin)
        then (Refuse 403 "Admin access required", w)
        else next f w
    end.

(** [requireSuperAdmin] *)
Definition requireSuperAdmin {A} (user : option User) (next : Route A) : Route A :=
  fun f w =>
    match user with
    | None => (Refuse 403 "Super admin access required", w)
    | Some u =>
        if negb (Role_eqb (u_role u) superadmin)
        then (Refuse 403 "Super admin access required", w)
        else next f w
    end.

(** JavaScript's [a || b] on optional strings. *)
Definition or_string (a b : option string) : option string :=
  if truthy a then a else b.

(** [a !== b] for a nullable text and a text. *)
Definition differs (a : option string) (b : string) : bool :=
  match a with
  | Some x => negb (x =? b)%string
  | None => true
  end.

(** [requireSameUniversity]; the target is
    [req.params.universityId || req.body.university_id]. *)
Definition requireSameUniversity {A} (user : option User)
    (params_universityId body_university_id : option string) (next : Route A)
    : Route A :=
  fun f w =>
    let targetUniversityId := or_string params_universityId body_university_id in
    match user with
    | None => next f w
    | Some u =>
        if Role_eqb (u_role u) superadmin then next f w
        else
          match targetUniversityId with
          | Some (String a s) =>
              if Role_eqb (u_role u) admin
                 && differs (u_university_id u) (String a s)
              then (Refuse 403 "Access denied to this university", w)
              else next f w
          | _ => next f w
          end
    end.

End Api.

(** [router.METHOD(path, authenticate, requireAdmin, handler)] *)
Definition admin_route {A} (cred : Credential)
    (handler : AuthenticatedRequest -> Api.Route A) : Api.Route A :=
  Api.authenticate cred
    (fun req => Api.requireAdmin (Some (user req)) (handler req)).

(** [router.METHOD(path, authenticate, requireSuperAdmin, handler)] *)
Definition superadmin_route {A} (cred : Credential)
    (handler : AuthenticatedRequest -> Api.Route A) : Api.Route A :=
  Api.authenticate cred
    (fun req => Api.requireSuperAdmin (Some (user req)) (handler req)).

(** ** routes/connections.ts: what rejecting and removing leave behind *)

(** The [WHERE] clause of the [UPDATE] of the reject route. *)
Definition rejects (requestId actor : uuid) (q : ConnectionRequest) : bool :=
  (cr_id q =? requestId)%N && (cr_to_user_id q =? actor)%N
  && Status_eqb (cr_status q) pending.

(** The database once [actor] rejected request [requestId]. *)
Definition after_reject (requestId actor : uuid) (db : Db) : Db :=
  set_connection_requests
    (map (fun q => if rejects requestId actor q then set_status rejected q else q)
         (connection_requests db)) db.

(** The primary key of [connection_requests]. *)
Definition requests_pkey (db : Db) : Prop :=
  NoDup (map cr_id (connection_requests db)).

(** The two users, in either order. *)
Definition same_pair (a b x y : uuid) : Prop :=
  (x = a /\ y = b) \/ (x = b /\ y = a).

(** Every connection has its request: a request between the two users is
    stored. The routes keep it so, as a connection is only written by
    the accept route, for a stored request, and no route deletes a
    request. *)
Definition connections_requested (db : Db) : Prop :=
  forall c, In c (connections db) ->
    exists q, In q (connection_requests db)
              /\ requested (c_user_id c) (c_connected_user_id c) q = true.

(** ** routes/mentors.ts: one mentor *)

(** [SELECT m.*, u.id as user_id, u.name, u.avatar
     FROM mentors m JOIN users u ON m.user_id = u.id
     WHERE m.id = $1 AND m.is_active = true] *)
Definition select_mentor (mentorId : uuid) (db : Db) : list (Mentor * User) :=
  filter (fun row => (m_id (fst row) =? mentorId)%N && m_is_active (fst row))
         (inner_join (fun m u => (m_user_id m =? u_id u)%N) (mentors db) (users db)).

(** [GET /mentors/:mentorId]; [k] is the value of
    [Math.floor(Math.random() * 30)]. *)
Definition get_mentor (mentorId : uuid) (k : Z) (req : AuthenticatedRequest)
    : Api.Route MentorItem :=
  Api.try_catch
    (result <- query (select_mentor mentorId) ;;
     match result with
     | [] => ret (Api.Refuse 404 "Mentor not found")
     | row :: _ => ret (Api.Reply 200 (mentor_item (fun _ => k + 70)%Z (0%nat, row)))
     end)
    (fun _ => Api.Refuse 500 "Failed to get mentor").

(** [... WHERE m.user_id = $1] *)
Definition select_my_mentor (actor : uuid) (db : Db) : list (Mentor * User) :=
  filter (fun row => (m_user_id (fst row) =? actor)%N)
         (inner_join (fun m u => (m_user_id m =? u_id u)%N) (mentors db) (users db)).

(** The handler registered for [GET /mentors/me]. *)
Definition get_mentor_me (req : AuthenticatedRequest) : Api.Route MentorItem :=
  Api.try_catch
    (result <- query (select_my_mentor (userId req)) ;;
     match result with
     | [] => ret (Api.Refuse 404 "Mentor profile not found")
     | row :: _ => ret (Api.Reply 200 (mentor_item (fun _ => 100%Z) (0%nat, row)))
     end)
    (fun _ => Api.Refuse 500 "Failed to get mentor profile").


(** [COALESCE($n, column)] on a nullable column. *)
Definition COALESCE {A} (new old : option A) : option A :=
  match new with
  | Some x => Some x
  | None => old
  end.




(** The primary key of [mentors] and its [UNIQUE (user_id)]. *)
Definition mentors_pkey (db : Db) : Prop := NoDup (map m_id (mentors db)).

Definition mentors_user_key (db : Db) : Prop := NoDup (map m_user_id (mentors db)).

Definition route_mentor (cred : Credential) (mentorId : uuid) (k : Z)
    : Api.Route MentorItem :=
  Api.authenticate cred (get_mentor mentorId k).





(** The same item with another [match_score]. *)
Definition with_match_score (s : Z) (i : MentorItem) : MentorItem :=
  {| mi_id := mi_id i; mi_user_id := mi_user_id i; mi_name := mi_name i;
     mi_avatar := mi_avatar i; mi_title := mi_title i; mi_company := mi_company i;
     mi_location := mi_location i; mi_bio := mi_bio i;
     mi_expertise := mi_expertise i; mi_availability := mi_availability i;
     mi_years_experience := mi_years_experience i;
     mi_mentees_count := mi_mentees_count i; mi_match_score := s |}.



(** ** routes/auth.ts: the other routes *)

(** The primary key of [universities] and the [UNIQUE (email)] of
    [users]. *)
Definition universities_pkey (db : Db) : Prop := NoDup (map un_id (universities db)).

Definition users_email_key (db : Db) : Prop := NoDup (map u_email (users db)).

(** The row [POST /auth/register] inserts in [users]; [lowered] is the
    e-mail as [toLowerCase] returned it and [encoded] as
    [encodeURIComponent] did. *)
Definition registered_user (lowered encoded : string) (body : RegisterBody)
    (passwordHash : string) (newId : uuid) : User :=
  {| u_id := newId;
     u_email := lowered;
     u_password_hash := passwordHash;
     u_name := rg_name body;
     u_avatar :=
       Some ("https://api.dicebear.com/7.x/avataaars/svg?seed=" ++ encoded)%string;
     u_university_id := rg_university_id body;
     u_graduation_year := rg_graduation_year body;
     u_major := rg_major body;
     u_role := alumni;
     u_is_mentor := false;
     u_is_active := true |}.

(** The database once the user and the empty profile are committed. *)
Definition after_register (lowered encoded : string) (body : RegisterBody)
    (passwordHash : string) (newId : uuid) (db : Db) : Db :=
  set_user_profiles
    (user_profiles db
     ++ [{| up_user_id := newId; up_job_title := None; up_company := None |}])
    (set_users (users db ++ [registered_user lowered encoded body passwordHash newId])
       db).

(** A row of [GET /auth/universities]: [id] and [name] ([logo] and
    [colors] are not modelled). *)
Record UniversityOption := { uo_id : string; uo_name : string }.

(** [SELECT id, name, logo, colors FROM universities
     WHERE is_enabled = true ORDER BY name]; [text_lt] is the order of
    the collation of the database. *)
Definition select_enabled_universities (text_lt : string -> string -> bool)
    (db : Db) : list UniversityOption :=
  map (fun un => {| uo_id := un_id un; uo_name := un_name un |})
      (order_by (fun a b => text_lt (un_name a) (un_name b))
                (filter un_is_enabled (universities db))).

(** [GET /auth/universities] *)
Definition get_auth_universities (text_lt : string -> string -> bool)
    : Api.Route (list UniversityOption) :=
  Api.try_catch
    (result <- query (select_enabled_universities text_lt) ;;
     ret (Api.Reply 200 result))
    (fun _ => Api.Refuse 500 "Failed to get universities").

(** [POST /auth/logout] *)
Definition post_logout (req : AuthenticatedRequest) : Handler :=
  try_catch
    (ret (json 200 (Success "Logged out successfully")))
    (fun _ => json 500 (Detail "Logout failed")).

(** [POST /auth/refresh-branding]; the branding has no [is_enabled]. *)
Definition post_refresh_branding (text_lt : string -> string -> bool)
    (req : AuthenticatedRequest) : Handler :=
  try_catch
    (result <- query (select_registered (userId req)) ;;
     match result with
     | [] => ret (json 404 (Detail "User not found"))
     | (user, un) :: _ =>
         let token := generateToken user in
         let universityBranding :=
           match u_university_id user with
           | Some (String a s) =>
               Some {| br_id := String a s; br_name := option_map un_name un;
                       br_is_enabled := None |}
           | _ => None
           end in
         universities <- (if Role_eqb (u_role user) superadmin
                          then rows <- query (select_universities text_lt) ;;
                               ret (Some rows)
                          else ret None) ;;
         ret (json 200 (LoginResult token (safe_user (user, un))
                          universityBranding universities))
     end)
    (fun _ => json 500 (Detail "Failed to refresh branding")).

Definition route_logout (cred : Credential) : Handler :=
  authenticate cred post_logout.

Definition route_refresh_branding (text_lt : string -> string -> bool)
    (cred : Credential) : Handler :=
  authenticate cred (post_refresh_branding text_lt).

(** The university check of [POST /auth/register]. *)
Definition university_accepted (body : RegisterBody) (db : Db) : Prop :=
  match rg_university_id body with
  | Some (String a s) => select_enabled_university (String a s) db <> []
  | _ => True
  end.

(** The branding without [is_enabled]. *)
Definition without_is_enabled (b : option Branding) : option Branding :=
  option_map (fun x => {| br_id := br_id x; br_name := br_name x;
                          br_is_enabled := None |}) b.

(** The branding of a login response. *)
Definition login_branding (u : User) (un : option University) : option Branding :=
  match u_university_id u with
  | Some (String a s) =>
      Some {| br_id := String a s; br_name := option_map un_name un;
              br_is_enabled := option_map un_is_enabled un |}
  | _ => None
  end.

(** What the list of universities of a login response is for user [u]:
    a list with the rows of [universities], in some order, for a
    superadmin, and no list for anybody else. *)
Definition universities_for (u : User) (db : Db) (all : option (list University))
    : Prop :=
  match all with
  | Some rows => u_role u = superadmin /\ Permutation rows (universities db)
  | None => u_role u <> superadmin
  end.

(** Two lists of universities with the same rows, or no list twice. *)
Definition same_rows (a b : option (list University)) : Prop :=
  match a, b with
  | Some l, Some l' => Permutation l l'
  | None, None => True
  | _, _ => False
  end.

(** ** routes/superadmin.ts: universities *)

Definition set_universities (l : list University) (db : Db) : Db :=
  {| universities := l; users := users db;
     user_profiles := user_profiles db; connections := connections db;
     connection_requests := connection_requests db; mentors := mentors db;
     mentorship_requests := mentorship_requests db;
     notifications := notifications db |}.

(** [universities]: [id VARCHAR(50) PRIMARY KEY]. *)
Definition insert_university (un : University) (db : Db) : Outcome Db :=
  if has_university (un_id un) db
  then Throw (unique_violation "universities_pkey")
  else Ok (set_universities (universities db ++ [un]) db).

(** [SELECT ... FROM universities WHERE id = $1] *)
Definition select_university (id : string) (db : Db) : list University :=
  filter (fun un => (un_id un =? id)%string) (universities db).

(** [POST /superadmin/universities]; [id] and [name] are the fields of
    the body ([logo] and [colors] are not modelled). The payload is
    [result.rows[0]]. *)
Definition post_university (id name : option string) (req : AuthenticatedRequest)
    : Api.Route (option University) :=
  Api.try_catch
    match id, name with
    | Some (String a i), Some (String b n) =>
        existing <- query (select_university (String a i)) ;;
        if nonempty existing
        then ret (Api.Refuse 400 "University ID already exists")
        else
          execute (insert_university
                     {| un_id := String a i; un_name := String b n;
                        un_is_enabled := true |}) ;;;
          result <- query (select_university (String a i)) ;;
          ret (Api.Reply 201 (hd_error result))
    | _, _ => ret (Api.Refuse 400 "ID and name are required")
    end
    (fun _ => Api.Refuse 500 "Failed to create university").

Definition toggled (un : University) : University :=
  {| un_id := un_id un; un_name := un_name un;
     un_is_enabled := negb (un_is_enabled un) |}.

(** [UPDATE universities SET is_enabled = NOT is_enabled
     WHERE id = $1 RETURNING *]. The trigger of the table also sets
    [updated_at] in each row the statement updates; as everywhere, that
    column is not part of the rows here. *)
Definition toggle_university (id : string) (db : Db)
    : Outcome (list University * Db) :=
  let hit un := (un_id un =? id)%string in
  let updated := map (fun un => if hit un then toggled un else un) (universities db) in
  Ok (filter hit updated, set_universities updated db).

(** [POST /superadmin/universities/:universityId/toggle-status]; the
    payload is [is_enabled] of the first row returned. *)
Definition post_toggle_status (universityId : string) (req : AuthenticatedRequest)
    : Api.Route bool :=
  Api.try_catch
    (result <- statement (toggle_university universityId) ;;
     match result with
     | [] => ret (Api.Refuse 404 "University not found")
     | un :: _ => ret (Api.Reply 200 (un_is_enabled un))
     end)
    (fun _ => Api.Refuse 500 "Failed to toggle status").

(** [SELECT COUNT( * ) FROM users WHERE university_id = $1] *)
Definition count_university_users (id : string) (db : Db) : list nat :=
  [List.length (filter (fun u => sql_eq (u_university_id u) (Some id)) (users db))].

Definition without_university (u : User) : User :=
  {| u_id := u_id u; u_email := u_email u; u_password_hash := u_password_hash u;
     u_name := u_name u; u_avatar := u_avatar u; u_university_id := None;
     u_graduation_year := u_graduation_year u; u_major := u_major u;
     u_role := u_role u; u_is_mentor := u_is_mentor u; u_is_active := u_is_active u |}.

(** [DELETE FROM universities WHERE id = $1 RETURNING id]; the users that
    reference the row are kept with [university_id] set to [NULL]
    ([ON DELETE SET NULL]). *)
Definition delete_university (id : string) (db : Db) : Outcome (list string * Db) :=
  let hit un := (un_id un =? id)%string in
  Ok (map un_id (filter hit (universities db)),
      set_universities (filter (fun un => negb (hit un)) (universities db))
        (if nonempty (filter hit (universities db))
         then set_users
                (map (fun u => if sql_eq (u_university_id u) (Some id)
                               then without_university u else u) (users db)) db
         else db)).

(** [DELETE /superadmin/universities/:universityId] *)
Definition delete_university_route (universityId : string)
    (req : AuthenticatedRequest) : Api.Route string :=
  Api.try_catch
    (users <- query (count_university_users universityId) ;;
     if (0 <? hd 0 users)%nat
     then ret (Api.Refuse 400 "Cannot delete university with existing users")
     else
       result <- statement (delete_university universityId) ;;
       if nonempty result
       then ret (Api.Reply 200 "University deleted")
       else ret (Api.Refuse 404 "University not found"))
    (fun _ => Api.Refuse 500 "Failed to delete university").

Definition route_university_create (cred : Credential) (id name : option string)
    : Api.Route (option University) :=
  superadmin_route cred (post_university id name).

Definition route_university_toggle (cred : Credential) (universityId : string)
    : Api.Route bool :=
  superadmin_route cred (post_toggle_status universityId).

Definition route_university_delete (cred : Credential) (universityId : string)
    : Api.Route string :=
  superadmin_route cred (delete_university_route universityId).

(** The university [POST /superadmin/universities] stores. *)
Definition new_university (id name : string) : University :=
  {| un_id := id; un_name := name; un_is_enabled := true |}.

(** The universities once the status of [id] is toggled. *)
Definition toggled_universities (id : string) (l : list University) : list University :=
  map (fun un => if (un_id un =? id)%string then toggled un else un) l.

(** The database once the university [id] is deleted and no user
    referenced it. *)
Definition without_university_row (id : string) (db : Db) : Db :=
  set_universities
    (filter (fun un => negb (un_id un =? id)%string) (universities db)) db.

(** ** routes/admin.ts and routes/superadmin.ts: accounts *)

Definition deactivated (u : User) : User :=
  {| u_id := u_id u; u_email := u_email u; u_password_hash := u_password_hash u;
     u_name := u_name u; u_avatar := u_avatar u;
     u_university_id := u_university_id u;
     u_graduation_year := u_graduation_year u; u_major := u_major u;
     u_role := u_role u; u_is_mentor := u_is_mentor u; u_is_active := false |}.

(** [UPDATE users SET is_active = false WHERE ... RETURNING id] *)
Definition deactivate_where (hit : User -> bool) (db : Db) : Outcome (list uuid * Db) :=
  Ok (map u_id (filter hit (users db)),
      set_users (map (fun u => if hit u then deactivated u else u) (users db)) db).

(** The users table once the rows selected by [hit] are deactivated. *)
Definition deactivated_users (hit : User -> bool) (l : list User) : list User :=
  map (fun u => if hit u then deactivated u else u) l.

(** [... WHERE id = $1 AND university_id = $2 AND role = 'alumni'] *)
Definition own_alumni (target : uuid) (tenant : option string) (u : User) : bool :=
  (u_id u =? target)%N && sql_eq (u_university_id u) tenant
  && Role_eqb (u_role u) alumni.

(** [... WHERE id = $1 AND role = 'admin'] *)
Definition is_admin (target : uuid) (u : User) : bool :=
  (u_id u =? target)%N && Role_eqb (u_role u) admin.

(** [DELETE /admin/users/:userId]; [$2] is [req.user?.university_id]. *)
Definition delete_user (target : uuid) (req : AuthenticatedRequest)
    : Api.Route string :=
  Api.try_catch
    (result <- statement
                 (deactivate_where (own_alumni target (u_university_id (user req)))) ;;
     if nonempty result
     then ret (Api.Reply 200 "User deactivated")
     else ret (Api.Refuse 404 "User not found"))
    (fun _ => Api.Refuse 500 "Failed to deactivate user").

(** [DELETE /superadmin/admins/:adminId] *)
Definition delete_admin (adminId : uuid) (req : AuthenticatedRequest)
    : Api.Route string :=
  Api.try_catch
    (result <- statement (deactivate_where (is_admin adminId)) ;;
     if nonempty result
     then ret (Api.Reply 200 "Admin deactivated")
     else ret (Api.Refuse 404 "Admin not found"))
    (fun _ => Api.Refuse 500 "Failed to deactivate admin").

Definition route_user_delete (cred : Credential) (target : uuid) : Api.Route string :=
  admin_route cred (delete_user target).

Definition route_admin_delete (cred : Credential) (adminId : uuid)
    : Api.Route string :=
  superadmin_route cred (delete_admin adminId).

(** The body of the routes that create an account: a field is [None]
    when it is absent. A truthy [email] or [password] that is no text
    makes [toLowerCase] or [bcrypt.hash] throw before the first write,
    which the routes answer as they answer a failure of the statement
    that comes next. *)
Record AccountBody := {
  ab_email : option string;
  ab_password : option string;
  ab_name : option string;
  ab_graduation_year : option Z;
  ab_major : option string
}.

(** The row they insert; [lowered] is [email.toLowerCase()] and
    [encoded] is [encodeURIComponent(email)]. *)
Definition new_account (lowered encoded passwordHash name : string)
    (tenant : option string) (year : option Z) (major : option string)
    (role : Role) (newId : uuid) : User :=
  {| u_id := newId;
     u_email := lowered;
     u_password_hash := passwordHash;
     u_name := name;
     u_avatar :=
       Some ("https://api.dicebear.com/7.x/avataaars/svg?seed=" ++ encoded)%string;
     u_university_id := tenant;
     u_graduation_year := year;
     u_major := major;
     u_role := role;
     u_is_mentor := false;
     u_is_active := true |}.

Definition empty_profile (id : uuid) : UserProfile :=
  {| up_user_id := id; up_job_title := None; up_company := None |}.

(** The transaction of the account routes of routes/admin.ts. *)
Definition insert_account (account : User) : Sql unit :=
  transaction
    (execute (insert_user account) ;;;
     execute (insert_user_profile (empty_profile (u_id account)))).

(** [SELECT * FROM users WHERE id = $1] *)
Definition select_user (id : uuid) (db : Db) : list User :=
  filter (fun u => (u_id u =? id)%N) (users db).

Section Accounts.

(** [String.prototype.toLowerCase] *)
Variable toLowerCase : string -> string.

(** [encodeURIComponent(text)] *)
Variable encodeURIComponent : string -> string.

(** The shared shape of [POST /admin/users] and [POST /admin/admins]:
    the account gets the university of the admin who creates it. *)
Definition create_account (role : Role) (failure : string) (b : AccountBody)
    (year : option Z) (major : option string) (passwordHash : string)
    (newId : uuid) (req : AuthenticatedRequest) : Api.Route SafeUser :=
  Api.try_catch
    match ab_email b, ab_password b, ab_name b with
    | Some (String a e), Some (String _ _), Some (String c n) =>
        existing <- query (select_by_email (toLowerCase (String a e))) ;;
        if nonempty existing
        then ret (Api.Refuse 400 "Email already exists")
        else
          insert_account
            (new_account (toLowerCase (String a e)) (encodeURIComponent (String a e))
               passwordHash (String c n) (u_university_id (user req))
               year major role newId) ;;;
          result <- query (select_user newId) ;;
          match result with
          | [] => throw "Cannot destructure property 'password_hash' of 'result.rows[0]' as it is undefined."
          | u :: _ => ret (Api.Reply 201 (safe_user (u, None)))
          end
    | _, _, _ => ret (Api.Refuse 400 "Email, password, and name are required")
    end
    (fun _ => Api.Refuse 500 failure).

(** [POST /admin/users]; [passwordHash] is the value of
    [bcrypt.hash(password, 10)] and [newId] that of [uuidv4()]. *)
Definition post_admin_user (b : AccountBody) (passwordHash : string) (newId : uuid)
    : AuthenticatedRequest -> Api.Route SafeUser :=
  create_account alumni "Failed to create user" b
    (ab_graduation_year b) (ab_major b) passwordHash newId.

(** [POST /admin/admins] *)
Definition post_admin_admin (b : AccountBody) (passwordHash : string) (newId : uuid)
    : AuthenticatedRequest -> Api.Route SafeUser :=
  create_account admin "Failed to create admin" b None None passwordHash newId.

(** What [POST /admin/users/bulk-import] answers. *)
Record ImportReport := {
  success_count : nat;
  failed_count : nat;
  errors : list string
}.

Definition imported (r : ImportReport) : ImportReport :=
  {| success_count := S (success_count r); failed_count := failed_count r;
     errors := errors r |}.

Definition failed (message : string) (r : ImportReport) : ImportReport :=
  {| success_count := success_count r; failed_count := S (failed_count r);
     errors := errors r ++ [message] |}.

(** The [try] block of one turn of the loop: [None] when the user was
    imported, the message pushed on [errors] otherwise. *)
Definition import_one (tenant : option string) (b : AccountBody)
    (passwordHash : string) (newId : uuid) : Sql (option string) :=
  match ab_email b, ab_password b, ab_name b with
  | Some (String a e), Some (String _ _), Some (String c n) =>
      existing <- query (select_by_email (toLowerCase (String a e))) ;;
      if nonempty existing
      then ret (Some ("Email already exists: " ++ String a e)%string)
      else
        insert_account
          (new_account (toLowerCase (String a e)) (encodeURIComponent (String a e))
             passwordHash (String c n) tenant
             (ab_graduation_year b) (ab_major b) alumni newId) ;;;
        ret None
  | _, _, _ =>
      ret (Some ("Missing required fields for user: "
                 ++ match ab_email b with
                    | Some (String a e) => String a e
                    | _ => "unknown"
                    end)%string)
  end.

(** [`${user.email}`] *)
Definition interpolated (email : option string) : string :=
  match email with
  | Some e => e
  | None => "undefined"
  end.

(** One turn with its [catch]. *)
Definition import_turn (tenant : option string) (b : AccountBody)
    (passwordHash : string) (newId : uuid) : Sql (option string) :=
  fun f w =>
    match import_one tenant b passwordHash newId f w with
    | (Ok outcome, w') => (Ok outcome, w')
    | (Throw message, w') =>
        (Ok (Some ("Failed to import: " ++ interpolated (ab_email b) ++ ": "
                   ++ message)%string), w')
    end.

(** [for (const user of users) { ... }]; [hash i] and [fresh i] are the
    values of [bcrypt.hash] and [uuidv4()] in the turn of the [i]-th
    user. An element is [None] when it is [null] or [undefined]:
    destructuring it throws, and the [catch] of the turn throws in turn
    on [user.email], which leaves the loop. *)
Fixpoint import_loop (tenant : option string) (items : list (option AccountBody))
    (hash : nat -> string) (fresh : nat -> uuid) (i : nat) (report : ImportReport)
    : Sql ImportReport :=
  match items with
  | [] => ret report
  | None :: _ => throw "Cannot read properties of null (reading 'email')"
  | Some b :: rest =>
      outcome <- import_turn tenant b (hash i) (fresh i) ;;
      import_loop tenant rest hash fresh (S i)
        match outcome with
        | None => imported report
        | Some message => failed message report
        end
  end.

(** [POST /admin/users/bulk-import]; [items] is [None] when the body is
    no array. *)
Definition post_bulk_import (items : option (list (option AccountBody)))
    (hash : nat -> string) (fresh : nat -> uuid) (req : AuthenticatedRequest)
    : Api.Route ImportReport :=
  Api.try_catch
    match items with
    | Some (b :: rest) =>
        report <- import_loop (u_university_id (user req)) (b :: rest) hash fresh 0
                    {| success_count := 0; failed_count := 0; errors := [] |} ;;
        ret (Api.Reply 200 report)
    | _ => ret (Api.Refuse 400 "Users array is required")
    end
    (fun _ => Api.Refuse 500 "Failed to import users").

End Accounts.

Definition route_admin_user (lower enc : string -> string) (cred : Credential)
    (b : AccountBody) (passwordHash : string) (newId : uuid) : Api.Route SafeUser :=
  admin_route cred (post_admin_user lower enc b passwordHash newId).

Definition route_admin_admin (lower enc : string -> string) (cred : Credential)
    (b : AccountBody) (passwordHash : string) (newId : uuid) : Api.Route SafeUser :=
  admin_route cred (post_admin_admin lower enc b passwordHash newId).

Definition route_bulk_import (lower enc : string -> string) (cred : Credential)
    (items : option (list (option AccountBody))) (hash : nat -> string)
    (fresh : nat -> uuid) : Api.Route ImportReport :=
  admin_route cred (post_bulk_import lower enc items hash fresh).

(** The database once an account and its empty profile are committed. *)
Definition after_account (account : User) (db : Db) : Db :=
  set_user_profiles (user_profiles db ++ [empty_profile (u_id account)])
    (set_users (users db ++ [account]) db).

(** What a route creating an account for an admin may do: nothing, with
    a refusal; or commit one account of the given role in the
    university of the acting admin, with its empty profile, answered 201
    unless the final query failed. *)
Definition account_created (lower encode : string -> string) (role : Role)
    (year : option Z) (major : option string) (failure : string)
    (cred : Credential) (b : AccountBody) (passwordHash : string) (newId : uuid)
    (db : Db) (a : Api.Answer SafeUser) (db' : Db) : Prop :=
  (db' = db /\ exists code d, a = Api.Refuse code d)
  \/ (exists actor adm email name,
        cred = Verified actor /\ In adm (users db) /\ u_id adm = actor
        /\ u_is_active adm = true
        /\ (u_role adm = admin \/ u_role adm = superadmin)
        /\ ab_email b = Some email /\ ab_name b = Some name
        /\ email <> "" /\ name <> ""
        /\ (forall x, In x (users db) ->
                      u_email x <> lower email /\ u_id x <> newId)
        /\ let account :=
             new_account (lower email) (encode email) passwordHash name
               (u_university_id adm) year major role newId in
           db' = after_account account db
           /\ (a = Api.Refuse 500 failure
               \/ a = Api.Reply 201 (safe_user (account, None)))).


(** The database once the accounts [added] and their empty profiles are
    committed. *)
Definition after_import (added : list User) (db : Db) : Db :=
  set_user_profiles
    (user_profiles db ++ map (fun u => empty_profile (u_id u)) added)
    (set_users (users db ++ added) db).

(** ** routes/users.ts *)











(** The body of [PUT /users/me], after [validate(schemas.updateUser)]. *)
Record UserUpdate := {
  uu_name : option string;
  uu_avatar : option string;
  uu_graduation_year : option Z;
  uu_major : option string;
  uu_is_mentor : option bool
}.

(** [updates.length === 0] *)
Definition no_updates (b : UserUpdate) : bool :=
  match uu_name b, uu_avatar b, uu_graduation_year b, uu_major b, uu_is_mentor b with
  | None, None, None, None, None => true
  | _, _, _, _, _ => false
  end.

(** The row after the [SET] clause built from the fields present. *)
Definition update_user (b : UserUpdate) (u : User) : User :=
  {| u_id := u_id u; u_email := u_email u; u_password_hash := u_password_hash u;
     u_name := match uu_name b with Some n => n | None => u_name u end;
     u_avatar := COALESCE (uu_avatar b) (u_avatar u);
     u_university_id := u_university_id u;
     u_graduation_year := COALESCE (uu_graduation_year b) (u_graduation_year u);
     u_major := COALESCE (uu_major b) (u_major u);
     u_role := u_role u;
     u_is_mentor := match uu_is_mentor b with Some m => m | None => u_is_mentor u end;
     u_is_active := u_is_active u |}.

Definition updated_users (b : UserUpdate) (actor : uuid) (l : list User) : list User :=
  map (fun u => if (u_id u =? actor)%N then update_user b u else u) l.

(** [UPDATE users SET ... WHERE id = $n RETURNING *] *)
Definition update_me (b : UserUpdate) (actor : uuid) (db : Db)
    : Outcome (list User * Db) :=
  Ok (filter (fun u => (u_id u =? actor)%N) (updated_users b actor (users db)),
      set_users (updated_users b actor (users db)) db).

(** [PUT /users/me] *)
Definition put_me (b : UserUpdate) (req : AuthenticatedRequest) : Api.Route SafeUser :=
  Api.try_catch
    (if no_updates b
     then ret (Api.Refuse 400 "No fields to update")
     else
       result <- statement (update_me b (userId req)) ;;
       match result with
       | [] => ret (Api.Refuse 404 "User not found")
       | u :: _ => ret (Api.Reply 200 (safe_user (u, None)))
       end)
    (fun _ => Api.Refuse 500 "Failed to update user").

Definition route_me_update (cred : Credential) (b : UserUpdate) : Api.Route SafeUser :=
  Api.authenticate cred (put_me b).

(** The columns [PUT /users/me] has no field for. *)
Definition user_protected (u : User)
    : uuid * string * string * option string * Role * bool :=
  (u_id u, u_email u, u_password_hash u, u_university_id u, u_role u, u_is_active u).

(** ** routes/notifications.ts *)

Definition read (n : Notification) : Notification :=
  {| n_user_id := n_user_id n; n_type := n_type n; n_title := n_title n;
     n_message := n_message n; n_avatar := n_avatar n; n_is_read := true;
     n_action_url := n_action_url n; n_related_id := n_related_id n |}.

(** [UPDATE notifications SET is_read = true WHERE user_id = $1] *)
Definition mark_all_read (actor : uuid) (db : Db) : Outcome Db :=
  Ok (set_notifications
        (map (fun n => if (n_user_id n =? actor)%N then read n else n)
             (notifications db)) db).

(** [PUT /notifications/read-all] *)
Definition put_read_all (req : AuthenticatedRequest) : Handler :=
  try_catch
    (execute (mark_all_read (userId req)) ;;;
     ret (json 200 (Success "All notifications marked as read")))
    (fun _ => json 500 (Detail "Failed to mark all as read")).

(** The unread notifications of a user. *)
Definition unread (actor : uuid) (db : Db) : nat :=
  List.length (filter (fun n => (n_user_id n =? actor)%N && negb (n_is_read n))
                 (notifications db)).

(** [SELECT COUNT( * ) FROM notifications WHERE user_id = $1 AND is_read = false] *)
Definition count_unread (actor : uuid) (db : Db) : list nat := [unread actor db].

(** [GET /notifications/unread-count]; the payload is [count]. *)
Definition get_unread_count (req : AuthenticatedRequest) : Api.Route nat :=
  Api.try_catch
    (result <- query (count_unread (userId req)) ;;
     ret (Api.Reply 200 (hd 0%nat result)))
    (fun _ => Api.Refuse 500 "Failed to get unread count").

Definition route_read_all (cred : Credential) : Handler :=
  authenticate cred put_read_all.

Definition route_unread_count (cred : Credential) : Api.Route nat :=
  Api.authenticate cred get_unread_count.

(** An integer in a template literal. *)
Definition decimal (z : Z) : string := NilZero.string_of_int (Z.to_int z).

(** [formatTime(date)] of routes/notifications.ts and routes/posts.ts.
    [now] and [date] are the values of [getTime()], in milliseconds;
    [toLocaleDateString] stands for the method of that name. *)
Definition formatTime (toLocaleDateString : Z -> string) (now date : Z) : string :=
  let diff := (now - date)%Z in
  let minutes := (diff / 60000)%Z in
  let hours := (minutes / 60)%Z in
  let days := (hours / 24)%Z in
  if (minutes <? 1)%Z then "Just now"
  else if (minutes <? 60)%Z then (decimal minutes ++ "m ago")%string
  else if (hours <? 24)%Z then (decimal hours ++ "h ago")%string
  else if (days <? 7)%Z then (decimal days ++ "d ago")%string
  else toLocaleDateString date.

(** ** Route tables

    A router tries its routes in the order of their registration and
    hands the request to the first one whose method and path match; the
    handlers below all answer, none passes the request on. A path is the
    list of its segments after the mount point; a parameter takes one
    segment that is not empty, a literal matches whatever the letter
    case. *)

Inductive Method := GET | POST | PUT | DELETE.

Definition Method_eqb (a b : Method) : bool :=
  match a, b with
  | GET, GET | POST, POST | PUT, PUT | DELETE, DELETE => true
  | _, _ => false
  end.

Inductive Segment :=
| Lit (text : string)
| Param (name : string).

Record Registration (H : Type) : Type := {
  reg_method : Method;
  reg_path : list Segment;
  reg_handler : H
}.
Arguments reg_method {H} r.
Arguments reg_path {H} r.
Arguments reg_handler {H} r.

Definition on {H} (m : Method) (path : list Segment) (h : H) : Registration H :=
  {| reg_method := m; reg_path := path; reg_handler := h |}.

(** The parameters, when the path matches the pattern. *)
Fixpoint match_path (pattern : list Segment) (path : list string)
    : option (list (string * string)) :=
  match pattern, path with
  | [], [] => Some []
  | Lit text :: pattern', s :: path' =>
      if (lower_ascii_text s =? lower_ascii_text text)%string
      then match_path pattern' path'
      else None
  | Param name :: pattern', s :: path' =>
      if (s =? "")%string
      then None
      else option_map (cons (name, s)) (match_path pattern' path')
  | _, _ => None
  end.

Fixpoint dispatch {H} (table : list (Registration H)) (m : Method)
    (path : list string) : option (H * list (string * string)) :=
  match table with
  | [] => None
  | r :: table' =>
      if Method_eqb (reg_method r) m
      then match match_path (reg_path r) path with
           | Some params => Some (reg_handler r, params)
           | None => dispatch table' m path
           end
      else dispatch table' m path
  end.

(** The routes of routes/mentors.ts, in the order of the file. *)
Inductive MentorsHandler :=
| ListMentors | GetMentor | GetMyMentor | UpdateMyMentor | RequestMentorship
| MyRequests | IncomingRequests | AcceptMentorshipRequest | RejectMentorshipRequest.

Definition mentors_router : list (Registration MentorsHandler) :=
  [ on GET [] ListMentors;
    on GET [Param "mentorId"] GetMentor;
    on GET [Lit "me"] GetMyMentor;
    on PUT [Lit "me"] UpdateMyMentor;
    on POST [Param "mentorId"; Lit "request"] RequestMentorship;
    on GET [Lit "my-requests"] MyRequests;
    on GET [Lit "incoming-requests"] IncomingRequests;
    on PUT [Lit "requests"; Param "requestId"; Lit "accept"] AcceptMentorshipRequest;
    on PUT [Lit "requests"; Param "requestId"; Lit "reject"] RejectMentorshipRequest ].

(** The routes of routes/notifications.ts. *)
Inductive NotificationsHandler :=
| ListNotifications | MarkRead | MarkAllRead | DeleteNotification | ClearAll
| UnreadCount.

Definition notifications_router : list (Registration NotificationsHandler) :=
  [ on GET [] ListNotifications;
    on PUT [Param "notificationId"; Lit "read"] MarkRead;
    on PUT [Lit "read-all"] MarkAllRead;
    on DELETE [Param "notificationId"] DeleteNotification;
    on DELETE [Lit "clear-all"] ClearAll;
    on GET [Lit "unread-count"] UnreadCount ].

(** The routes of routes/users.ts. *)
Inductive UsersHandler :=
| GetMe | UpdateMe | UpdateMyProfile | GetUser | SearchUsers | ToggleMentor
| UpdateAvatar | UpdateBanner | CompleteProfile | FirstLogin
| AcknowledgeFirstLogin | Locations.

Definition users_router : list (Registration UsersHandler) :=
  [ on GET [Lit "me"] GetMe;
    on PUT [Lit "me"] UpdateMe;
    on PUT [Lit "me"; Lit "profile"] UpdateMyProfile;
    on GET [Param "userId"] GetUser;
    on GET [Lit "search"] SearchUsers;
    on POST [Lit "me"; Lit "toggle-mentor"] ToggleMentor;
    on PUT [Lit "me"; Lit "avatar"] UpdateAvatar;
    on PUT [Lit "me"; Lit "banner"] UpdateBanner;
    on POST [Lit "me"; Lit "complete-profile"] CompleteProfile;
    on GET [Lit "me"; Lit "first-login"] FirstLogin;
    on POST [Lit "me"; Lit "acknowledge-first-login"] AcknowledgeFirstLogin;
    on GET [Lit "locations"] Locations ].

(** The routes of routes/universities.ts. *)
Inductive UniversitiesHandler :=
| ListUniversities | GetUniversity | GetBranding | GetFundraisers
| GetActiveFundraisers | GetAds.

Definition universities_router : list (Registration UniversitiesHandler) :=
  [ on GET [] ListUniversities;
    on GET [Param "universityId"] GetUniversity;
    on GET [Param "universityId"; Lit "branding"] GetBranding;
    on GET [Param "universityId"; Lit "fundraisers"] GetFundraisers;
    on GET [Param "universityId"; Lit "fundraisers"; Lit "active"] GetActiveFundraisers;
    on GET [Lit "ads"] GetAds ].

(** ** Sample data for the routes above *)

(** The members of [Tenants] with an admin of MIT and the superadmin. *)
Module Staff.

Definition eve : User :=
  Sample.member 5%N "eve@mit.edu" "Eve" (Some "mit") admin true.

Definition root : User :=
  Sample.member 9%N "root@example.org" "Root" None superadmin true.

Definition office : Db :=
  set_users [Sample.ann; Sample.bob; Tenants.dave; Tenants.carol; eve; root]
    Tenants.db.

(** The rows Eve imports: Fay is new, Ann's address is taken. *)
Definition fay_body : AccountBody :=
  {| ab_email := Some "Fay@mit.edu"; ab_password := Some "pw";
     ab_name := Some "Fay"; ab_graduation_year := None; ab_major := None |}.


Definition fay : User :=
  new_account "fay@mit.edu" "Fay@mit.edu" "hash" "Fay" (Some "mit") None None
    alumni 50%N.


(** Ann's new name. *)
Definition new_name : UserUpdate :=
  {| uu_name := Some "Ann B."; uu_avatar := None; uu_graduation_year := None;
     uu_major := None; uu_is_mentor := None |}.

(** [encodeURIComponent] on Carol's address. *)
Definition encode (s : string) : string := "Carol%40example.org".

End Staff.

(** * Proofs *)

(** ** Lists and identifiers *)

Ltac inv H := inversion H; subst; clear H.

(** Opens a hypothesis [serve (authenticate cred route) f db = (r, db')]:
    names the run of [authenticate] and replaces [r] and [db'] by its
    results. *)
Ltac through_authenticate H A :=
  destruct (authenticate _ _ _ _) as [r0 w0] eqn:A; inv H.

Lemma nonempty_true {A} (l : list A) : nonempty l = true <-> l <> [].
Proof.
  unfold nonempty. destruct l; simpl; split; intros; try easy.
Qed.

Lemma nonempty_false {A} (l : list A) : nonempty l = false <-> l = [].
Proof.
  unfold nonempty. destruct l; simpl; split; intros; try easy.
Qed.

Lemma filter_nil_iff {A} (p : A -> bool) (l : list A) :
  filter p l = [] <-> forall x, In x l -> p x = false.
Proof.
  induction l as [|a l IH]; simpl.
  - split; [intros _ x [] | reflexivity].
  - destruct (p a) eqn:E.
    + split; [discriminate|]. intros H. specialize (H a (or_introl eq_refl)). congruence.
    + rewrite IH. split.
      * intros H x [<-|Hx]; auto.
      * intros H x Hx. apply H. now right.
Qed.

Lemma existsb_false {A} (p : A -> bool) (l : list A) :
  existsb p l = false <-> forall x, In x l -> p x = false.
Proof.
  split.
  - intros E x Hx. destruct (p x) eqn:P; [|reflexivity].
    rewrite <- E. symmetry. apply existsb_exists. eauto.
  - intros H. destruct (existsb p l) eqn:E; [|reflexivity].
    apply existsb_exists in E as (x & Hx & P). rewrite (H x Hx) in P. discriminate.
Qed.

Lemma filter_head_in {A} (p : A -> bool) (l : list A) x rest :
  filter p l = x :: rest -> In x l /\ p x = true.
Proof.
  intros H. apply filter_In. rewrite H. now left.
Qed.

(** ** The [Sql] monad *)

Lemma statement_inv {A} (run : Db -> Outcome (A * Db)) f w o w' :
  statement run f w = (o, w') ->
  w_tick w' = S (w_tick w)
  /\ ((exists m, o = Throw m /\ w_db w' = w_db w)
      \/ (exists a, o = Ok a /\ f (w_tick w) = None /\ run (w_db w) = Ok (a, w_db w'))).
Proof.
  unfold statement. intros H.
  destruct (f (w_tick w)) as [m|].
  - inversion H; subst; simpl. split; [reflexivity|]. left. eauto.
  - destruct (run (w_db w)) as [[a db']|m]; inversion H; subst; simpl;
      (split; [reflexivity|]); [right|left]; eauto.
Qed.

Lemma query_inv {A} (select : Db -> list A) f w o w' :
  query select f w = (o, w') ->
  w' = next_tick w (w_db w)
  /\ ((exists m, o = Throw m /\ f (w_tick w) = Some m)
      \/ (o = Ok (select (w_db w)) /\ f (w_tick w) = None)).
Proof.
  unfold query, statement. intros H.
  destruct (f (w_tick w)) as [m|]; inversion H; subst; eauto.
Qed.

Lemma execute_inv (write : Db -> Outcome Db) f w o w' :
  execute write f w = (o, w') ->
  w_tick w' = S (w_tick w)
  /\ ((exists m, o = Throw m /\ w_db w' = w_db w)
      \/ (o = Ok tt /\ f (w_tick w) = None /\ write (w_db w) = Ok (w_db w'))).
Proof.
  unfold execute. intros H. apply statement_inv in H as [Ht [(m & -> & Hd)|(a & -> & Hf & Hr)]].
  - split; [exact Ht|]. left; eauto.
  - split; [exact Ht|]. right. destruct a.
    destruct (write (w_db w)); inversion Hr; subst. auto.
Qed.

(** A transaction commits the writes of its callback, or none. *)
Lemma transaction_inv {A} (callback : Sql A) f w o w' :
  transaction callback f w = (o, w') ->
  (exists m, o = Throw m /\ w_db w' = w_db w)
  \/ (exists r wc, o = Ok r
        /\ f (w_tick w) = None /\ f (S (w_tick w)) = None
        /\ callback f {| w_db := w_db w; w_tick := S (S (w_tick w)) |} = (Ok r, wc)
        /\ f (w_tick wc) = None
        /\ w' = next_tick wc (w_db wc)).
Proof.
  unfold transaction. intros H.
  destruct (f (w_tick w)) as [m|] eqn:F0.
  - inversion H; subst. left; eauto.
  - unfold BEGIN, COMMIT in H.
    unfold bind at 1 in H. unfold execute at 1, statement at 1 in H. simpl in H.
    destruct (f (S (w_tick w))) as [m|] eqn:F1.
    + simpl in H. destruct (f (S (S (w_tick w)))); inversion H; subst; left; eauto.
    + unfold next_tick in H. simpl in H. unfold bind at 1 in H.
      destruct (callback f {| w_db := w_db w; w_tick := S (S (w_tick w)) |})
        as [[r|m] wc] eqn:C.
      * unfold bind, execute, statement, ret in H. simpl in H.
        destruct (f (w_tick wc)) as [m|] eqn:F2.
        -- simpl in H. destruct (f (S (w_tick wc))); inversion H; subst; left; eauto.
        -- inversion H; subst. right. exists r, wc. repeat split; auto.
      * destruct (f (w_tick wc)); inversion H; subst; left; eauto.
Qed.

Lemma try_catch_inv body on_error f w r w' :
  try_catch body on_error f w = (r, w') ->
  body f w = (Ok r, w') \/ exists m, body f w = (Throw m, w') /\ r = on_error m.
Proof.
  unfold try_catch. destruct (body f w) as [[a|m] w1]; intros H; inversion H; subst; eauto.
Qed.

Lemma bind_inv {A B} (m : Sql A) (k : A -> Sql B) f w o w' :
  bind m k f w = (o, w') ->
  (exists msg, m f w = (Throw msg, w') /\ o = Throw msg)
  \/ (exists a w1, m f w = (Ok a, w1) /\ k a f w1 = (o, w')).
Proof.
  unfold bind. destruct (m f w) as [[a|msg] w1]; intros H.
  - right; eauto.
  - inversion H; subst. left; eauto.
Qed.

(** What [authenticate] establishes before the route runs. *)
Lemma authenticate_inv cred next f w r w' :
  authenticate cred next f w = (r, w') ->
  (w_db w' = w_db w /\ (res_status r = 401 \/ res_status r = 500)
   /\ exists d, res_body r = Detail d)
  \/ (exists id u rest,
        cred = Verified id /\ f (w_tick w) = None
        /\ select_active_user id (w_db w) = u :: rest
        /\ next {| userId := id; user := u |} f (next_tick w (w_db w)) = (r, w')).
Proof.
  unfold authenticate. intros H.
  destruct cred as [| | | |id];
    try (inversion H; subst; left; simpl; eauto; fail).
  destruct (query (select_active_user id) f w) as [[rows|m] w1] eqn:Q.
  - apply query_inv in Q as [-> [(m & ? & _)|[E F0]]]; [discriminate|].
    inversion E; subst.
    destruct (select_active_user id (w_db w)) as [|u rest] eqn:S.
    + inversion H; subst. left; simpl; eauto.
    + right. exists id, u, rest. auto.
  - apply query_inv in Q as [-> _]. inversion H; subst. left; simpl; eauto.
Qed.

Lemma authenticate_ok id next f w u rest :
  f (w_tick w) = None ->
  select_active_user id (w_db w) = u :: rest ->
  authenticate (Verified id) next f w
  = next {| userId := id; user := u |} f (next_tick w (w_db w)).
Proof.
  intros F S. unfold authenticate, query, statement. rewrite F, S. reflexivity.
Qed.

Lemma select_active_user_head id db u rest :
  select_active_user id db = u :: rest ->
  In u (users db) /\ u_id u = id /\ u_is_active u = true.
Proof.
  intros H. apply filter_head_in in H as [Hin Hp].
  apply andb_true_iff in Hp as [Hid Ha]. apply N.eqb_eq in Hid. auto.
Qed.

(** ** checkStatus *)

Lemma select_connections_nil a b db :
  select_connections a b db = [] <->
  forall c, In c (connections db) -> connects a b c = false.
Proof. apply filter_nil_iff. Qed.

Lemma select_connections_cons a b db :
  select_connections a b db <> [] <->
  exists c, In c (connections db) /\ connects a b c = true.
Proof.
  unfold select_connections. split.
  - destruct (filter (connects a b) (connections db)) as [|c l] eqn:E; [congruence|].
    intros _. exists c. now apply filter_head_in in E.
  - intros (c & Hin & Hc) E.
    assert (In c (filter (connects a b) (connections db))) as Hf
      by (apply filter_In; auto).
    rewrite E in Hf. destruct Hf.
Qed.

Lemma get_check_run other req f w r w' :
  get_check other req f w = (r, w') ->
  w_db w' = w_db w
  /\ (f (w_tick w) = None ->
      (select_connections (userId req) other (w_db w) <> []
       /\ r = json 200 (CheckResult true None) /\ w_tick w' = S (w_tick w))
      \/ (select_connections (userId req) other (w_db w) = []
          /\ w_tick w' = S (S (w_tick w))
          /\ (f (S (w_tick w)) <> None -> r = json 500 (Detail "Failed to check connection"))
          /\ (f (S (w_tick w)) = None ->
              r = json 200
                    (CheckResult false
                       (match select_requests (userId req) other (w_db w) with
                        | q :: _ => Some (cr_status q)
                        | [] => None
                        end))))).
Proof.
  unfold get_check, try_catch, bind, query, statement, ret. simpl.
  destruct (f (w_tick w)) as [m|] eqn:F0.
  - intros H; inversion H; subst; simpl. split; [reflexivity|discriminate].
  - simpl.
    destruct (nonempty (select_connections (userId req) other (w_db w))) eqn:N.
    + intros H; inversion H; subst; simpl. split; [reflexivity|]. intros _. left.
      apply nonempty_true in N. auto.
    + apply nonempty_false in N. simpl.
      destruct (f (S (w_tick w))) as [m|] eqn:F1.
      * intros H; inversion H; subst; simpl. split; [reflexivity|]. intros _. right.
        repeat split; auto. discriminate.
      * simpl. intros H. split.
        -- destruct (select_requests (userId req) other (w_db w));
             inversion H; subst; reflexivity.
        -- intros _. right. split; [exact N|].
           destruct (select_requests (userId req) other (w_db w));
             inversion H; subst; simpl; repeat split; auto; congruence.
Qed.

(** C8, as stated, fails: after a rejection the route answers with the
    status [rejected], which is neither connected, pending nor none. *)
Lemma check_status_counterexample : ~ check_three_valued.
Proof.
  intros H.
  assert (select_active_user 1%N Sample.campus_rejected <> []) as Hact
    by (vm_compute; discriminate).
  specialize (H Sample.campus_rejected 1%N 2%N
                (json 200 (CheckResult false (Some rejected)))
                Sample.campus_rejected Hact eq_refl).
  simpl in H. destruct H as [H|[H|H]]; discriminate.
Qed.

(** C8, amended. For an authenticated actor, [checkStatus] never writes;
    it answers [connected] from the [connections] query alone when a row
    links the two users in either direction; only otherwise does it read
    [connection_requests], and then reports the status (pending, accepted
    or rejected, without direction) of the first request between the two
    users, or nothing when there is none. *)
Theorem check_status_cases actor other f db r db' :
  select_active_user actor db <> [] ->
  f 0 = None -> f 1 = None ->
  serve (route_check (Verified actor) other) f db = (r, db') ->
  db' = db
  /\ (((exists c, In c (connections db) /\ connects actor other c = true)
       /\ r = json 200 (CheckResult true None))
      \/ ((forall c, In c (connections db) -> connects actor other c = false)
          /\ (f 2 <> None -> r = json 500 (Detail "Failed to check connection"))
          /\ (f 2 = None ->
              (exists q rest,
                  select_requests actor other db = q :: rest
                  /\ In q (connection_requests db)
                  /\ requested actor other q = true
                  /\ r = json 200 (CheckResult false (Some (cr_status q))))
              \/ ((forall q, In q (connection_requests db) ->
                             requested actor other q = false)
                  /\ r = json 200 (CheckResult false None))))).
Proof.
  intros Hact F0 F1 H. unfold serve, route_check in H.
  destruct (select_active_user actor db) as [|u rest] eqn:S; [congruence|].
  rewrite (authenticate_ok actor _ f {| w_db := db; w_tick := 0 |} u rest F0 S) in H.
  destruct (get_check _ _ _ _) as [r0 w0] eqn:G. inv H.
  apply get_check_run in G as [Hdb Hc]. simpl in *.
  split; [exact Hdb|].
  destruct (Hc F1) as [(Hne & -> & _)|(Hnil & _ & H500 & H200)].
  - left. split; [|reflexivity]. now apply select_connections_cons.
  - right. split; [now apply select_connections_nil|]. split; [exact H500|].
    intros F2. rewrite (H200 F2).
    destruct (select_requests actor other db) as [|q l] eqn:R.
    + right. split; [|reflexivity]. now apply filter_nil_iff.
    + left. exists q, l. apply filter_head_in in R as [? ?]. auto.
Qed.

(** ** Constraints of the schema, read backwards *)

Lemma insert_connection_ok c db db' :
  insert_connection c db = Ok db' ->
  db' = set_connections (connections db ++ [c]) db
  /\ (forall x, In x (connections db) ->
        c_id x <> c_id c
        /\ ~ (c_user_id x = c_user_id c
              /\ c_connected_user_id x = c_connected_user_id c)).
Proof.
  unfold insert_connection.
  destruct (existsb _ (connections db)) eqn:E1; [discriminate|].
  destruct (existsb _ (connections db)) eqn:E2 in |- *; [discriminate|].
  destruct (negb (has_user (c_user_id c) db)); [discriminate|].
  destruct (negb (has_user (c_connected_user_id c) db)); [discriminate|].
  intros H; inversion H; subst. split; [reflexivity|].
  intros x Hx. split.
  - intros Heq. rewrite existsb_false in E1. specialize (E1 x Hx).
    apply N.eqb_neq in E1. contradiction.
  - intros [H1 H2]. rewrite existsb_false in E2. specialize (E2 x Hx).
    apply andb_false_iff in E2.
    destruct E2 as [E2|E2]; apply N.eqb_neq in E2; contradiction.
Qed.

Lemma insert_notifications_ok rows db db' :
  insert_notifications rows db = Ok db' ->
  db' = set_notifications (notifications db ++ rows) db.
Proof.
  unfold insert_notifications. destruct (forallb _ rows); [|discriminate].
  intros H; inversion H; reflexivity.
Qed.

Lemma filter_pkey (l : list User) u :
  NoDup (map u_id l) -> In u l ->
  filter (fun x => (u_id x =? u_id u)%N) l = [u].
Proof.
  induction l as [|a l IH]; simpl; intros ND Hin; [destruct Hin|].
  inversion ND as [|? ? Hnot ND']; subst.
  destruct Hin as [->|Hin].
  - rewrite N.eqb_refl. f_equal. apply filter_nil_iff. intros x Hx.
    apply N.eqb_neq. intros E. apply Hnot. rewrite <- E. now apply in_map.
  - destruct (u_id a =? u_id u)%N eqn:E.
    + apply N.eqb_eq in E. exfalso. apply Hnot. rewrite E. now apply in_map.
    + now apply IH.
Qed.

(** ** acceptRequest *)

Lemma select_pending_request_head rid actor db R rest :
  select_pending_request rid actor db = R :: rest ->
  In R (connection_requests db)
  /\ cr_id R = rid /\ cr_to_user_id R = actor /\ cr_status R = pending.
Proof.
  intros H. apply filter_head_in in H as [Hin Hp].
  apply andb_true_iff in Hp as [Hp Hs]. apply andb_true_iff in Hp as [Hi Ht].
  apply N.eqb_eq in Hi, Ht. destruct (cr_status R); try discriminate. auto.
Qed.

Lemma accept_callback_ok rid connId actor f w wc :
  accept_callback rid connId actor f w = (Ok tt, wc) ->
  exists R rest,
    select_pending_request rid actor (w_db w) = R :: rest
    /\ w_db wc = after_accept R connId actor (w_db w).
Proof.
  unfold accept_callback. intros H.
  apply bind_inv in H as [(m & _ & ?)|(rows & w1 & Q & H)]; [discriminate|].
  apply query_inv in Q as [-> [(m & ? & _)|[E _]]]; [discriminate|].
  inversion E; subst rows; clear E.
  destruct (select_pending_request rid actor (w_db w)) as [|R rest] eqn:S.
  - discriminate.
  - exists R, rest. split; [reflexivity|].
    apply select_pending_request_head in S as (_ & Hid & _ & _).
    apply bind_inv in H as [(m & _ & ?)|([] & w2 & U & H)]; [discriminate|].
    apply execute_inv in U as [_ [(m & ? & _)|(_ & _ & U)]]; [discriminate|].
    apply bind_inv in H as [(m & _ & ?)|([] & w3 & I & H)]; [discriminate|].
    apply execute_inv in I as [_ [(m & ? & _)|(_ & _ & I)]]; [discriminate|].
    apply execute_inv in H as [_ [(m & ? & _)|(_ & _ & Nt)]]; [discriminate|].
    simpl in U. unfold update_request_status in U. inversion U as [U']; clear U.
    rewrite <- U' in I.
    apply insert_connection_ok in I as [I _].
    apply insert_notifications_ok in Nt. rewrite Nt, I. unfold after_accept.
    rewrite Hid. reflexivity.
Qed.

Lemma put_request_accept_run rid connId req f w r w' :
  put_request_accept rid connId req f w = (r, w') ->
  (res_status r = 400 /\ w_db w' = w_db w)
  \/ (r = json 200 (Success "Request accepted")
      /\ exists R rest,
           select_pending_request rid (userId req) (w_db w) = R :: rest
           /\ w_db w' = after_accept R connId (userId req) (w_db w)).
Proof.
  intros H. apply try_catch_inv in H as [H|(m & H & ->)].
  - apply bind_inv in H as [(m & _ & ?)|([] & w1 & T & H)]; [discriminate|].
    inv H.
    apply transaction_inv in T as [(m & ? & _)|(r & wc & _ & _ & _ & C & _ & ->)];
      [discriminate|].
    destruct r. apply accept_callback_ok in C as (R & rest & S & D).
    right. split; [reflexivity|]. exists R, rest. simpl in *. auto.
  - left. split; [reflexivity|].
    apply bind_inv in H as [(m' & T & _)|(a & w1 & _ & H)]; [|discriminate].
    apply transaction_inv in T as [(m'' & _ & D)|(r & wc & ? & _)];
      [exact D|discriminate].
Qed.

Lemma with_status_not_pending rid actor l :
  filter (fun r => (cr_id r =? rid)%N && (cr_to_user_id r =? actor)%N
                   && Status_eqb (cr_status r) pending)
         (with_status accepted rid l) = [].
Proof.
  apply filter_nil_iff. intros x Hx. unfold with_status in Hx.
  apply in_map_iff in Hx as (y & <- & _).
  destruct (cr_id y =? rid)%N eqn:E; simpl.
  - rewrite E. simpl. apply andb_false_r.
  - rewrite E. reflexivity.
Qed.

Lemma put_request_accept_not_found rid connId req f w :
  (forall k, f k = None) ->
  select_pending_request rid (userId req) (w_db w) = [] ->
  exists w',
    put_request_accept rid connId req f w
    = (json 400 (Detail "Request not found or already processed"), w')
    /\ w_db w' = w_db w.
Proof.
  intros F S.
  unfold put_request_accept, try_catch, bind, transaction, accept_callback,
    BEGIN, COMMIT, bind, execute, query, statement, throw, ret.
  simpl. rewrite !F. simpl. rewrite S. simpl. rewrite ?F.
  eexists. split; reflexivity.
Qed.

Lemma route_accept_run cred rid connId f db r db' :
  serve (route_accept cred rid connId) f db = (r, db') ->
  (res_status r <> 200 /\ db' = db)
  \/ (r = json 200 (Success "Request accepted")
      /\ exists actor u rest R rest',
           cred = Verified actor
           /\ select_active_user actor db = u :: rest
           /\ select_pending_request rid actor db = R :: rest'
           /\ db' = after_accept R connId actor db).
Proof.
  unfold serve, route_accept. intros H.
  through_authenticate H A.
  apply authenticate_inv in A as [(D & S & _)|(id & u & rest & -> & _ & S & Hn)].
  - left. simpl in D. split; [|exact D]. destruct S as [S|S]; rewrite S; discriminate.
  - apply put_request_accept_run in Hn as [[S400 D]|(-> & R & rest' & P & D)]; simpl in *.
    + left. split; [rewrite S400; discriminate|exact D].
    + right. split; [reflexivity|]. exists id, u, rest, R, rest'. auto.
Qed.

(** C1. [acceptRequest] answers 200 only for a pending request addressed
    to the authenticated actor; it then leaves the request accepted, one
    new connection row from sender to receiver and one notification for
    the sender; any other answer leaves the database as it was (the
    writes are one transaction); accepting the same request again fails,
    with "not found or already processed" when the storage layer works,
    and writes nothing. *)
Theorem accept_request_spec cred rid connId f db r db' :
  users_pkey db ->
  serve (route_accept cred rid connId) f db = (r, db') ->
  (res_status r <> 200 -> db' = db)
  /\ (res_status r = 200 ->
      exists actor R n,
        cred = Verified actor
        /\ In R (connection_requests db)
        /\ cr_id R = rid /\ cr_status R = pending /\ cr_to_user_id R = actor
        /\ connection_requests db' = with_status accepted rid (connection_requests db)
        /\ connections db'
           = connections db
             ++ [{| c_id := connId; c_user_id := cr_from_user_id R;
                    c_connected_user_id := cr_to_user_id R |}]
        /\ notifications db' = notifications db ++ [n]
        /\ n_user_id n = cr_from_user_id R
        /\ n_type n = "connection_accepted"
        /\ db' = after_accept R connId actor db
        /\ forall cred2 connId2 f2 r2 db2,
             serve (route_accept cred2 rid connId2) f2 db' = (r2, db2) ->
             db2 = db' /\ res_status r2 <> 200
             /\ ((forall k, f2 k = None) -> cred2 = cred ->
                 r2 = json 400 (Detail "Request not found or already processed"))).
Proof.
  intros PK H.
  apply route_accept_run in H
    as [[S D]|(-> & actor & u & rest & R & rest' & -> & A & P & ->)].
  - split; [auto|]. intros E. contradiction.
  - split; [intros E; simpl in E; congruence|]. intros _.
    pose proof (select_pending_request_head _ _ _ _ _ P) as (HR & Hid & Hto & Hst).
    pose proof (select_active_user_head _ _ _ _ A) as (Hu & Huid & _).
    assert (connection_accepted_rows (cr_from_user_id R) actor db
            = [{| n_user_id := cr_from_user_id R; n_type := "connection_accepted";
                  n_title := "Connection Accepted";
                  n_message := (u_name u ++ " accepted your connection request")%string;
                  n_avatar := u_avatar u; n_is_read := false;
                  n_action_url := Some "/connections"; n_related_id := None |}])
      as Rows.
    { unfold connection_accepted_rows. rewrite <- Huid.
      rewrite (filter_pkey (users db) u PK Hu). reflexivity. }
    eexists actor, R, _. repeat split; try eassumption.
    + unfold after_accept. simpl. rewrite Hid. reflexivity.
    + unfold after_accept. simpl. rewrite Rows. reflexivity.
    + reflexivity.
    + reflexivity.
    + apply route_accept_run in H
        as [[_ D]|(_ & a2 & _ & _ & R2 & rest2 & _ & _ & P2 & _)]; [exact D|].
      exfalso. unfold select_pending_request, after_accept in P2. simpl in P2.
      rewrite Hid, with_status_not_pending in P2. discriminate.
    + apply route_accept_run in H
        as [[S _]|(_ & a2 & _ & _ & R2 & rest2 & _ & _ & P2 & _)]; [exact S|].
      exfalso. unfold select_pending_request, after_accept in P2. simpl in P2.
      rewrite Hid, with_status_not_pending in P2. discriminate.
    + intros F ->. unfold serve, route_accept in H.
      rewrite (authenticate_ok actor _ f2
                 {| w_db := after_accept R connId actor db; w_tick := 0 |}
                 u rest (F 0) A) in H.
      set (W := {| w_db := after_accept R connId actor db; w_tick := 0 |}) in *.
      destruct (put_request_accept_not_found rid connId2
                  {| userId := actor; user := u |} f2
                  (next_tick W (w_db W)) F) as (w' & E & _).
      { unfold select_pending_request, after_accept. simpl.
        rewrite Hid. apply with_status_not_pending. }
      rewrite E in H. inversion H. reflexivity.
Qed.

(** ** sendRequest *)

Lemma insert_connection_request_ok q db db' :
  insert_connection_request q db = Ok db' ->
  db' = set_connection_requests (connection_requests db ++ [q]) db
  /\ has_user (cr_from_user_id q) db = true
  /\ has_user (cr_to_user_id q) db = true.
Proof.
  unfold insert_connection_request.
  destruct (existsb _ (connection_requests db)); [discriminate|].
  destruct (existsb _ (connection_requests db)); [discriminate|].
  destruct (has_user (cr_from_user_id q) db); [|discriminate].
  destruct (has_user (cr_to_user_id q) db); [|discriminate].
  simpl. intros H; inversion H; auto.
Qed.

Lemma notify_connection_request_ok to name rid from db :
  has_user to db = true ->
  notify_connection_request to name rid from db
  = Ok (set_notifications
          (notifications db ++ connection_request_rows to name rid from db) db).
Proof.
  intros U. unfold notify_connection_request, insert_notifications.
  replace (forallb _ _) with true; [reflexivity|].
  symmetry. apply forallb_forall. intros n Hn.
  unfold connection_request_rows in Hn. apply in_map_iff in Hn as (u & <- & _).
  exact U.
Qed.

(** The three ways a request can end: nothing written; the request row
    written and the notification lost to a failure of the fourth
    statement; both written. *)
Lemma post_request_run text rid req f w r w' :
  let to := parsed text in
  post_request (Some text) rid req f w = (r, w') ->
  ((res_status r = 400 \/ res_status r = 500) /\ w_db w' = w_db w)
  \/ (same_text text (userId req) = false
      /\ select_connections (userId req) to (w_db w) = []
      /\ select_requests (userId req) to (w_db w) = []
      /\ f (w_tick w) = None /\ f (1 + w_tick w) = None /\ f (2 + w_tick w) = None
      /\ ((r = json 500 (Detail "Failed to send request")
           /\ f (3 + w_tick w) <> None
           /\ w_db w' = after_request_insert rid (userId req) to (w_db w))
          \/ (r = json 200 (Success "Connection request sent")
              /\ f (3 + w_tick w) = None
              /\ w_db w' = after_send rid (userId req) to (u_name (user req)) (w_db w)))).
Proof.
  intros to. unfold post_request, try_catch. fold to.
  destruct (same_text text (userId req)) eqn:Self.
  - unfold ret. intros H; inversion H; subst. left. simpl. auto.
  - unfold bind at 1. unfold query at 1, statement at 1.
    destruct (f (w_tick w)) as [m|] eqn:F0.
    { intros H; inversion H; subst. left. simpl. auto. }
    destruct (nonempty (select_connections (userId req) to (w_db w))) eqn:C.
    { unfold ret. intros H; inversion H; subst. left. simpl. auto. }
    apply nonempty_false in C.
    unfold bind at 1. unfold query at 1, statement at 1. simpl w_tick. simpl w_db.
    destruct (f (S (w_tick w))) as [m|] eqn:F1.
    { intros H; inversion H; subst. left. simpl. auto. }
    destruct (nonempty (select_requests (userId req) to (w_db w))) eqn:Q.
    { unfold ret. intros H; inversion H; subst. left. simpl. auto. }
    apply nonempty_false in Q.
    unfold bind at 1. unfold execute at 1, statement at 1. simpl w_tick. simpl w_db.
    destruct (f (S (S (w_tick w)))) as [m|] eqn:F2.
    { intros H; inversion H; subst. left. simpl. auto. }
    destruct (insert_connection_request _ (w_db w)) as [db1|m] eqn:I.
    2:{ intros H; inversion H; subst. left. simpl. auto. }
    apply insert_connection_request_ok in I as (-> & _ & Uto). simpl in Uto.
    unfold bind at 1. unfold execute at 1, statement at 1. simpl w_tick. simpl w_db.
    intros H. right. change (1 + w_tick w) with (S (w_tick w)).
    change (2 + w_tick w) with (S (S (w_tick w))).
    change (3 + w_tick w) with (S (S (S (w_tick w)))).
    repeat (split; [assumption || reflexivity|]).
    destruct (f (S (S (S (w_tick w))))) as [m|] eqn:F3.
    + inversion H; subst. left.
      split; [reflexivity|]. split; [discriminate|reflexivity].
    + rewrite notify_connection_request_ok in H by exact Uto.
      unfold ret in H. inversion H; subst. right.
      split; [reflexivity|]. split; reflexivity.
Qed.

Lemma route_send_run cred to rid f db r db' :
  serve (route_send cred to rid) f db = (r, db') ->
  (res_status r <> 200 /\ db' = db)
  \/ (exists A text u rest,
        cred = Verified A /\ to = Some text /\ same_text text A = false
        /\ select_active_user A db = u :: rest
        /\ select_connections A (parsed text) db = []
        /\ select_requests A (parsed text) db = []
        /\ f 0 = None /\ f 1 = None /\ f 2 = None /\ f 3 = None
        /\ ((r = json 500 (Detail "Failed to send request")
             /\ f 4 <> None
             /\ db' = after_request_insert rid A (parsed text) db)
            \/ (r = json 200 (Success "Connection request sent")
                /\ f 4 = None
                /\ db' = after_send rid A (parsed text) (u_name u) db))).
Proof.
  unfold serve, route_send. intros H.
  through_authenticate H Au.
  apply authenticate_inv in Au as [(D & S & _)|(id & u & rest & -> & F0 & S & Hn)].
  - left. simpl in D. split; [|exact D]. destruct S as [S|S]; rewrite S; discriminate.
  - destruct to as [text|].
    + apply post_request_run in Hn
        as [[S4 D]|(Ne & C & Q & F1 & F2 & F3 & Hn)]; simpl in *.
      * left. split; [|exact D]. destruct S4 as [E|E]; rewrite E; discriminate.
      * right. exists id, text, u, rest. repeat split; auto.
    + left. unfold post_request, try_catch, ret in Hn. inversion Hn; subst.
      simpl. split; [discriminate|reflexivity].
Qed.

Lemma in_select_requests a b db q :
  In q (connection_requests db) -> requested a b q = true ->
  select_requests a b db <> [].
Proof.
  intros Hin Hq E. assert (In q (select_requests a b db)) as H
      by (apply filter_In; auto).
  rewrite E in H. destruct H.
Qed.

Lemma requested_sym a b q : requested a b q = requested b a q.
Proof. unfold requested. apply orb_comm. Qed.

Lemma connects_sym a b c : connects a b c = connects b a c.
Proof. unfold connects. apply orb_comm. Qed.

Lemma requested_from_to q : requested (cr_from_user_id q) (cr_to_user_id q) q = true.
Proof. unfold requested. rewrite !N.eqb_refl. reflexivity. Qed.

(** A request between the two users, whatever its direction, stops a new
    one before any write. *)
Lemma route_send_blocked sender target rid f db q r db' :
  In q (connection_requests db) ->
  requested sender (parsed target) q = true ->
  serve (route_send (Verified sender) (Some target) rid) f db = (r, db') ->
  db' = db /\ res_status r <> 200
  /\ ((forall k, f k = None) -> select_active_user sender db <> [] ->
      (same_text target sender = true
       /\ r = json 400 (Detail "Cannot connect to yourself"))
      \/ (same_text target sender = false
          /\ (r = json 400 (Detail "Already connected")
              \/ r = json 400 (Detail "Request already exists")))).
Proof.
  intros Hin Hq H.
  pose proof (in_select_requests _ _ _ _ Hin Hq) as Hne.
  pose proof H as H0.
  apply route_send_run in H
    as [[S D]|(A & B & u & rest & E1 & E2 & _ & _ & _ & Q & _)].
  2:{ inversion E1; inversion E2; subst. contradiction. }
  repeat split; auto.
  intros F Act. unfold serve, route_send in H0.
  destruct (select_active_user sender db) as [|u rest] eqn:SA; [congruence|].
  rewrite (authenticate_ok sender _ f {| w_db := db; w_tick := 0 |} u rest (F 0) SA) in H0.
  unfold post_request, try_catch in H0. cbn [userId] in H0.
  destruct (same_text target sender) eqn:Self.
  - unfold ret in H0. inversion H0; subst. left. auto.
  - right. split; [reflexivity|].
    unfold bind, query, statement, ret in H0.
    rewrite !F in H0. cbn [w_db next_tick w_tick] in H0.
    destruct (nonempty (select_connections sender (parsed target) db)).
    + inversion H0; subst. left; reflexivity.
    + rewrite !F in H0. cbn [w_db next_tick w_tick] in H0.
      apply nonempty_true in Hne. rewrite Hne in H0.
      inversion H0; subst. right; reflexivity.
Qed.

(** C2. Once [sendRequest(A, B)] succeeded, the pending row from [A] to
    [B] is stored; and as long as a request from [A] to [B] is stored
    (whatever its status, so in particular while it is pending), a
    further [sendRequest(A, B)] or [sendRequest(B, A)], however the
    target is spelled, writes nothing and does not succeed: it is
    refused with status 400 as soon as the sender is authenticated and
    the storage layer answers, and for distinct users with "Already
    connected" or "Request already exists". *)
Theorem no_duplicate_live_requests A text rid f db r db1 :
  serve (route_send (Verified A) (Some text) rid) f db = (r, db1) ->
  res_status r = 200 ->
  In (new_request rid A (parsed text)) (connection_requests db1)
  /\ forall db2 q sender target rid2 f2 r2 db2',
       In q (connection_requests db2) ->
       cr_from_user_id q = A -> cr_to_user_id q = parsed text ->
       (sender = A /\ parsed target = parsed text)
       \/ (sender = parsed text /\ parsed target = A) ->
       serve (route_send (Verified sender) (Some target) rid2) f2 db2 = (r2, db2') ->
       db2' = db2
       /\ connection_requests db2' = connection_requests db2
       /\ res_status r2 <> 200
       /\ ((forall k, f2 k = None) -> select_active_user sender db2 <> [] ->
           (r2 = json 400 (Detail "Cannot connect to yourself")
            \/ r2 = json 400 (Detail "Already connected")
            \/ r2 = json 400 (Detail "Request already exists"))
           /\ (A <> parsed text ->
               r2 = json 400 (Detail "Already connected")
               \/ r2 = json 400 (Detail "Request already exists"))).
Proof.
  intros H S.
  apply route_send_run in H
    as [[S' _]|(A' & B' & u & rest & E1 & E2 & Ne & _ & _ & _ & _ & _ & _ & _ & H)];
    [contradiction|].
  inversion E1; inversion E2; subst A' B'; clear E1 E2.
  destruct H as [(-> & _)|(_ & _ & ->)]; [simpl in S; discriminate|].
  split.
  { unfold after_send, after_request_insert. simpl.
    apply in_or_app. right. now left. }
  intros db2 q sender target rid2 f2 r2 db2' Hin Hf Ht Hdir H2.
  assert (requested sender (parsed target) q = true) as Hq.
  { destruct Hdir as [[-> ->]|[-> ->]].
    - rewrite <- Hf, <- Ht. apply requested_from_to.
    - rewrite requested_sym, <- Hf, <- Ht. apply requested_from_to. }
  destruct (route_send_blocked _ _ _ _ _ _ _ _ Hin Hq H2) as (D & S2 & X).
  split; [exact D|]. split; [now rewrite D|]. split; [exact S2|].
  intros F Act. destruct (X F Act) as [(Self & ->)|(Self & Y)].
  - split; [left; reflexivity|]. intros Ne'. exfalso.
    unfold same_text in Self. apply andb_true_iff in Self as [_ Self].
    apply N.eqb_eq in Self. destruct Hdir as [[E1 E2]|[E1 E2]]; congruence.
  - split; [right; exact Y|]. intros _. exact Y.
Qed.



(** ** The invariant of the relationship engine *)

Lemma connects_same_pair a b c :
  connects a b c = true ->
  forall c', connects a b c' = connects (c_user_id c) (c_connected_user_id c) c'.
Proof.
  unfold connects. intros H c'.
  apply orb_true_iff in H as [H|H]; apply andb_true_iff in H as [H1 H2];
    apply N.eqb_eq in H1, H2; subst; [reflexivity|apply orb_comm].
Qed.

Lemma requested_same_pair a b q :
  requested a b q = true ->
  forall q', requested a b q' = requested (cr_from_user_id q) (cr_to_user_id q) q'.
Proof.
  unfold requested. intros H q'.
  apply orb_true_iff in H as [H|H]; apply andb_true_iff in H as [H1 H2];
    apply N.eqb_eq in H1, H2; subst; [reflexivity|apply orb_comm].
Qed.

Lemma connects_requested a b c q :
  connects a b c = true ->
  requested a b q = requested (c_user_id c) (c_connected_user_id c) q.
Proof.
  unfold requested, connects. intros H.
  apply orb_true_iff in H as [H|H]; apply andb_true_iff in H as [H1 H2];
    apply N.eqb_eq in H1, H2; subst; [reflexivity|apply orb_comm].
Qed.

Lemma length_filter_snoc {A} (p : A -> bool) l x :
  List.length (filter p (l ++ [x]))
  = (List.length (filter p l) + (if p x then 1 else 0))%nat.
Proof.
  rewrite filter_app, length_app. simpl. destruct (p x); reflexivity.
Qed.

Lemma length_filter_map {A} (p : A -> bool) (g : A -> A) l :
  (forall x, p (g x) = p x) ->
  List.length (filter p (map g l)) = List.length (filter p l).
Proof.
  intros E. induction l as [|a l IH]; simpl; [reflexivity|].
  rewrite E. destruct (p a); simpl; congruence.
Qed.

Lemma length_filter_filter {A} (p q : A -> bool) l :
  (List.length (filter p (filter q l)) <= List.length (filter p l))%nat.
Proof.
  induction l as [|a l IH]; simpl; [lia|].
  destruct (q a); simpl; destruct (p a); simpl; lia.
Qed.

Lemma at_most_one {A} (l : list A) x y :
  (List.length l <= 1)%nat -> In x l -> In y l -> x = y.
Proof.
  destruct l as [|a [|b l]]; simpl; intros L Hx Hy; [destruct Hx| |lia].
  destruct Hx as [<-|[]], Hy as [<-|[]]. reflexivity.
Qed.

Lemma engine_inv_ext db db' :
  connections db' = connections db ->
  connection_requests db' = connection_requests db ->
  engine_inv db -> engine_inv db'.
Proof.
  intros C Q [K J L].
  constructor; unfold select_requests, select_connections in *;
    rewrite ?C, ?Q; auto.
Qed.

(** The invariant holds before anybody has asked anybody. *)
Lemma engine_inv_empty db :
  connections db = [] -> connection_requests db = [] -> engine_inv db.
Proof.
  intros C Q.
  constructor; unfold select_requests, select_connections; rewrite ?C, ?Q;
    simpl; auto; contradiction.
Qed.

Lemma engine_inv_request_insert rid a b db :
  select_connections a b db = [] ->
  select_requests a b db = [] ->
  engine_inv db -> engine_inv (after_request_insert rid a b db).
Proof.
  intros C Q [K J L]. constructor; unfold after_request_insert.
  - intros x y. unfold select_requests. simpl. rewrite length_filter_snoc.
    destruct (requested x y (new_request rid a b)) eqn:E.
    + rewrite (filter_ext _ _ (requested_same_pair x y _ E)). simpl.
      unfold select_requests in Q. rewrite Q. simpl. lia.
    + specialize (K x y). unfold select_requests in K. lia.
  - intros q Hq Hp. simpl in Hq. unfold select_connections. simpl.
    apply in_app_or in Hq as [Hq|[<-|[]]].
    + apply (J q Hq Hp).
    + exact C.
  - exact L.
Qed.

Lemma engine_inv_accept rid actor connId R rest db :
  select_pending_request rid actor db = R :: rest ->
  engine_inv db -> engine_inv (after_accept R connId actor db).
Proof.
  intros P [K J L].
  apply select_pending_request_head in P as (HR & Hid & _ & Hst).
  pose proof (J R HR Hst) as NoConn.
  set (c := {| c_id := connId; c_user_id := cr_from_user_id R;
               c_connected_user_id := cr_to_user_id R |}).
  constructor; unfold after_accept.
  - intros a b. unfold select_requests, with_status. simpl.
    rewrite length_filter_map by (intros x; destruct (cr_id x =? cr_id R)%N; reflexivity).
    apply K.
  - intros q Hq Hp. simpl in Hq. unfold select_connections. simpl.
    unfold with_status in Hq. apply in_map_iff in Hq as (q0 & E & Hq0).
    destruct (cr_id q0 =? cr_id R)%N eqn:I.
    { subst q. simpl in Hp. discriminate. }
    subst q. rewrite filter_app. simpl.
    rewrite (J q0 Hq0 Hp) at 1. simpl. fold c.
    destruct (connects (cr_from_user_id q0) (cr_to_user_id q0) c) eqn:Cn; [|reflexivity].
    exfalso.
    assert (requested (cr_from_user_id q0) (cr_to_user_id q0) R = true) as Rq.
    { rewrite (connects_requested _ _ _ R Cn). apply requested_from_to. }
    assert (q0 = R) as ->.
    { apply (at_most_one (select_requests (cr_from_user_id q0) (cr_to_user_id q0) db));
        [apply K| |]; apply filter_In; split; auto. apply requested_from_to. }
    rewrite N.eqb_refl in I. discriminate.
  - intros a b. unfold select_connections. simpl. rewrite length_filter_snoc.
    fold c. destruct (connects a b c) eqn:E.
    + rewrite (filter_ext _ _ (connects_same_pair a b c E)). simpl.
      unfold select_connections in NoConn. rewrite NoConn. simpl. lia.
    + specialize (L a b). unfold select_connections in L. lia.
Qed.

Lemma engine_inv_reject rid actor db db' ids :
  update_reject rid actor db = Ok (ids, db') ->
  engine_inv db -> engine_inv db'.
Proof.
  unfold update_reject. intros H [K J L]. inv H.
  constructor.
  - intros a b. unfold select_requests. simpl.
    rewrite length_filter_map; [apply K|].
    intros x. destruct (_ && _); reflexivity.
  - intros q Hq Hp. simpl in Hq. unfold select_connections. simpl.
    apply in_map_iff in Hq as (q0 & E & Hq0).
    destruct ((cr_id q0 =? rid)%N && (cr_to_user_id q0 =? actor)%N
              && Status_eqb (cr_status q0) pending).
    + subst q. simpl in Hp. discriminate.
    + subst q. apply (J q0 Hq0 Hp).
  - exact L.
Qed.

Lemma engine_inv_remove a b db :
  engine_inv db ->
  engine_inv (set_connections (filter (fun c => negb (connects a b c)) (connections db)) db).
Proof.
  intros [K J L]. constructor.
  - exact K.
  - intros q Hq Hp. unfold select_connections. simpl.
    apply filter_nil_iff. intros c Hc. apply filter_In in Hc as [Hc _].
    specialize (J q Hq Hp). unfold select_connections in J.
    rewrite filter_nil_iff in J. auto.
  - intros x y. unfold select_connections. simpl.
    specialize (L x y). unfold select_connections in L.
    pose proof (length_filter_filter (connects x y)
                  (fun c => negb (connects a b c)) (connections db)). lia.
Qed.

Lemma engine_inv_send rid a b name db :
  select_connections a b db = [] ->
  select_requests a b db = [] ->
  engine_inv db -> engine_inv (after_send rid a b name db).
Proof.
  intros C Q I.
  apply (engine_inv_ext (after_request_insert rid a b db)); try reflexivity.
  now apply engine_inv_request_insert.
Qed.

Create HintDb engine discriminated.
#[local] Hint Resolve engine_inv_request_insert engine_inv_send
  engine_inv_accept engine_inv_remove : engine.

Lemma put_request_reject_run rid req f w r w' :
  put_request_reject rid req f w = (r, w') ->
  w_db w' = w_db w
  \/ exists ids, update_reject rid (userId req) (w_db w) = Ok (ids, w_db w').
Proof.
  intros H. apply try_catch_inv in H as [H|(m & H & ->)].
  - apply bind_inv in H as [(m & _ & ?)|(ids & w1 & S & H)]; [discriminate|].
    apply statement_inv in S as [_ [(m & ? & _)|(a & E & _ & U)]]; [discriminate|].
    inversion E; subst a. right. exists ids.
    destruct (nonempty ids); unfold ret in H; inversion H; subst; exact U.
  - apply bind_inv in H as [(m' & S & _)|(ids & w1 & S & H)].
    + apply statement_inv in S as [_ [(m'' & _ & D)|(a & ? & _)]];
        [left; exact D|discriminate].
    + destruct (nonempty ids); unfold ret in H; discriminate.
Qed.

Lemma delete_connection_run other req f w r w' :
  delete_connection other req f w = (r, w') ->
  w_db w' = w_db w
  \/ w_db w'
     = set_connections
         (filter (fun c => negb (connects (userId req) other c)) (connections (w_db w)))
         (w_db w).
Proof.
  intros H. apply try_catch_inv in H as [H|(m & H & ->)].
  - apply bind_inv in H as [(m & _ & ?)|([] & w1 & E & H)]; [discriminate|].
    apply execute_inv in E as [_ [(m & ? & _)|(_ & _ & D)]]; [discriminate|].
    unfold ret in H. inversion H; subst. right.
    unfold delete_connections in D. inversion D. reflexivity.
  - apply bind_inv in H as [(m' & E & _)|(a & w1 & _ & H)]; [|discriminate].
    apply execute_inv in E as [_ [(m'' & _ & D)|(? & _)]]; [left; exact D|discriminate].
Qed.

(** Every route of the engine keeps the invariant, whoever calls it and
    whatever the storage layer does. *)
Lemma route_preserves_inv c f db :
  engine_inv db -> engine_inv (snd (serve (route_of c) f db)).
Proof.
  intros I. destruct (serve (route_of c) f db) as [r db'] eqn:H. simpl.
  destruct c as [cred to rid|cred rid connId|cred rid|cred other|cred other];
    simpl in H.
  - apply route_send_run in H
      as [[_ ->]|(A & B & u & rest & _ & _ & _ & _ & C & Q & _ & _ & _ & _ & H)];
      [exact I|].
    destruct H as [(_ & _ & ->)|(_ & _ & ->)]; auto with engine.
  - apply route_accept_run in H
      as [[_ ->]|(_ & actor & u & rest & R & rest' & _ & _ & P & ->)];
      eauto with engine.
  - unfold serve, route_reject in H.
    through_authenticate H A.
    apply authenticate_inv in A as [(D & _)|(id & u & rest & _ & _ & _ & Hn)].
    + simpl in D. now rewrite D.
    + apply put_request_reject_run in Hn as [D|(ids & U)]; simpl in *.
      * now rewrite D.
      * now apply (engine_inv_reject _ _ _ _ _ U).
  - unfold serve, route_remove in H.
    through_authenticate H A.
    apply authenticate_inv in A as [(D & _)|(id & u & rest & _ & _ & _ & Hn)].
    + simpl in D. now rewrite D.
    + apply delete_connection_run in Hn as [D|D]; simpl in *; rewrite D;
        auto with engine.
  - unfold serve, route_check in H.
    through_authenticate H A.
    apply authenticate_inv in A as [(D & _)|(id & u & rest & _ & _ & _ & Hn)].
    + simpl in D. now rewrite D.
    + apply get_check_run in Hn as [D _]. simpl in D. now rewrite D.
Qed.

Lemma run_preserves_inv calls db : engine_inv db -> engine_inv (run calls db).
Proof.
  revert db. induction calls as [|[c f] calls IH]; simpl; intros db I; [exact I|].
  apply IH. now apply route_preserves_inv.
Qed.

Lemma route_check_connected actor other f db :
  select_active_user actor db <> [] ->
  f 0 = None -> f 1 = None ->
  (exists c, In c (connections db) /\ connects actor other c = true) ->
  serve (route_check (Verified actor) other) f db
  = (json 200 (CheckResult true None), db).
Proof.
  intros Act F0 F1 Hc. apply select_connections_cons in Hc.
  destruct (serve _ f db) as [r db'] eqn:H. unfold serve, route_check in H.
  destruct (select_active_user actor db) as [|u rest] eqn:S; [congruence|].
  rewrite (authenticate_ok actor _ f {| w_db := db; w_tick := 0 |} u rest F0 S) in H.
  destruct (get_check _ _ _ _) as [r0 w0] eqn:G. inv H.
  apply get_check_run in G as [D G]. simpl in *.
  destruct (G F1) as [(_ & -> & _)|(E & _)]; [now rewrite D|contradiction].
Qed.

(** C4. In every state the engine reaches from a state that satisfies
    its invariant (one without connections and connection requests
    does), by requests served one after the other, two users linked by a
    connection row are reported connected whichever of them asks, and
    exactly one row stands for the pair, in whichever order the pair is
    looked up. *)
Theorem connection_symmetry db0 calls A B :
  engine_inv db0 ->
  (exists c, In c (connections (run calls db0)) /\ connects A B c = true) ->
  (forall f, f 0 = None -> f 1 = None ->
             select_active_user A (run calls db0) <> [] ->
             fst (serve (route_check (Verified A) B) f (run calls db0))
             = json 200 (CheckResult true None))
  /\ (forall f, f 0 = None -> f 1 = None ->
                select_active_user B (run calls db0) <> [] ->
                fst (serve (route_check (Verified B) A) f (run calls db0))
                = json 200 (CheckResult true None))
  /\ List.length (select_connections A B (run calls db0)) = 1%nat
  /\ select_connections B A (run calls db0) = select_connections A B (run calls db0).
Proof.
  intros I Hc. pose proof (run_preserves_inv calls db0 I) as [_ _ L].
  set (db := run calls db0) in *.
  split; [|split; [|split]].
  - intros f F0 F1 Act. now rewrite route_check_connected.
  - intros f F0 F1 Act. rewrite route_check_connected; auto.
    destruct Hc as (c & Hin & Hcn). exists c. now rewrite connects_sym.
  - specialize (L A B). apply select_connections_cons in Hc.
    destruct (select_connections A B db); simpl in *; [congruence|lia].
  - unfold select_connections. apply filter_ext. intros c. apply connects_sym.
Qed.

(** ** Uniqueness constraints *)

Lemma existsb_in {A} (p : A -> bool) (l : list A) x :
  In x l -> p x = true -> existsb p l = true.
Proof. intros Hin Hp. apply existsb_exists. eauto. Qed.

(** C5, as stated, fails: the constraints on pairs are on ordered pairs;
    the schema takes a connection from Bob to Ann next to the one from
    Ann to Bob, and a request from Bob to Ann next to Ann's. *)
Lemma storage_uniqueness_counterexample :
  ~ unordered_unique_connections /\ ~ unordered_unique_requests.
Proof.
  split.
  - intros H.
    destruct (H Sample.campus_connected
                {| c_id := 201%N; c_user_id := 2%N; c_connected_user_id := 1%N |}
                {| c_id := 200%N; c_user_id := 1%N; c_connected_user_id := 2%N |}
                (or_introl eq_refl) eq_refl) as [m E].
    vm_compute in E. discriminate.
  - intros H.
    destruct (H Sample.campus_pending
                {| cr_id := 101%N; cr_from_user_id := 2%N; cr_to_user_id := 1%N;
                   cr_status := pending |}
                {| cr_id := 100%N; cr_from_user_id := 1%N; cr_to_user_id := 2%N;
                   cr_status := pending |}
                (or_introl eq_refl) eq_refl) as [m E].
    vm_compute in E. discriminate.
Qed.

(** C5, amended. The storage layer refuses a second user with the same
    e-mail, a second connection with the same (user_id,
    connected_user_id) in that order, a second connection request with
    the same (from_user_id, to_user_id) in that order, a second mentor
    for the same user, and a second mentorship request for the same
    (mentor_id, mentee_id); a connection or a connection request whose
    identifier is new, whose users exist and whose ordered pair is new is
    stored, whether or not the reversed pair is present. *)
Theorem storage_uniqueness db :
  (forall u x, In x (users db) -> u_email x = u_email u ->
     exists message, insert_user u db = Throw message)
  /\ (forall c x, In x (connections db) ->
        c_user_id x = c_user_id c ->
        c_connected_user_id x = c_connected_user_id c ->
        exists message, insert_connection c db = Throw message)
  /\ (forall q x, In x (connection_requests db) ->
        cr_from_user_id x = cr_from_user_id q ->
        cr_to_user_id x = cr_to_user_id q ->
        exists message, insert_connection_request q db = Throw message)
  /\ (forall m x, In x (mentors db) -> m_user_id x = m_user_id m ->
        exists message, insert_mentor m db = Throw message)
  /\ (forall q x, In x (mentorship_requests db) ->
        mr_mentor_id x = mr_mentor_id q -> mr_mentee_id x = mr_mentee_id q ->
        exists message, insert_mentorship_request q db = Throw message)
  /\ (forall c,
        (forall x, In x (connections db) ->
           c_id x <> c_id c
           /\ ~ (c_user_id x = c_user_id c
                 /\ c_connected_user_id x = c_connected_user_id c)) ->
        has_user (c_user_id c) db = true ->
        has_user (c_connected_user_id c) db = true ->
        insert_connection c db = Ok (set_connections (connections db ++ [c]) db))
  /\ (forall q,
        (forall x, In x (connection_requests db) ->
           cr_id x <> cr_id q
           /\ ~ (cr_from_user_id x = cr_from_user_id q
                 /\ cr_to_user_id x = cr_to_user_id q)) ->
        has_user (cr_from_user_id q) db = true ->
        has_user (cr_to_user_id q) db = true ->
        insert_connection_request q db
        = Ok (set_connection_requests (connection_requests db ++ [q]) db)).
Proof.
  repeat split.
  - intros u x Hin E. unfold insert_user.
    destruct (existsb _ (users db)); [eauto|].
    rewrite (existsb_in _ _ x Hin); [eauto|]. now apply String.eqb_eq.
  - intros c x Hin E1 E2. unfold insert_connection.
    destruct (existsb _ (connections db)); [eauto|].
    rewrite (existsb_in _ _ x Hin); [eauto|].
    apply andb_true_iff. split; now apply N.eqb_eq.
  - intros q x Hin E1 E2. unfold insert_connection_request.
    destruct (existsb _ (connection_requests db)); [eauto|].
    rewrite (existsb_in _ _ x Hin); [eauto|].
    apply andb_true_iff. split; now apply N.eqb_eq.
  - intros m x Hin E. unfold insert_mentor.
    destruct (existsb _ (mentors db)); [eauto|].
    rewrite (existsb_in _ _ x Hin); [eauto|]. now apply N.eqb_eq.
  - intros q x Hin E1 E2. unfold insert_mentorship_request.
    destruct (existsb _ (mentorship_requests db)); [eauto|].
    rewrite (existsb_in _ _ x Hin); [eauto|].
    apply andb_true_iff. split; now apply N.eqb_eq.
  - intros c Fresh U1 U2. unfold insert_connection. rewrite U1, U2. simpl.
    replace (existsb _ (connections db)) with false.
    2:{ symmetry. apply existsb_false. intros x Hx. apply N.eqb_neq.
        now apply Fresh. }
    replace (existsb _ (connections db)) with false; [reflexivity|].
    symmetry. apply existsb_false. intros x Hx. destruct (Fresh x Hx) as [_ N].
    destruct (c_user_id x =? c_user_id c)%N eqn:E1; [|reflexivity].
    destruct (c_connected_user_id x =? c_connected_user_id c)%N eqn:E2; [|reflexivity].
    apply N.eqb_eq in E1, E2. exfalso; auto.
  - intros q Fresh U1 U2. unfold insert_connection_request. rewrite U1, U2. simpl.
    replace (existsb _ (connection_requests db)) with false.
    2:{ symmetry. apply existsb_false. intros x Hx. apply N.eqb_neq.
        now apply Fresh. }
    replace (existsb _ (connection_requests db)) with false; [reflexivity|].
    symmetry. apply existsb_false. intros x Hx. destruct (Fresh x Hx) as [_ N].
    destruct (cr_from_user_id x =? cr_from_user_id q)%N eqn:E1; [|reflexivity].
    destruct (cr_to_user_id x =? cr_to_user_id q)%N eqn:E2; [|reflexivity].
    apply N.eqb_eq in E1, E2. exfalso; auto.
Qed.

(** ** Mentorship: the counter of mentees *)

Lemma increment_mentees_ok id db db' :
  increment_mentees id db = Ok db' ->
  db' = set_mentors (with_new_mentee id (mentors db)) db.
Proof.
  unfold increment_mentees. destruct (existsb _ (mentors db)); [discriminate|].
  intros H; inversion H; reflexivity.
Qed.

Lemma in_inner_join {A B} (on : A -> B -> bool) l r a b :
  In (a, b) (inner_join on l r) <-> In a l /\ In b r /\ on a b = true.
Proof.
  unfold inner_join. rewrite in_flat_map. split.
  - intros (x & Hx & H). apply in_map_iff in H as (y & E & Hy).
    inversion E; subst. apply filter_In in Hy as [? ?]. auto.
  - intros (Ha & Hb & Hon). exists a. split; [exact Ha|].
    apply in_map_iff. exists b. split; [reflexivity|]. apply filter_In. auto.
Qed.

Lemma select_pending_mentorship_head rid db mr m rest :
  select_pending_mentorship rid db = (mr, m) :: rest ->
  In mr (mentorship_requests db) /\ In m (mentors db)
  /\ mr_mentor_id mr = m_id m /\ mr_id mr = rid /\ mr_status mr = pending.
Proof.
  intros H. apply filter_head_in in H as [Hin Hp]. simpl in Hp.
  apply in_inner_join in Hin as (H1 & H2 & H3).
  apply andb_true_iff in Hp as [Hi Hs]. apply N.eqb_eq in Hi, H3.
  destruct (mr_status mr); try discriminate. auto.
Qed.

Lemma mentorship_accept_callback_ok rid actor f w wc :
  mentorship_accept_callback rid actor f w = (Ok tt, wc) ->
  exists mr m rest,
    select_pending_mentorship rid (w_db w) = (mr, m) :: rest
    /\ m_user_id m = actor
    /\ w_db wc = after_mentorship_accept mr actor (w_db w).
Proof.
  unfold mentorship_accept_callback. intros H.
  apply bind_inv in H as [(m & _ & ?)|(rows & w1 & Q & H)]; [discriminate|].
  apply query_inv in Q as [-> [(m & ? & _)|[E _]]]; [discriminate|].
  inversion E; subst rows; clear E.
  destruct (select_pending_mentorship rid (w_db w)) as [|[mr m] rest] eqn:S;
    [discriminate|].
  destruct (m_user_id m =? actor)%N eqn:Own; simpl in H; [|discriminate].
  apply N.eqb_eq in Own.
  exists mr, m, rest. split; [reflexivity|]. split; [exact Own|].
  apply select_pending_mentorship_head in S as (_ & _ & _ & Hid & _).
  apply bind_inv in H as [(x & _ & ?)|([] & w2 & U & H)]; [discriminate|].
  apply execute_inv in U as [_ [(x & ? & _)|(_ & _ & U)]]; [discriminate|].
  apply bind_inv in H as [(x & _ & ?)|([] & w3 & I & H)]; [discriminate|].
  apply execute_inv in I as [_ [(x & ? & _)|(_ & _ & I)]]; [discriminate|].
  apply execute_inv in H as [_ [(x & ? & _)|(_ & _ & Nt)]]; [discriminate|].
  simpl in U. unfold update_mentorship_status in U. inversion U as [U']; clear U.
  rewrite <- U' in I. apply increment_mentees_ok in I.
  apply insert_notifications_ok in Nt. rewrite Nt, I.
  unfold after_mentorship_accept, with_mentor_status. rewrite Hid. reflexivity.
Qed.

Lemma put_mentorship_accept_run rid req f w r w' :
  put_mentorship_accept rid req f w = (r, w') ->
  (res_status r = 400 /\ w_db w' = w_db w)
  \/ (r = json 200 (Success "Request accepted")
      /\ exists mr m rest,
           select_pending_mentorship rid (w_db w) = (mr, m) :: rest
           /\ m_user_id m = userId req
           /\ w_db w' = after_mentorship_accept mr (userId req) (w_db w)).
Proof.
  intros H. apply try_catch_inv in H as [H|(m & H & ->)].
  - apply bind_inv in H as [(m & _ & ?)|([] & w1 & T & H)]; [discriminate|].
    inv H.
    apply transaction_inv in T as [(m & ? & _)|(r & wc & _ & _ & _ & C & _ & ->)];
      [discriminate|].
    destruct r. apply mentorship_accept_callback_ok in C as (mr & m & rest & S & O & D).
    right. split; [reflexivity|]. exists mr, m, rest. simpl in *. auto.
  - left. split; [reflexivity|].
    apply bind_inv in H as [(m' & T & _)|(a & w1 & _ & H)]; [|discriminate].
    apply transaction_inv in T as [(m'' & _ & D)|(r & wc & ? & _)];
      [exact D|discriminate].
Qed.

Lemma route_mentorship_accept_run cred rid f db r db' :
  serve (route_mentorship_accept cred rid) f db = (r, db') ->
  (res_status r <> 200 /\ db' = db)
  \/ (r = json 200 (Success "Request accepted")
      /\ exists actor mr m rest,
           cred = Verified actor
           /\ select_pending_mentorship rid db = (mr, m) :: rest
           /\ m_user_id m = actor
           /\ db' = after_mentorship_accept mr actor db).
Proof.
  unfold serve, route_mentorship_accept. intros H.
  through_authenticate H A.
  apply authenticate_inv in A as [(D & S & _)|(id & u & rest & -> & _ & S & Hn)].
  - left. simpl in D. split; [|exact D]. destruct S as [S|S]; rewrite S; discriminate.
  - apply put_mentorship_accept_run in Hn
      as [[S400 D]|(-> & mr & m & rest' & P & O & D)]; simpl in *.
    + left. split; [rewrite S400; discriminate|exact D].
    + right. split; [reflexivity|]. exists id, mr, m, rest'. auto.
Qed.

Lemma put_mentorship_reject_run rid req f w r w' :
  put_mentorship_reject rid req f w = (r, w') ->
  w_db w' = w_db w
  \/ w_db w'
     = set_mentorship_requests
         (with_mentor_status rejected rid (mentorship_requests (w_db w))) (w_db w).
Proof.
  intros H. apply try_catch_inv in H as [H|(x & H & ->)].
  - apply bind_inv in H as [(x & _ & ?)|(rows & w1 & Q & H)]; [discriminate|].
    apply query_inv in Q as [-> _].
    destruct (nonempty rows).
    + apply bind_inv in H as [(x & _ & ?)|([] & w2 & U & H)]; [discriminate|].
      apply execute_inv in U as [_ [(x & ? & _)|(_ & _ & U)]]; [discriminate|].
      unfold ret in H. inversion H; subst. simpl in U.
      unfold update_mentorship_status in U. inversion U as [U']. now right.
    + unfold ret in H. inversion H; subst. now left.
  - apply bind_inv in H as [(x' & Q & _)|(rows & w1 & Q & H)].
    + apply query_inv in Q as [-> _]. now left.
    + apply query_inv in Q as [-> _].
      destruct (nonempty rows); [|unfold ret in H; discriminate].
      apply bind_inv in H as [(x' & U & _)|(a & w2 & _ & H)]; [|discriminate].
      apply execute_inv in U as [_ [(x'' & _ & D)|(? & _)]]; [|discriminate].
      now left.
Qed.

Lemma route_mentorship_reject_run cred rid f db :
  snd (serve (route_mentorship_reject cred rid) f db) = db
  \/ snd (serve (route_mentorship_reject cred rid) f db)
     = set_mentorship_requests
         (with_mentor_status rejected rid (mentorship_requests db)) db.
Proof.
  destruct (serve _ f db) as [r db'] eqn:H. simpl.
  unfold serve, route_mentorship_reject in H.
  through_authenticate H A.
  apply authenticate_inv in A as [(D & _)|(id & u & rest & _ & _ & _ & Hn)].
  - now left.
  - now apply put_mentorship_reject_run in Hn.
Qed.

Lemma route_mentorship_reject_mentors cred rid f db :
  mentors (snd (serve (route_mentorship_reject cred rid) f db)) = mentors db.
Proof.
  destruct (route_mentorship_reject_run cred rid f db) as [-> | ->]; reflexivity.
Qed.

Lemma find_with_new_mentee M X l :
  find (fun m => (m_id m =? M)%N) (with_new_mentee X l)
  = option_map (fun m => if (M =? X)%N then add_mentee m else m)
               (find (fun m => (m_id m =? M)%N) l).
Proof.
  induction l as [|a l IH]; simpl; [reflexivity|].
  destruct (m_id a =? X)%N eqn:E1; simpl.
  - destruct (m_id a =? M)%N eqn:E2; simpl.
    + apply N.eqb_eq in E1, E2. subst. rewrite N.eqb_refl. reflexivity.
    + exact IH.
  - destruct (m_id a =? M)%N eqn:E2; simpl.
    + apply N.eqb_eq in E2. subst. rewrite E1. reflexivity.
    + exact IH.
Qed.

Lemma mentees_count_step M c f db n :
  mentees_count M db = Some n ->
  mentees_count M (snd (serve (mentor_route c) f db))
  = Some (n + Z.of_nat (accepts M c f db))%Z.
Proof.
  intros Hn. destruct c as [cred rid|cred rid].
  - unfold accepts. destruct (serve (mentor_route _) f db) as [r db'] eqn:H.
    simpl mentor_route in H. simpl fst. simpl snd.
    apply route_mentorship_accept_run in H
      as [[S ->]|(-> & actor & mr & m & rest & _ & P & _ & ->)].
    + replace (Nat.eqb (res_status r) 200) with false
        by (symmetry; now apply Nat.eqb_neq).
      rewrite Hn. f_equal.
      destruct (pending_mentor rid db); [rewrite andb_false_r|]; simpl; lia.
    + unfold pending_mentor. rewrite P. simpl.
      unfold mentees_count, after_mentorship_accept in *. simpl.
      rewrite find_with_new_mentee. rewrite andb_true_r, (N.eqb_sym (mr_mentor_id mr) M).
      destruct (find (fun m0 => (m_id m0 =? M)%N) (mentors db)) as [x|];
        [|discriminate].
      simpl in *. inversion Hn; subst.
      destruct (M =? mr_mentor_id mr)%N; simpl; f_equal; lia.
  - simpl mentor_route. unfold mentees_count.
    rewrite route_mentorship_reject_mentors. fold (mentees_count M db).
    rewrite Hn. simpl. f_equal. lia.
Qed.

Lemma settled_with_status rid rid' s l :
  s <> pending ->
  (forall mr, In mr l -> mr_id mr = rid -> mr_status mr <> pending) ->
  forall mr, In mr (with_mentor_status s rid' l) -> mr_id mr = rid ->
             mr_status mr <> pending.
Proof.
  intros Hs H mr Hin Hid. unfold with_mentor_status in Hin.
  apply in_map_iff in Hin as (x & <- & Hx).
  destruct (mr_id x =? rid')%N; simpl in *; [exact Hs|]. now apply H.
Qed.

(** A settled request stays settled: no route moves a status back to
    pending. *)
Lemma settled_step rid c f db :
  settled rid db -> settled rid (snd (serve (mentor_route c) f db)).
Proof.
  intros S. destruct c as [cred rid'|cred rid']; simpl mentor_route.
  - destruct (serve _ f db) as [r db'] eqn:H. simpl.
    apply route_mentorship_accept_run in H
      as [[_ ->]|(_ & actor & mr & m & rest & _ & _ & _ & ->)]; [exact S|].
    unfold settled, after_mentorship_accept. simpl.
    apply settled_with_status; [discriminate|exact S].
  - destruct (route_mentorship_reject_run cred rid' f db) as [-> | ->]; [exact S|].
    unfold settled. simpl. apply settled_with_status; [discriminate|exact S].
Qed.

Lemma accepts_one M c f db :
  accepts M c f db = 1%nat ->
  exists cred rid mr m rest,
    c = AcceptMentorship cred rid
    /\ res_status (fst (serve (route_mentorship_accept cred rid) f db)) = 200
    /\ select_pending_mentorship rid db = (mr, m) :: rest
    /\ mr_mentor_id mr = M.
Proof.
  destruct c as [cred rid|cred rid]; simpl; [|discriminate].
  unfold pending_mentor.
  destruct (select_pending_mentorship rid db) as [|[mr m] rest] eqn:P; [discriminate|].
  destruct (mr_mentor_id mr =? M)%N eqn:E; [|discriminate].
  destruct (Nat.eqb _ 200) eqn:S; [|discriminate].
  intros _. apply N.eqb_eq in E. apply Nat.eqb_eq in S.
  exists cred, rid, mr, m, rest.
  split; [reflexivity|]. split; [exact S|]. split; [exact P|exact E].
Qed.

Lemma accepted_request_settles cred rid f db :
  res_status (fst (serve (route_mentorship_accept cred rid) f db)) = 200 ->
  ~ settled rid db
  /\ settled rid (snd (serve (route_mentorship_accept cred rid) f db)).
Proof.
  destruct (serve _ f db) as [r db'] eqn:H. simpl. intros S.
  apply route_mentorship_accept_run in H
    as [[N _]|(_ & actor & mr & m & rest & _ & P & _ & ->)]; [contradiction|].
  apply select_pending_mentorship_head in P as (Hin & _ & _ & Hid & Hst).
  split.
  - intros St. now apply (St mr Hin Hid).
  - unfold settled, after_mentorship_accept. simpl.
    intros x Hx Hxid. unfold with_mentor_status in Hx.
    apply in_map_iff in Hx as (y & <- & Hy). simpl in Hxid.
    destruct (mr_id y =? mr_id mr)%N eqn:E; simpl in *; [discriminate|].
    apply N.eqb_neq in E. congruence.
Qed.

Lemma all_accepted_fresh M rid calls db :
  settled rid db -> all_accepted M calls db ->
  ~ In rid (map (fun c => request_of (fst c)) calls).
Proof.
  revert db. induction calls as [|[c f] calls IH]; simpl; intros db S H; [tauto|].
  destruct H as [H1 H].
  pose proof (accepts_one _ _ _ _ H1) as (cred & rid0 & mr & m & rest & -> & S200 & _).
  intros [E|Hin].
  - simpl in E. subst rid0.
    now destruct (accepted_request_settles cred rid f db S200).
  - apply (IH _ (settled_step rid _ f db S) H Hin).
Qed.

(** Requests accepted one after the other are distinct. *)
Lemma all_accepted_distinct M calls db :
  all_accepted M calls db ->
  NoDup (map (fun c => request_of (fst c)) calls).
Proof.
  revert db. induction calls as [|[c f] calls IH]; simpl; intros db H;
    [constructor|].
  destruct H as [H1 H].
  pose proof (accepts_one _ _ _ _ H1) as (cred & rid & mr & m & rest & -> & S200 & _).
  constructor; [|now apply (IH _ H)].
  simpl.
  apply (all_accepted_fresh M rid calls
           (snd (serve (mentor_route (AcceptMentorship cred rid)) f db)));
    [|exact H].
  now destruct (accepted_request_settles cred rid f db S200).
Qed.

Lemma all_accepted_count M calls db :
  all_accepted M calls db -> accepted_for M calls db = List.length calls.
Proof.
  revert db. induction calls as [|[c f] calls IH]; simpl; intros db H; [reflexivity|].
  destruct H as [H1 H]. rewrite H1, (IH _ H). reflexivity.
Qed.

(** C6. Along any sequence of accepts and rejects of mentorship
    requests, by any callers and under any failures of the storage layer,
    the counter of mentor [M] grows by exactly the number of requests of
    [M] that were accepted; in particular [N] accepts of pending requests
    of [M], each answered with 200, are accepts of [N] distinct requests
    and add exactly [N]; an accept that answers 200 flips its request and
    adds 1 to the counter of the request's mentor in one transaction, any
    other answer of an accept leaves the database unchanged, and a reject
    never touches the [mentors] table. *)
Theorem mentees_count_accepts M calls db n :
  mentees_count M db = Some n ->
  mentees_count M (run_mentorship calls db)
  = Some (n + Z.of_nat (accepted_for M calls db))%Z
  /\ (all_accepted M calls db ->
      NoDup (map (fun c => request_of (fst c)) calls)
      /\ mentees_count M (run_mentorship calls db)
         = Some (n + Z.of_nat (List.length calls))%Z)
  /\ (forall cred rid f r db',
        serve (route_mentorship_accept cred rid) f db = (r, db') ->
        (res_status r <> 200 -> db' = db)
        /\ (res_status r = 200 ->
            exists mr k,
              In mr (mentorship_requests db)
              /\ mr_id mr = rid /\ mr_status mr = pending
              /\ mentorship_requests db'
                 = with_mentor_status accepted rid (mentorship_requests db)
              /\ mentees_count (mr_mentor_id mr) db = Some k
              /\ mentees_count (mr_mentor_id mr) db' = Some (k + 1)%Z))
  /\ (forall cred rid f,
        mentors (snd (serve (route_mentorship_reject cred rid) f db)) = mentors db
        /\ mentees_count M (snd (serve (route_mentorship_reject cred rid) f db))
           = Some n).
Proof.
  intros Hn.
  assert (forall calls db n,
            mentees_count M db = Some n ->
            mentees_count M (run_mentorship calls db)
            = Some (n + Z.of_nat (accepted_for M calls db))%Z) as Count.
  { clear. induction calls as [|[c f] calls IH]; intros db n Hn; simpl.
    - rewrite Hn. f_equal. lia.
    - rewrite (IH _ _ (mentees_count_step M c f db n Hn)). f_equal. lia. }
  split; [now apply Count|]. split; [|split].
  - intros All. split; [now apply (all_accepted_distinct M calls db)|].
    rewrite (Count calls db n Hn), (all_accepted_count M calls db All). reflexivity.
  - intros cred rid f r db' H.
    apply route_mentorship_accept_run in H
      as [[S ->]|(-> & actor & mr & m & rest & _ & P & _ & ->)].
    + split; [reflexivity|contradiction].
    + split; [simpl; congruence|]. intros _.
      apply select_pending_mentorship_head in P as (Hmr & Hm & Hj & Hid & Hst).
      assert (exists x, find (fun m0 => (m_id m0 =? mr_mentor_id mr)%N) (mentors db) = Some x)
        as [x Hx].
      { destruct (find _ (mentors db)) as [x|] eqn:F; [eauto|].
        exfalso. pose proof (find_none _ _ F m Hm) as N. simpl in N.
        rewrite Hj, N.eqb_refl in N. discriminate. }
      exists mr, (m_mentees_count x). repeat split; auto.
      * unfold after_mentorship_accept. simpl. now rewrite Hid.
      * unfold mentees_count. now rewrite Hx.
      * unfold mentees_count, after_mentorship_accept. simpl.
        rewrite find_with_new_mentee, Hx, N.eqb_refl. reflexivity.
  - intros cred rid f. split; [apply route_mentorship_reject_mentors|].
    unfold mentees_count. now rewrite route_mentorship_reject_mentors.
Qed.

(** ** Queries: joins, ordering, limits *)

Lemma in_left_join {A B} (on : A -> B -> bool) l r a ob :
  In (a, ob) (left_join on l r) ->
  In a l
  /\ match ob with
     | Some b => In b r /\ on a b = true
     | None => True
     end.
Proof.
  unfold left_join. rewrite in_flat_map. intros (x & Hx & H).
  unfold joined_rows in H.
  destruct (filter (on x) r) as [|b bs] eqn:F.
  - simpl in H. destruct H as [E|[]]. inversion E; subst. auto.
  - apply in_map_iff in H as (y & E & Hy). inversion E; subst.
    split; [exact Hx|]. rewrite <- F in Hy. now apply filter_In in Hy.
Qed.

Lemma in_insert_by {A} (before : A -> A -> bool) x y l :
  In x (insert_by before y l) <-> x = y \/ In x l.
Proof.
  induction l as [|a l IH]; simpl.
  - intuition.
  - destruct (before a y); simpl; [rewrite IH|]; intuition.
Qed.

Lemma in_order_by {A} (before : A -> A -> bool) x l :
  In x (order_by before l) <-> In x l.
Proof.
  induction l as [|a l IH]; simpl; [reflexivity|].
  rewrite in_insert_by, IH. intuition.
Qed.

Lemma in_indexed {A} (l : list A) i x : In (i, x) (indexed l) -> In x l.
Proof. unfold indexed. apply in_combine_r. Qed.

Lemma in_order_by_random {A} random (l : list A) x :
  In x (order_by_random random l) -> In x l.
Proof.
  unfold order_by_random. intros H. apply in_map_iff in H as ([i y] & E & H).
  simpl in E. subst y. apply in_order_by in H. now apply in_indexed in H.
Qed.

Lemma in_firstn {A} n (l : list A) x : In x (firstn n l) -> In x l.
Proof.
  revert l. induction n as [|n IH]; intros [|a l]; simpl; try tauto.
  intros [H|H]; auto.
Qed.

Lemma in_skipn {A} n (l : list A) x : In x (skipn n l) -> In x l.
Proof.
  revert l. induction n as [|n IH]; intros [|a l]; simpl; try tauto.
  intros H. right. now apply IH.
Qed.

Lemma limit_rows_in {A} n (l rows : list A) x :
  limit_rows n l = Ok rows -> In x rows -> In x l.
Proof.
  unfold limit_rows. destruct (n <? 0)%Z; [discriminate|].
  intros E; inversion E; subst. apply in_firstn.
Qed.

Lemma offset_rows_in {A} n (l rows : list A) x :
  offset_rows n l = Ok rows -> In x rows -> In x l.
Proof.
  unfold offset_rows. destruct (n <? 0)%Z; [discriminate|].
  intros E; inversion E; subst. apply in_skipn.
Qed.

Lemma pkey_unique (l : list User) a b :
  NoDup (map u_id l) -> In a l -> In b l -> u_id a = u_id b -> a = b.
Proof.
  intros ND Ha Hb E. pose proof (filter_pkey l a ND Ha) as F.
  assert (In b (filter (fun x => (u_id x =? u_id a)%N) l)) as H
      by (apply filter_In; split; [exact Hb|apply N.eqb_eq; congruence]).
  rewrite F in H. destruct H as [H|[]]. exact H.
Qed.

(** ** listSuggestions *)

Lemma university_of_pkey actor db u :
  users_pkey db -> In u (users db) -> u_id u = actor ->
  university_of actor db = Ok (u_university_id u).
Proof.
  intros PK Hin <-. unfold university_of.
  rewrite (filter_pkey (users db) u PK Hin). reflexivity.
Qed.

Lemma select_suggestions_rows actor limit random db rows db' u un up :
  select_suggestions actor limit random db = Ok (rows, db') ->
  In ((u, un), up) rows ->
  db' = db /\ In u (users db)
  /\ exists tenant,
       university_of actor db = Ok tenant
       /\ suggestion_where actor tenant db u = true.
Proof.
  unfold select_suggestions.
  destruct (university_of actor db) as [tenant|m]; [|discriminate].
  destruct (limit_rows _ _) as [rows'|m] eqn:L; [|discriminate].
  intros E Hin. inversion E; subst rows' db'. split; [reflexivity|].
  apply (limit_rows_in _ _ _ _ L) in Hin. apply in_order_by_random in Hin.
  apply filter_In in Hin as [Hj Hw]. simpl in Hw.
  apply in_left_join in Hj as [Hj _]. apply in_left_join in Hj as [Hu _].
  split; [exact Hu|]. exists tenant. auto.
Qed.

Lemma get_suggestions_run limit random fresh req f w r w' :
  get_suggestions limit random fresh req f w = (r, w') ->
  w_db w' = w_db w
  /\ forall items total item,
       res_body r = ConnectionList items total -> In item items ->
       exists u tenant,
         In u (users (w_db w))
         /\ cu_id (ci_user item) = u_id u
         /\ university_of (userId req) (w_db w) = Ok tenant
         /\ suggestion_where (userId req) tenant (w_db w) u = true.
Proof.
  intros H. apply try_catch_inv in H as [H|(m & H & ->)].
  - apply bind_inv in H as [(m & _ & ?)|(rows & w1 & S & H)]; [discriminate|].
    apply statement_inv in S as [_ [(m & ? & _)|(a & E & _ & S)]]; [discriminate|].
    inversion E; subst a; clear E. unfold ret in H. inv H.
    split.
    + unfold select_suggestions in S.
      destruct (university_of _ _); [|discriminate].
      destruct (limit_rows _ _); [|discriminate]. now inversion S.
    + intros items total item E Hin. simpl in E. inversion E; subst; clear E.
      apply in_map_iff in Hin as ([i [[u un] up]] & <- & Hin).
      apply in_indexed in Hin.
      destruct (select_suggestions_rows _ _ _ _ _ _ _ _ _ S Hin)
        as (_ & Hu & tenant & T & W).
      exists u, tenant. simpl. auto.
  - split.
    + apply bind_inv in H as [(m' & S & _)|(rows & w1 & _ & H)]; [|discriminate].
      now apply statement_inv in S as [_ [(m'' & _ & D)|(a & ? & _)]].
    + intros items total item E. discriminate.
Qed.

Lemma suggestion_where_facts actor tenant db u :
  suggestion_where actor tenant db u = true ->
  u_id u <> actor /\ u_is_active u = true /\ u_role u = alumni
  /\ exists t, u_university_id u = Some t /\ tenant = Some t.
Proof.
  unfold suggestion_where. intros H.
  repeat (apply andb_true_iff in H as [H ?]).
  repeat split.
  - apply negb_true_iff, N.eqb_neq in H. exact H.
  - assumption.
  - destruct (u_role u); try discriminate; reflexivity.
  - unfold sql_eq in *. destruct (u_university_id u) as [x|]; [|discriminate].
    destruct tenant as [t|]; [|discriminate].
    exists x. split; [reflexivity|]. f_equal. symmetry. now apply String.eqb_eq.
Qed.

Lemma route_suggestions_run actor limit random fresh f db r db' :
  users_pkey db ->
  serve (route_suggestions (Verified actor) limit random fresh) f db = (r, db') ->
  db' = db
  /\ forall items total item,
       res_body r = ConnectionList items total -> In item items ->
       exists a u t,
         In a (users db) /\ u_id a = actor /\ u_is_active a = true
         /\ In u (users db) /\ cu_id (ci_user item) = u_id u
         /\ u_id u <> actor /\ u_is_active u = true /\ u_role u = alumni
         /\ u_university_id u = Some t /\ u_university_id a = Some t.
Proof.
  intros PK H. unfold serve, route_suggestions in H.
  through_authenticate H A.
  apply authenticate_inv in A as [(D & _ & d & B)|(id & a & rest & E & _ & S & Hn)].
  - simpl in D. split; [exact D|].
    intros items total item B'. rewrite B in B'. discriminate.
  - inversion E; subst id; clear E.
    apply get_suggestions_run in Hn as [D Hn]. simpl in *. split; [exact D|].
    intros items total item B Hin.
    destruct (Hn items total item B Hin) as (u & tenant & Hu & Hid & T & W).
    apply select_active_user_head in S as (Ha & Haid & Hact).
    rewrite (university_of_pkey actor db a PK Ha Haid) in T. inversion T; subst tenant.
    apply suggestion_where_facts in W as (Ne & Act & Ro & t & U1 & U2).
    exists a, u, t. repeat split; auto.
Qed.

(** C10. Whoever asks, every user in the answer of [listSuggestions] is
    an active user whose role is alumni: the user row with the returned
    id (one row, by the primary key) has [is_active] set and the role
    [alumni], so neither an admin, nor a superadmin, nor a deactivated
    user is ever suggested. *)
Theorem suggestions_only_active_alumni cred limit random fresh f db r db' items total item :
  users_pkey db ->
  serve (route_suggestions cred limit random fresh) f db = (r, db') ->
  res_body r = ConnectionList items total ->
  In item items ->
  (exists u, In u (users db) /\ u_id u = cu_id (ci_user item)
             /\ u_is_active u = true /\ u_role u = alumni)
  /\ (forall v, In v (users db) -> u_id v = cu_id (ci_user item) ->
                u_is_active v = true /\ u_role v = alumni
                /\ u_role v <> admin /\ u_role v <> superadmin).
Proof.
  intros PK H B Hin.
  assert (exists actor, cred = Verified actor) as [actor ->].
  { destruct cred; try (vm_compute in H; inversion H; subst; discriminate). eauto. }
  apply (route_suggestions_run actor _ _ _ _ _ _ _ PK) in H as [_ H].
  destruct (H items total item B Hin)
    as (a & u & t & _ & _ & _ & Hu & Hid & _ & Act & Ro & _).
  split; [exists u; auto|].
  intros v Hv E. assert (v = u) as -> by (apply (pkey_unique (users db)); [exact PK|assumption|assumption|congruence]).
  rewrite Ro. repeat split; auto; discriminate.
Qed.

(** ** listMentors *)

Lemma mentor_rows_facts ilike tenant q db m u :
  In (m, u) (mentor_rows ilike tenant q db) ->
  In m (mentors db) /\ In u (users db) /\ m_user_id m = u_id u
  /\ m_is_active m = true /\ u_is_mentor u = true /\ u_is_active u = true
  /\ (truthy tenant = true -> u_university_id u = tenant).
Proof.
  unfold mentor_rows. intros H. apply filter_In in H as [Hj Hw].
  apply in_inner_join in Hj as (Hm & Hu & Hon). apply N.eqb_eq in Hon.
  unfold mentor_where in Hw.
  repeat (apply andb_true_iff in Hw as [Hw ?]).
  repeat split; auto.
  intros T. rewrite T in *. unfold sql_eq in *.
  destruct (u_university_id u) as [x|]; [|discriminate].
  destruct tenant as [t|]; [|discriminate]. f_equal. now apply String.eqb_eq.
Qed.




(** Carol's state is one the routes produce: registration without a
    university is accepted and stores her row with no university. *)
Example carol_registers :
  serve (post_register lower_ascii_text (fun _ => "Carol%40example.org")
           Tenants.carol_body "$2a$10$carol" 3%N) no_faults Tenants.before
  = (json 201
       (LoginResult (generateToken Tenants.carol)
          (safe_user (Tenants.carol, None)) None None),
     Tenants.db).
Proof. reflexivity. Qed.



(** ** Login *)

Lemma or_else_empty s : or_else s "" = s.
Proof. destruct s; reflexivity. Qed.

Lemma find_filter_head {A} (p : A -> bool) l :
  find p l = match filter p l with x :: _ => Some x | [] => None end.
Proof.
  induction l as [|a l IH]; simpl; [reflexivity|]. destruct (p a); auto.
Qed.

Lemma references_university_eqb u un :
  references_university u un
  = match u_university_id u with
    | Some id => (un_id un =? id)%string
    | None => false
    end.
Proof.
  unfold references_university, sql_eq. destruct (u_university_id u); [|reflexivity].
  apply String.eqb_sym.
Qed.

Lemma filter_const {A} (q : A -> bool) (l : list A) (b : bool) :
  (forall x, In x l -> q x = b) -> filter q l = if b then l else [].
Proof.
  intros H. induction l as [|a l IH]; simpl; [destruct b; reflexivity|].
  rewrite (H a (or_introl eq_refl)), IH by (intros x Hx; apply H; now right).
  destruct b; reflexivity.
Qed.

Lemma joined_rows_shape {A B} (on : A -> B -> bool) r a :
  exists rest,
    joined_rows on r a
    = (a, match filter (on a) r with b :: _ => Some b | [] => None end) :: rest
    /\ forall row, In row (joined_rows on r a) -> fst row = a.
Proof.
  unfold joined_rows. destruct (filter (on a) r) as [|b bs].
  - exists []. split; [reflexivity|]. intros row [<-|[]]. reflexivity.
  - exists (map (fun b0 => (a, Some b0)) bs). split; [reflexivity|].
    intros row H. apply in_map_iff in H as (y & <- & _). reflexivity.
Qed.

Lemma left_join_cons {A B} (on : A -> B -> bool) a l r :
  left_join on (a :: l) r = joined_rows on r a ++ left_join on l r.
Proof. reflexivity. Qed.

(** The first row of the login query is the account with its
    university. *)
Lemma select_login_head email db :
  match select_login email db with
  | [] => account email db = None
  | (u, un) :: _ => account email db = Some u /\ un = owning_university u db
  end.
Proof.
  unfold select_login, account.
  induction (users db) as [|a l IH]; [reflexivity|].
  rewrite left_join_cons, filter_app. simpl find.
  destruct (joined_rows_shape references_university (universities db) a)
    as (rest & Shape & Fst).
  rewrite (filter_const _ (joined_rows references_university (universities db) a)
             (u_email a =? email)%string)
    by (intros row Hrow; now rewrite (Fst row Hrow)).
  destruct (u_email a =? email)%string.
  - rewrite Shape. simpl. split; [reflexivity|].
    unfold owning_university.
    rewrite (filter_ext _ _ (references_university_eqb a)).
    destruct (u_university_id a) as [id|].
    + now rewrite find_filter_head.
    + replace (filter (fun _ : University => false) (universities db))
        with (@nil University); [reflexivity|].
      symmetry. now apply filter_nil_iff.
  - simpl. exact IH.
Qed.


Lemma post_login_run toLowerCase text_lt bcrypt_compare email password f w r w' :
  post_login toLowerCase text_lt bcrypt_compare email password f w = (r, w') ->
  w_db w' = w_db w
  /\ (f (w_tick w) <> None -> r = json 500 (Detail "Login failed"))
  /\ (f (w_tick w) = None ->
      match select_login (toLowerCase email) (w_db w) with
      | [] => r = json 401 (Detail "Invalid email or password")
      | (u, un) :: _ =>
          if negb (u_is_active u)
          then r = json 401 (Detail "Account is deactivated")
          else if negb (Role_eqb (u_role u) superadmin)
                  && truthy (u_university_id u) && is_disabled un
          then r = json 401 (Detail "University is currently disabled")
          else if negb (bcrypt_compare password (u_password_hash u))
          then r = json 401 (Detail "Invalid email or password")
          else (res_status r = 200 /\ has_token r)
               \/ r = json 500 (Detail "Login failed")
      end).
Proof.
  unfold post_login, try_catch. unfold bind at 1. unfold query at 1, statement.
  intros H. destruct (f (w_tick w)) as [m|] eqn:F0.
  { inv H. simpl. repeat split; auto. discriminate. }
  assert (forall P : Prop, w_db w' = w_db w /\ P ->
            w_db w' = w_db w
            /\ (@None string <> None -> r = json 500 (Detail "Login failed"))
            /\ (@None string = None -> P)) as Wrap
      by (intros P [? ?]; repeat split; auto; congruence).
  apply Wrap. clear Wrap.
  destruct (select_login (toLowerCase email) (w_db w)) as [|[u un] rows].
  { unfold ret in H. inv H. auto. }
  destruct (negb (u_is_active u)).
  { unfold ret in H. inv H. auto. }
  destruct (negb (Role_eqb (u_role u) superadmin) && truthy (u_university_id u)
            && is_disabled un).
  { unfold ret in H. inv H. auto. }
  rewrite or_else_empty in H.
  destruct (negb (bcrypt_compare password (u_password_hash u))).
  { unfold ret in H. inv H. auto. }
  unfold bind, ret in H.
  destruct (Role_eqb (u_role u) superadmin).
  - unfold query, statement in H. simpl in H.
    destruct (f (S (w_tick w))); inv H; simpl; split; auto.
    left. split; [reflexivity|]. unfold has_token. simpl. eauto.
  - inv H; simpl. split; auto.
    left. split; [reflexivity|]. unfold has_token. simpl. eauto.
Qed.

Lemma refused_response r d :
  r = json 401 (Detail d) -> res_status r = 401 /\ ~ has_token r.
Proof.
  intros ->. split; [reflexivity|]. intros (t & su & b & a & E). discriminate.
Qed.


Lemma validate_inv {A} (schema : A -> bool) body next f w r w' :
  validate schema body next f w = (r, w') ->
  (r = json 400 ValidationFailed /\ w' = w
   /\ forall b, body = Some b -> schema b = false)
  \/ (exists b, body = Some b /\ schema b = true /\ next b f w = (r, w')).
Proof.
  unfold validate. destruct body as [b|].
  - destruct (schema b) eqn:V; intros H.
    + right. eauto.
    + inversion H; subst. left. repeat split. intros b' E. congruence.
  - intros H. inversion H; subst. left. repeat split. intros b' E. discriminate.
Qed.

(** * Proofs for the rest of the middleware and of the routes *)

(** ** Typed routes *)

Lemma api_try_catch_inv {A} (body : Sql (Api.Answer A)) on_error f w a w' :
  Api.try_catch body on_error f w = (a, w') ->
  body f w = (Ok a, w') \/ exists m, body f w = (Throw m, w') /\ a = on_error m.
Proof.
  unfold Api.try_catch. destruct (body f w) as [[x|m] w1]; intros H; inversion H; subst; eauto.
Qed.

(** Both embeddings of [authenticate] are the same middleware. *)
Lemma authenticate_response {A} (render : A -> Body) cred
    (next : AuthenticatedRequest -> Api.Route A) f w :
  authenticate cred
    (fun req f w => let (a, w') := next req f w in (Api.response render a, w')) f w
  = let (a, w') := Api.authenticate cred next f w in (Api.response render a, w').
Proof.
  unfold authenticate, Api.authenticate.
  destruct cred as [| | | |id]; try reflexivity.
  destruct (query (select_active_user id) f w) as [[[|u rest]|m] w1]; reflexivity.
Qed.

Lemma api_authenticate_inv {A} cred (next : AuthenticatedRequest -> Api.Route A)
    f w a w' :
  Api.authenticate cred next f w = (a, w') ->
  (w_db w' = w_db w
   /\ exists d, a = Api.Refuse 401 d \/ a = Api.Refuse 500 d)
  \/ (exists id u rest,
        cred = Verified id /\ f (w_tick w) = None
        /\ select_active_user id (w_db w) = u :: rest
        /\ next {| userId := id; user := u |} f (next_tick w (w_db w)) = (a, w')).
Proof.
  unfold Api.authenticate. intros H.
  destruct cred as [| | | |id];
    try (inversion H; subst; left; simpl; eauto; fail).
  destruct (query (select_active_user id) f w) as [[rows|m] w1] eqn:Q.
  - apply query_inv in Q as [-> [(m & ? & _)|[E F0]]]; [discriminate|].
    inversion E; subst.
    destruct (select_active_user id (w_db w)) as [|u rest] eqn:S.
    + inversion H; subst. left; simpl; eauto.
    + right. exists id, u, rest. auto.
  - apply query_inv in Q as [-> _]. inversion H; subst. left; simpl; eauto.
Qed.

Lemma api_authenticate_ok {A} id (next : AuthenticatedRequest -> Api.Route A)
    f w u rest :
  f (w_tick w) = None ->
  select_active_user id (w_db w) = u :: rest ->
  Api.authenticate (Verified id) next f w
  = next {| userId := id; user := u |} f (next_tick w (w_db w)).
Proof.
  intros F S. unfold Api.authenticate, query, statement. rewrite F, S. reflexivity.
Qed.

(** ** middleware/auth.ts *)

(** X1. [authenticate] lets a request through only on behalf of an active
    user whose id is the one in the token, on an unchanged database; any
    other request is answered 401 or 500 without a write. In particular
    the token of a user who is missing or deactivated is refused with 401
    whatever the route behind it. *)
Theorem authenticate_gate {A} cred (next : AuthenticatedRequest -> Api.Route A)
    f db a db' :
  Api.serve (Api.authenticate cred next) f db = (a, db') ->
  ((exists id u w',
       cred = Verified id /\ f 0 = None
       /\ In u (users db) /\ u_id u = id /\ u_is_active u = true
       /\ next {| userId := id; user := u |} f {| w_db := db; w_tick := 1 |} = (a, w')
       /\ db' = w_db w')
   \/ (db' = db /\ exists d, a = Api.Refuse 401 d \/ a = Api.Refuse 500 d))
  /\ (forall id,
        cred = Verified id -> f 0 = None ->
        (forall u, In u (users db) -> u_id u = id -> u_is_active u = false) ->
        a = Api.Refuse 401 "User not found or inactive" /\ db' = db).
Proof.
  intros H. unfold Api.serve in H.
  destruct (Api.authenticate _ _ _ _) as [a0 w0] eqn:E. inv H.
  split.
  - apply api_authenticate_inv in E as [[D R]|(id & u & rest & -> & F & S & N)].
    + right. simpl in D. auto.
    + left. pose proof (select_active_user_head _ _ _ _ S) as (Hin & Hid & Hact).
      exists id, u, w0. simpl in *. repeat split; auto.
  - intros id -> F Hn. unfold Api.authenticate, query, statement in E.
    simpl in E. rewrite F in E.
    assert (select_active_user id db = []) as S.
    { apply filter_nil_iff. intros u Hu.
      destruct (N.eqb_spec (u_id u) id) as [Eq|]; [|reflexivity].
      simpl. now apply Hn. }
    rewrite S in E. inv E. auto.
Qed.

(** X2. [optionalAuth] never answers itself: it hands the request to the
    route with the same user [authenticate] would attach when
    [authenticate] lets the request through, and without a user exactly
    when [authenticate] would refuse; the database is untouched either
    way. *)
Theorem optionalAuth_passes {A} cred
    (next : option AuthenticatedRequest -> Api.Route A) f w :
  (exists id u rest,
      cred = Verified id /\ f (w_tick w) = None
      /\ select_active_user id (w_db w) = u :: rest
      /\ Api.optionalAuth cred next f w
         = next (Some {| userId := id; user := u |}) f (next_tick w (w_db w))
      /\ Api.optionalAuth cred next f w
         = Api.authenticate cred (fun req => next (Some req)) f w)
  \/ (exists w1 code d,
        w_db w1 = w_db w
        /\ Api.optionalAuth cred next f w = next None f w1
        /\ Api.authenticate cred (fun req => next (Some req)) f w
           = (Api.Refuse code d, w1)).
Proof.
  unfold Api.optionalAuth, Api.authenticate.
  destruct cred as [| | | |id];
    try (right; exists w; eexists _, _; repeat split; fail).
  unfold query, statement.
  destruct (f (w_tick w)) as [m|] eqn:F.
  - right. exists (next_tick w (w_db w)). eexists _, _. repeat split.
  - destruct (select_active_user id (w_db w)) as [|u rest] eqn:S.
    + right. exists (next_tick w (w_db w)). eexists _, _. repeat split.
    + left. exists id, u, rest. repeat split; assumption.
Qed.

Lemma admin_route_inv {A} cred (handler : AuthenticatedRequest -> Api.Route A)
    f w a w' :
  admin_route cred handler f w = (a, w') ->
  (w_db w' = w_db w
   /\ exists d, a = Api.Refuse 401 d \/ a = Api.Refuse 403 d \/ a = Api.Refuse 500 d)
  \/ (exists id u rest,
        cred = Verified id /\ f (w_tick w) = None
        /\ select_active_user id (w_db w) = u :: rest
        /\ (u_role u = admin \/ u_role u = superadmin)
        /\ handler {| userId := id; user := u |} f (next_tick w (w_db w)) = (a, w')).
Proof.
  unfold admin_route. intros H.
  apply api_authenticate_inv in H as [[D (d & [->| ->])]|(id & u & rest & -> & F & S & N)];
    [left; split; [exact D|eauto]..|].
  unfold Api.requireAdmin in N. simpl in N.
  destruct (u_role u) eqn:R; simpl in N.
  - inv N. left. split; [reflexivity|eauto].
  - right. exists id, u, rest. rewrite R. auto 10.
  - right. exists id, u, rest. rewrite R. auto 10.
Qed.

Lemma superadmin_route_inv {A} cred (handler : AuthenticatedRequest -> Api.Route A)
    f w a w' :
  superadmin_route cred handler f w = (a, w') ->
  (w_db w' = w_db w
   /\ exists d, a = Api.Refuse 401 d \/ a = Api.Refuse 403 d \/ a = Api.Refuse 500 d)
  \/ (exists id u rest,
        cred = Verified id /\ f (w_tick w) = None
        /\ select_active_user id (w_db w) = u :: rest
        /\ u_role u = superadmin
        /\ handler {| userId := id; user := u |} f (next_tick w (w_db w)) = (a, w')).
Proof.
  unfold superadmin_route. intros H.
  apply api_authenticate_inv in H as [[D (d & [->| ->])]|(id & u & rest & -> & F & S & N)];
    [left; split; [exact D|eauto]..|].
  unfold Api.requireSuperAdmin in N. simpl in N.
  destruct (u_role u) eqn:R; simpl in N.
  - inv N. left. split; [reflexivity|eauto].
  - inv N. left. split; [reflexivity|eauto].
  - right. exists id, u, rest. rewrite R. auto 10.
Qed.

(** X3. Behind [authenticate, requireAdmin] a handler runs only for an
    active admin or superadmin, behind [authenticate, requireSuperAdmin]
    only for an active superadmin; everyone else is answered 401, 403 or
    500 and nothing is written. Whoever passes the superadmin gate passes
    the admin gate with the same result, and an alumni passes neither. *)
Theorem role_gates {A} cred (handler : AuthenticatedRequest -> Api.Route A) f db :
  (forall a db',
      Api.serve (admin_route cred handler) f db = (a, db') ->
      (db' = db
       /\ exists d, a = Api.Refuse 401 d \/ a = Api.Refuse 403 d \/ a = Api.Refuse 500 d)
      \/ (exists id u w',
            cred = Verified id /\ In u (users db) /\ u_id u = id
            /\ u_is_active u = true
            /\ (u_role u = admin \/ u_role u = superadmin)
            /\ handler {| userId := id; user := u |} f {| w_db := db; w_tick := 1 |}
               = (a, w')
            /\ db' = w_db w'))
  /\ (forall a db',
        Api.serve (superadmin_route cred handler) f db = (a, db') ->
        (db' = db
         /\ exists d, a = Api.Refuse 401 d \/ a = Api.Refuse 403 d \/ a = Api.Refuse 500 d)
        \/ (exists id u w',
              cred = Verified id /\ In u (users db) /\ u_id u = id
              /\ u_is_active u = true /\ u_role u = superadmin
              /\ handler {| userId := id; user := u |} f {| w_db := db; w_tick := 1 |}
                 = (a, w')
              /\ db' = w_db w'
              /\ Api.serve (admin_route cred handler) f db = (a, db')))
  /\ (forall id u rest,
        cred = Verified id -> f 0 = None ->
        select_active_user id db = u :: rest -> u_role u = alumni ->
        Api.serve (admin_route cred handler) f db
        = (Api.Refuse 403 "Admin access required", db)
        /\ Api.serve (superadmin_route cred handler) f db
           = (Api.Refuse 403 "Super admin access required", db)).
Proof.
  split; [|split].
  - intros a db' H. unfold Api.serve in H.
    destruct (admin_route _ _ _ _) as [a0 w0] eqn:E. inv H.
    apply admin_route_inv in E as [[D R]|(id & u & rest & -> & F & S & R & N)].
    + left. auto.
    + right. pose proof (select_active_user_head _ _ _ _ S) as (Hin & Hid & Hact).
      exists id, u, w0. simpl in *. auto 10.
  - intros a db' H. unfold Api.serve in H.
    destruct (superadmin_route _ _ _ _) as [a0 w0] eqn:E. inv H.
    apply superadmin_route_inv in E as [[D R]|(id & u & rest & -> & F & S & R & N)].
    + left. auto.
    + right. pose proof (select_active_user_head _ _ _ _ S) as (Hin & Hid & Hact).
      exists id, u, w0. simpl in *. repeat (split; [assumption || reflexivity|]).
      unfold Api.serve, admin_route.
      rewrite (api_authenticate_ok id _ f {| w_db := db; w_tick := 0 |} u rest F S).
      unfold Api.requireAdmin. cbn [user]. rewrite R. cbn [Role_eqb negb andb w_db].
      rewrite N. reflexivity.
  - intros id u rest -> F S R.
    unfold Api.serve, admin_route, superadmin_route.
    rewrite !(api_authenticate_ok id _ f {| w_db := db; w_tick := 0 |} u rest F S).
    unfold Api.requireAdmin, Api.requireSuperAdmin. simpl. rewrite R. simpl. auto.
Qed.

(** X4. [requireSameUniversity] refuses exactly one kind of request: an
    admin whose target university, the first non-empty of
    [params.universityId] and [body.university_id], is not their own.
    Superadmins, alumni and requests without a user always pass, an
    admin without a target passes, and [body.university_id] is not looked
    at when [params.universityId] is non-empty. *)
Theorem same_university_gate {A} user p b (next : Api.Route A) f w :
  (forall u t,
      user = Some u -> u_role u = admin ->
      Api.or_string p b = Some t -> t <> "" -> u_university_id u <> Some t ->
      Api.requireSameUniversity user p b next f w
      = (Api.Refuse 403 "Access denied to this university", w))
  /\ (forall u t,
        user = Some u -> u_role u = admin ->
        Api.or_string p b = Some t -> u_university_id u = Some t ->
        Api.requireSameUniversity user p b next f w = next f w)
  /\ (forall u,
        user = Some u -> u_role u = admin -> truthy (Api.or_string p b) = false ->
        Api.requireSameUniversity user p b next f w = next f w)
  /\ ((forall u, user = Some u -> u_role u <> admin) ->
      Api.requireSameUniversity user p b next f w = next f w)
  /\ (truthy p = true ->
      forall b',
        Api.requireSameUniversity user p b next f w
        = Api.requireSameUniversity user p b' next f w).
Proof.
  unfold Api.requireSameUniversity.
  split; [|split; [|split; [|split]]].
  - intros u t -> R T Ne D. rewrite R, T. simpl.
    destruct t as [|c t]; [contradiction|].
    unfold Api.differs. destruct (u_university_id u) as [x|]; [|reflexivity].
    destruct (String.eqb_spec x (String c t)) as [->|]; [contradiction|reflexivity].
  - intros u t -> R T D. rewrite R, T. simpl.
    destruct t as [|c t]; [reflexivity|].
    unfold Api.differs. rewrite D, String.eqb_refl. reflexivity.
  - intros u -> R T. rewrite R. simpl.
    destruct (Api.or_string p b) as [[|c t]|]; try reflexivity. discriminate.
  - intros H. destruct user as [u|]; [|reflexivity].
    specialize (H u eq_refl).
    destruct (u_role u); try reflexivity; try contradiction.
    simpl. destruct (Api.or_string p b) as [[|c t]|]; reflexivity.
  - intros T b'. unfold Api.or_string. rewrite T. reflexivity.
Qed.

(** ** database/connection.ts *)

(** X5. [transaction(callback)] is all or nothing for every callback: it
    either returns the callback's result with the callback's writes
    committed, or throws and leaves the database as it was when called.
    With the session, [BEGIN] and [COMMIT] answering it commits what a
    succeeding callback wrote; when the callback throws and [ROLLBACK]
    answers, the error thrown is the callback's. *)
Theorem transaction_all_or_nothing {A} (callback : Sql A) f w o w' :
  transaction callback f w = (o, w') ->
  let started := {| w_db := w_db w; w_tick := S (S (w_tick w)) |} in
  ((exists m, o = Throw m /\ w_db w' = w_db w)
   \/ (exists r wc,
         o = Ok r /\ callback f started = (Ok r, wc) /\ w_db w' = w_db wc))
  /\ (forall r wc,
        f (w_tick w) = None -> f (S (w_tick w)) = None ->
        callback f started = (Ok r, wc) -> f (w_tick wc) = None ->
        o = Ok r /\ w_db w' = w_db wc)
  /\ (forall m wc,
        f (w_tick w) = None -> f (S (w_tick w)) = None ->
        callback f started = (Throw m, wc) -> f (w_tick wc) = None ->
        o = Throw m /\ w_db w' = w_db w).
Proof.
  intros H started. split; [|split].
  - apply transaction_inv in H as [(m & -> & D)|(r & wc & -> & _ & _ & C & _ & ->)].
    + left; eauto.
    + right. exists r, wc. auto.
  - intros r wc F0 F1 C F2. subst started.
    unfold transaction in H. rewrite F0 in H.
    unfold BEGIN, COMMIT, bind, execute, statement, ret in H. simpl in H.
    rewrite F1 in H. unfold next_tick in H. simpl in H. rewrite C in H.
    rewrite F2 in H. inv H. auto.
  - intros m wc F0 F1 C F2. subst started.
    unfold transaction in H. rewrite F0 in H.
    unfold BEGIN, COMMIT, bind, execute, statement, ret in H. simpl in H.
    rewrite F1 in H. unfold next_tick in H. simpl in H. rewrite C in H.
    simpl in H. rewrite F2 in H. inv H. auto.
Qed.

(** ** Keys *)

Lemma key_unique {A K} (key : A -> K) (l : list A) a b :
  NoDup (map key l) -> In a l -> In b l -> key a = key b -> a = b.
Proof.
  induction l as [|x l IH]; simpl; intros ND Ha Hb E; [contradiction|].
  inversion ND as [|? ? Hx ND']; subst.
  destruct Ha as [->|Ha], Hb as [->|Hb]; auto.
  - exfalso. apply Hx. rewrite E. now apply in_map.
  - exfalso. apply Hx. rewrite <- E. now apply in_map.
Qed.

Lemma set_connection_requests_same db :
  set_connection_requests (connection_requests db) db = db.
Proof. destruct db; reflexivity. Qed.

Lemma set_users_same db : set_users (users db) db = db.
Proof. destruct db; reflexivity. Qed.

Lemma set_notifications_same db : set_notifications (notifications db) db = db.
Proof. destruct db; reflexivity. Qed.

Lemma map_if_none {A} (p : A -> bool) (g : A -> A) (l : list A) :
  filter p l = [] -> map (fun x => if p x then g x else x) l = l.
Proof.
  intros H. rewrite <- (map_id l) at 2. apply map_ext_in. intros x Hx.
  rewrite (proj1 (filter_nil_iff p l) H x Hx). reflexivity.
Qed.

(** ** rejectRequest *)

Lemma rejects_facts rid actor q :
  rejects rid actor q = true ->
  cr_id q = rid /\ cr_to_user_id q = actor /\ cr_status q = pending.
Proof.
  unfold rejects. intros H.
  apply andb_true_iff in H as [H Hs]. apply andb_true_iff in H as [Hi Ht].
  apply N.eqb_eq in Hi, Ht. destruct (cr_status q); try discriminate. auto.
Qed.

Lemma route_reject_run cred rid f db r db' :
  serve (route_reject cred rid) f db = (r, db') ->
  (res_status r <> 200 /\ db' = db)
  \/ (r = json 200 (Success "Request rejected")
      /\ exists actor u rest R,
           cred = Verified actor
           /\ select_active_user actor db = u :: rest
           /\ In R (connection_requests db) /\ rejects rid actor R = true
           /\ db' = after_reject rid actor db).
Proof.
  unfold serve, route_reject. intros H.
  through_authenticate H A.
  apply authenticate_inv in A as [(D & S & _)|(id & u & rest & -> & _ & S & Hn)].
  - left. simpl in D. split; [|exact D]. destruct S as [S|S]; rewrite S; discriminate.
  - simpl in Hn. apply try_catch_inv in Hn as [H|(m & H & ->)].
    + apply bind_inv in H as [(m & _ & ?)|(ids & w1 & St & H)]; [discriminate|].
      apply statement_inv in St as [_ [(m & ? & _)|(a & E & _ & U)]]; [discriminate|].
      inversion E; subst a; clear E.
      unfold update_reject in U. simpl in U. inversion U as [[Hids Hdb]]; clear U.
      fold (rejects rid id) in Hids, Hdb.
      destruct (filter (rejects rid id) (connection_requests db)) as [|R l] eqn:Fi.
      * subst ids. simpl in H. unfold ret in H. inversion H; subst.
        left. split; [simpl; discriminate|].
        rewrite <- Hdb. rewrite (map_if_none _ _ _ Fi).
        apply set_connection_requests_same.
      * subst ids. simpl in H. unfold ret in H. inversion H; subst.
        right. split; [reflexivity|].
        apply filter_head_in in Fi as [Hin Hr].
        exists id, u, rest, R. repeat split; auto.
    + left. split; [simpl; discriminate|].
      apply bind_inv in H as [(m' & St & _)|(ids & w1 & St & H)].
      * apply statement_inv in St as [_ [(m'' & _ & D)|(a & ? & _)]];
          [exact D|discriminate].
      * destruct (nonempty ids); unfold ret in H; discriminate.
Qed.

Lemma after_reject_settles rid actor db R :
  requests_pkey db -> In R (connection_requests db) -> rejects rid actor R = true ->
  forall actor', select_pending_request rid actor' (after_reject rid actor db) = [].
Proof.
  intros PK Hin Hr actor'. apply filter_nil_iff. intros y Hy.
  unfold after_reject in Hy. simpl in Hy.
  apply in_map_iff in Hy as (q & <- & Hq).
  destruct (cr_id q =? rid)%N eqn:E.
  - apply N.eqb_eq in E. apply rejects_facts in Hr as Hf. destruct Hf as (Hid & _ & _).
    assert (q = R) as -> by (apply (key_unique cr_id (connection_requests db)); auto; congruence).
    rewrite Hr. simpl. apply andb_false_r.
  - assert (rejects rid actor q = false) as ->
        by (unfold rejects; rewrite E; reflexivity).
    rewrite E. reflexivity.
Qed.

(** X6. [rejectRequest] answers 200 only for a pending request addressed
    to the authenticated actor; the request is then rejected and nothing
    else changes: no connection, no notification. Any other answer
    leaves the database as it was. A rejected request is settled: nobody
    can accept or reject it afterwards. *)
Theorem reject_request_spec cred rid f db r db' :
  serve (route_reject cred rid) f db = (r, db') ->
  (res_status r = 200 ->
   exists actor R,
     cred = Verified actor /\ In R (connection_requests db)
     /\ cr_id R = rid /\ cr_to_user_id R = actor /\ cr_status R = pending
     /\ db' = after_reject rid actor db)
  /\ (res_status r <> 200 -> db' = db)
  /\ connections db' = connections db
  /\ notifications db' = notifications db
  /\ (res_status r = 200 -> requests_pkey db ->
      forall cred2 f2 r2 db2,
        (forall connId,
            serve (route_accept cred2 rid connId) f2 db' = (r2, db2) ->
            res_status r2 <> 200 /\ db2 = db')
        /\ (serve (route_reject cred2 rid) f2 db' = (r2, db2) ->
            res_status r2 <> 200 /\ db2 = db')).
Proof.
  intros H.
  apply route_reject_run in H
    as [[S ->]|(-> & actor & u & rest & R & -> & SA & Hin & Hr & ->)].
  - repeat split; auto; intros; contradiction.
  - pose proof (rejects_facts _ _ _ Hr) as (Hid & Hto & Hst).
    split; [intros _; exists actor, R; auto 10|].
    split; [intros X; exfalso; apply X; reflexivity|].
    split; [reflexivity|]. split; [reflexivity|].
    intros _ PK cred2 f2 r2 db2.
    pose proof (after_reject_settles rid actor db R PK Hin Hr) as Settled.
    split.
    + intros connId H2.
      apply route_accept_run in H2
        as [[S D]|(_ & a2 & u2 & rest2 & R2 & rest' & _ & _ & P & _)]; [auto|].
      rewrite Settled in P. discriminate.
    + intros H2.
      apply route_reject_run in H2
        as [[S D]|(_ & a2 & u2 & rest2 & R2 & _ & _ & Hin2 & Hr2 & _)]; [auto|].
      exfalso.
      assert (In R2 (select_pending_request rid a2 (after_reject rid actor db))) as X
          by (apply filter_In; split; [exact Hin2|exact Hr2]).
      rewrite Settled in X. destruct X.
Qed.

(** ** removeConnection *)

Lemma route_remove_run cred other f db r db' :
  serve (route_remove cred other) f db = (r, db') ->
  (res_status r <> 200 /\ db' = db)
  \/ (r = json 200 (Success "Connection removed")
      /\ exists actor,
           cred = Verified actor
           /\ db' = set_connections
                      (filter (fun c => negb (connects actor other c)) (connections db))
                      db).
Proof.
  unfold serve, route_remove. intros H.
  through_authenticate H A.
  apply authenticate_inv in A as [(D & S & _)|(id & u & rest & -> & _ & S & Hn)].
  - left. simpl in D. split; [|exact D]. destruct S as [S|S]; rewrite S; discriminate.
  - simpl in Hn. apply try_catch_inv in Hn as [H|(m & H & ->)].
    + apply bind_inv in H as [(m & _ & ?)|([] & w1 & E & H)]; [discriminate|].
      apply execute_inv in E as [_ [(m & ? & _)|(_ & _ & D)]]; [discriminate|].
      unfold ret in H. inversion H; subst. right. split; [reflexivity|].
      exists id. split; [reflexivity|].
      unfold delete_connections in D. simpl in D. inversion D. reflexivity.
    + left. split; [simpl; discriminate|].
      apply bind_inv in H as [(m' & E & _)|(a & w1 & _ & H)]; [|discriminate].
      apply execute_inv in E as [_ [(m'' & _ & D)|(? & _)]]; [exact D|discriminate].
Qed.

Lemma same_pair_connects a b x y c :
  same_pair a b x y -> connects x y c = connects a b c.
Proof.
  intros [[-> ->]|[-> ->]]; [reflexivity|apply connects_sym].
Qed.

Lemma same_pair_requested a b x y q :
  same_pair a b x y -> requested x y q = requested a b q.
Proof.
  intros [[-> ->]|[-> ->]]; [reflexivity|apply requested_sym].
Qed.

Lemma requested_set_status s a b q :
  requested a b (set_status s q) = requested a b q.
Proof. reflexivity. Qed.

Lemma requested_in_map (g : ConnectionRequest -> ConnectionRequest) a b l :
  (forall q, requested a b (g q) = requested a b q) ->
  (exists q, In q l /\ requested a b q = true) ->
  exists q, In q (map g l) /\ requested a b q = true.
Proof.
  intros G (q & Hin & Hq). exists (g q). split; [now apply in_map|].
  now rewrite G.
Qed.

Lemma connections_requested_ext db db' :
  (forall c, In c (connections db') -> In c (connections db)) ->
  (forall a b,
      (exists q, In q (connection_requests db) /\ requested a b q = true) ->
      exists q, In q (connection_requests db') /\ requested a b q = true) ->
  connections_requested db -> connections_requested db'.
Proof.
  intros C Q I c Hc. apply Q. apply I. now apply C.
Qed.

Lemma connections_requested_accept R connId actor db :
  In R (connection_requests db) ->
  connections_requested db -> connections_requested (after_accept R connId actor db).
Proof.
  intros HR I c Hc. unfold after_accept in *.
  cbn [connections connection_requests set_notifications set_connections
       set_connection_requests] in *.
  assert (forall a b,
            (exists q, In q (connection_requests db) /\ requested a b q = true) ->
            exists q, In q (with_status accepted (cr_id R) (connection_requests db))
                      /\ requested a b q = true) as Q.
  { intros a b. apply requested_in_map. intros q.
    destruct (cr_id q =? cr_id R)%N; reflexivity. }
  apply in_app_or in Hc as [Hc|[<-|[]]].
  - apply Q. now apply I.
  - cbn [c_user_id c_connected_user_id]. apply Q. exists R.
    split; [exact HR|apply requested_from_to].
Qed.

(** Every route of the engine keeps a request stored for each
    connection. *)
Lemma route_preserves_requested c f db :
  connections_requested db -> connections_requested (snd (serve (route_of c) f db)).
Proof.
  intros I. destruct (serve (route_of c) f db) as [r db'] eqn:H. simpl.
  destruct c as [cred to rid|cred rid connId|cred rid|cred other|cred other];
    simpl in H.
  - apply route_send_run in H
      as [[_ ->]|(A & B & u & rest & _ & _ & _ & _ & _ & _ & _ & _ & _ & _ & H)];
      [exact I|].
    assert (forall a b,
              (exists q, In q (connection_requests db) /\ requested a b q = true) ->
              exists q, In q (connection_requests db
                                ++ [new_request rid A (parsed B)])
                        /\ requested a b q = true) as Q.
    { intros a b (q & Hin & Hq). exists q. split; [|exact Hq].
      apply in_or_app. now left. }
    destruct H as [(_ & _ & ->)|(_ & _ & ->)];
      (apply (connections_requested_ext db); [intros x Hx; exact Hx|exact Q|exact I]).
  - apply route_accept_run in H
      as [[_ ->]|(_ & actor & u & rest & R & rest' & _ & _ & P & ->)];
      [exact I|].
    apply connections_requested_accept; [|exact I].
    assert (In R (select_pending_request rid actor db)) as HR
        by (rewrite P; now left).
    unfold select_pending_request in HR. now apply filter_In in HR.
  - apply route_reject_run in H
      as [[_ ->]|(_ & actor & u & rest & R & _ & _ & _ & _ & ->)]; [exact I|].
    apply (connections_requested_ext db); [intros x Hx; exact Hx| |exact I].
    intros a b. unfold after_reject. cbn [connection_requests set_connection_requests].
    apply requested_in_map. intros q. destruct (rejects rid actor q); reflexivity.
  - apply route_remove_run in H as [[_ ->]|(_ & actor & _ & ->)]; [exact I|].
    apply (connections_requested_ext db); [| |exact I].
    + cbn [connections set_connections]. intros x Hx.
      now apply filter_In in Hx.
    + intros a b Q. exact Q.
  - unfold serve, route_check in H.
    through_authenticate H A.
    apply authenticate_inv in A as [(D & _)|(id & u & rest & _ & _ & _ & Hn)].
    + simpl in D. now rewrite D.
    + apply get_check_run in Hn as [D _]. simpl in D. now rewrite D.
Qed.

Lemma run_preserves_requested calls db :
  connections_requested db -> connections_requested (run calls db).
Proof.
  revert db. induction calls as [|[c f] calls IH]; simpl; intros db I; [exact I|].
  apply IH. now apply route_preserves_requested.
Qed.

(** X7. In a database the relationship routes have reached from one
    where every connection has its request (one without connections,
    say), [removeConnection] of a stored connection deletes the
    connection rows of the pair and leaves every request row in place.
    As a connection is only written for a stored request and
    [sendRequest] refuses whenever a request between the two users is
    stored, two users whose connection was removed cannot ask each other
    again: a later [sendRequest] in either direction writes nothing, and
    with the storage layer answering it is refused with "Request already
    exists". *)
Theorem no_reconnect_after_remove start calls X Y c f r db1 :
  connections_requested start ->
  In c (connections (run calls start)) -> connects X Y c = true ->
  serve (route_remove (Verified X) Y) f (run calls start) = (r, db1) ->
  connection_requests db1 = connection_requests (run calls start)
  /\ (res_status r = 200 -> select_connections X Y db1 = [])
  /\ (forall S T rid f2 r2 db2,
        same_pair X Y S (parsed T) ->
        serve (route_send (Verified S) (Some T) rid) f2 db1 = (r2, db2) ->
        db2 = db1 /\ res_status r2 <> 200
        /\ (res_status r = 200 -> (forall k, f2 k = None) ->
            same_text T S = false -> select_active_user S db1 <> [] ->
            r2 = json 400 (Detail "Request already exists"))).
Proof.
  intros I0 Hc Cn H.
  pose proof (run_preserves_requested calls start I0) as I.
  set (db := run calls start) in *.
  destruct (I c Hc) as (q & Hin & Hq0).
  assert (requested X Y q = true) as Hq
      by (rewrite (connects_requested X Y c q Cn); exact Hq0).
  assert (connection_requests db1 = connection_requests db
          /\ (res_status r = 200 -> select_connections X Y db1 = [])) as [Rq Gone].
  { apply route_remove_run in H as [[S ->]|(-> & actor & E & ->)].
    - split; [reflexivity|]. intros; contradiction.
    - inversion E; subst actor. split; [reflexivity|]. intros _.
      unfold select_connections. simpl. apply filter_nil_iff. intros x Hx.
      apply filter_In in Hx as [_ Hx].
      destruct (connects X Y x); [discriminate|reflexivity]. }
  split; [exact Rq|]. split; [exact Gone|].
  intros S T rid f2 r2 db2 P2 H2.
  assert (In q (connection_requests db1)) as Hin1 by (rewrite Rq; exact Hin).
  assert (requested S (parsed T) q = true) as Hq2
      by (rewrite (same_pair_requested _ _ _ _ q P2); exact Hq).
  pose proof (route_send_blocked S T rid f2 db1 q r2 db2 Hin1 Hq2 H2) as (D & St & Z).
  split; [exact D|]. split; [exact St|].
  intros R200 F Self Act.
  destruct (Z F Act) as [(Self' & _)|(_ & [->| ->])]; [congruence| |reflexivity].
  exfalso.
  pose proof (in_select_requests _ _ _ _ Hin1 Hq2) as Hne.
  unfold serve, route_send in H2.
  destruct (select_active_user S db1) as [|u rest] eqn:SA; [congruence|].
  rewrite (authenticate_ok S _ f2 {| w_db := db1; w_tick := 0 |} u rest (F 0%nat) SA) in H2.
  unfold post_request, try_catch in H2. cbn [userId] in H2. rewrite Self in H2.
  unfold bind, query, statement, ret in H2.
  rewrite !F in H2. cbn [w_db next_tick w_tick] in H2.
  assert (select_connections S (parsed T) db1 = []) as NoC.
  { specialize (Gone R200). unfold select_connections in *.
    apply filter_nil_iff. intros x Hx.
    rewrite (same_pair_connects _ _ _ _ x P2).
    exact (proj1 (filter_nil_iff _ _) Gone x Hx). }
  rewrite NoC in H2. simpl in H2.
  rewrite !F in H2. cbn [w_db next_tick w_tick] in H2.
  apply nonempty_true in Hne. rewrite Hne in H2.
  inversion H2.
Qed.

(** ** requestMentorship *)






(** ** One mentor *)

Lemma inner_join_in {A B} (on : A -> B -> bool) l r a b :
  In a l -> In b r -> on a b = true -> In (a, b) (inner_join on l r).
Proof.
  intros Ha Hb Hon. unfold inner_join. apply in_flat_map. exists a. split; [exact Ha|].
  apply in_map. apply filter_In. auto.
Qed.

Lemma select_mentor_head db m u :
  users_pkey db -> mentors_pkey db ->
  In m (mentors db) -> m_is_active m = true ->
  In u (users db) -> u_id u = m_user_id m ->
  exists rest, select_mentor (m_id m) db = (m, u) :: rest.
Proof.
  intros UK MK Hm Act Hu Hid.
  assert (In (m, u) (select_mentor (m_id m) db)) as Hin.
  { apply filter_In. split.
    - apply inner_join_in; auto. apply N.eqb_eq. congruence.
    - simpl. rewrite N.eqb_refl, Act. reflexivity. }
  destruct (select_mentor (m_id m) db) as [|[m' u'] rest] eqn:S; [destruct Hin|].
  exists rest. f_equal.
  apply filter_head_in in S as [Hj Hp]. simpl in Hp.
  apply andb_true_iff in Hp as [Hi _]. apply N.eqb_eq in Hi.
  apply in_inner_join in Hj as (Hm' & Hu' & Hon). apply N.eqb_eq in Hon.
  assert (m' = m) as -> by (apply (key_unique m_id (mentors db)); auto).
  assert (u' = u) as -> by (apply (key_unique u_id (users db)); auto; congruence).
  reflexivity.
Qed.

Lemma get_mentors_item ilike q score req f w r w' items total item :
  get_mentors ilike q score req f w = (r, w') ->
  res_body r = MentorList items total -> In item items ->
  exists i m u,
    In (m, u) (mentor_rows ilike (u_university_id (user req)) q (w_db w))
    /\ item = mentor_item score (i, (m, u)).
Proof.
  intros H B Hin. apply try_catch_inv in H as [H|(x & H & ->)]; [|discriminate].
  apply bind_inv in H as [(x & _ & ?)|(cnt & w1 & C & H)]; [discriminate|].
  apply query_inv in C as [-> [(x & ? & _)|[E _]]]; [discriminate|].
  inversion E; subst cnt; clear E.
  apply bind_inv in H as [(x & _ & ?)|(rows & w2 & S & H)]; [discriminate|].
  apply statement_inv in S as [_ [(x & ? & _)|(a & E & _ & S)]]; [discriminate|].
  inversion E; subst a; clear E. unfold ret in H. inv H.
  simpl in S. unfold select_mentors in S.
  destruct (offset_rows _ _) as [rest|x] eqn:O; [|discriminate].
  destruct (limit_rows _ _) as [rows'|x] eqn:L; [|discriminate].
  inversion S as [[E1 E2]]; subst rows'.
  simpl in B. inversion B; subst; clear B.
  apply in_map_iff in Hin as ([i [m u]] & <- & Hin).
  apply in_indexed in Hin. apply (limit_rows_in _ _ _ _ L) in Hin.
  apply (offset_rows_in _ _ _ _ O) in Hin. apply in_order_by in Hin.
  exists i, m, u. auto.
Qed.

Lemma with_match_score_item s score i row :
  with_match_score s (mentor_item score (i, row))
  = mentor_item (fun _ => s) (0%nat, row).
Proof. destruct row; reflexivity. Qed.

Lemma route_mentor_found actor k f db a rest m u rest' :
  f 0 = None -> f 1 = None ->
  select_active_user actor db = a :: rest ->
  select_mentor (m_id m) db = (m, u) :: rest' ->
  Api.serve (route_mentor (Verified actor) (m_id m) k) f db
  = (Api.Reply 200 (mentor_item (fun _ => (k + 70)%Z) (0%nat, (m, u))), db).
Proof.
  intros F0 F1 SA S. unfold Api.serve, route_mentor.
  rewrite (api_authenticate_ok actor _ f {| w_db := db; w_tick := 0 |} a rest F0 SA).
  unfold get_mentor, Api.try_catch, bind, query, statement, ret. simpl.
  rewrite F1, S. reflexivity.
Qed.

(** X9. [GET /mentors/:mentorId] returns the active mentor with that id,
    joined with its user, whatever the universities of the actor and of
    the mentor: for an authenticated actor and an answering storage
    layer it answers 200 with that mentor's fields and a match score of
    [Math.floor(Math.random() * 30) + 70], and 404 when no active mentor
    has the id. Every mentor listed by [GET /mentors] can be fetched by
    the id of its item, with the same fields. *)
Theorem mentor_by_id ilike actor k f db a rest :
  users_pkey db -> mentors_pkey db ->
  f 0 = None -> f 1 = None ->
  select_active_user actor db = a :: rest ->
  (forall m u,
      In m (mentors db) -> m_is_active m = true ->
      In u (users db) -> u_id u = m_user_id m ->
      Api.serve (route_mentor (Verified actor) (m_id m) k) f db
      = (Api.Reply 200 (mentor_item (fun _ => (k + 70)%Z) (0%nat, (m, u))), db))
  /\ (forall mentorId,
        (forall m, In m (mentors db) -> m_id m = mentorId -> m_is_active m = false) ->
        Api.serve (route_mentor (Verified actor) mentorId k) f db
        = (Api.Refuse 404 "Mentor not found", db))
  /\ (forall q score f1 r db' items total item,
        serve (route_mentors ilike (Verified actor) q score) f1 db = (r, db') ->
        res_body r = MentorList items total -> In item items ->
        Api.serve (route_mentor (Verified actor) (mi_id item) k) f db
        = (Api.Reply 200 (with_match_score (k + 70)%Z item), db)).
Proof.
  intros UK MK F0 F1 SA. split; [|split].
  - intros m u Hm Act Hu Hid.
    destruct (select_mentor_head db m u UK MK Hm Act Hu Hid) as [rest' S].
    exact (route_mentor_found actor k f db a rest m u rest' F0 F1 SA S).
  - intros mentorId Hn. unfold Api.serve, route_mentor.
    rewrite (api_authenticate_ok actor _ f {| w_db := db; w_tick := 0 |} a rest F0 SA).
    unfold get_mentor, Api.try_catch, bind, query, statement, ret. simpl.
    rewrite F1.
    assert (select_mentor mentorId db = []) as ->; [|reflexivity].
    apply filter_nil_iff. intros [m u] Hj.
    apply in_inner_join in Hj as (Hm & _ & _). simpl.
    destruct (N.eqb_spec (m_id m) mentorId) as [E|]; [|reflexivity].
    simpl. exact (Hn m Hm E).
  - intros q score f1 r db' items total item H B Hin.
    unfold serve, route_mentors in H. through_authenticate H Au.
    apply authenticate_inv in Au as [(_ & _ & d & B')|(id & u0 & rest0 & E & _ & S & Hn)].
    { rewrite B' in B. discriminate. }
    destruct (get_mentors_item _ _ _ _ _ _ _ _ _ _ _ Hn B Hin) as (i & m & u & Hr & ->).
    apply mentor_rows_facts in Hr as (Hm & Hu & Hid & Act & _).
    destruct (select_mentor_head db m u UK MK Hm Act Hu (eq_sym Hid)) as [rest' Sm].
    rewrite with_match_score_item.
    replace (mi_id (mentor_item score (i, (m, u)))) with (m_id m) by reflexivity.
    exact (route_mentor_found actor k f db a rest m u rest' F0 F1 SA Sm).
Qed.

(** ** The mentor's own profile *)







(** ** Registration *)

(** The first row of a query on users joined with their university is
    the first user selected, with the university it references. *)
Lemma select_user_join_head (p : User -> bool) db :
  match filter (fun row => p (fst row))
          (left_join references_university (users db) (universities db)) with
  | [] => find p (users db) = None
  | (u, un) :: _ => find p (users db) = Some u /\ un = owning_university u db
  end.
Proof.
  induction (users db) as [|a l IH]; [reflexivity|].
  rewrite left_join_cons, filter_app. simpl find.
  destruct (joined_rows_shape references_university (universities db) a)
    as (rest & Shape & Fst).
  rewrite (filter_const _ (joined_rows references_university (universities db) a) (p a))
    by (intros row Hrow; now rewrite (Fst row Hrow)).
  destruct (p a).
  - rewrite Shape. simpl. split; [reflexivity|].
    unfold owning_university.
    rewrite (filter_ext _ _ (references_university_eqb a)).
    destruct (u_university_id a) as [id|].
    + now rewrite find_filter_head.
    + replace (filter (fun _ : University => false) (universities db))
        with (@nil University); [reflexivity|].
      symmetry. now apply filter_nil_iff.
  - simpl. exact IH.
Qed.

Lemma find_app_none {A} (p : A -> bool) l x :
  find p l = None -> find p (l ++ [x]) = if p x then Some x else None.
Proof.
  induction l as [|a l IH]; simpl; [reflexivity|].
  destruct (p a); [discriminate|exact IH].
Qed.

Lemma insert_user_ok u db db' :
  insert_user u db = Ok db' ->
  db' = set_users (users db ++ [u]) db
  /\ (forall x, In x (users db) -> u_id x <> u_id u)
  /\ (forall x, In x (users db) -> u_email x <> u_email u).
Proof.
  unfold insert_user.
  destruct (existsb _ (users db)) eqn:E1; [discriminate|].
  destruct (existsb (fun x => (u_email x =? u_email u)%string) (users db)) eqn:E2;
    [discriminate|].
  intros H.
  assert (db' = set_users (users db ++ [u]) db) as ->.
  { destruct (u_university_id u); [destruct (has_university _ _)|];
      inversion H; reflexivity. }
  split; [reflexivity|]. split.
  - intros x Hx. pose proof (proj1 (existsb_false _ _) E1 x Hx) as N.
    now apply N.eqb_neq.
  - intros x Hx. pose proof (proj1 (existsb_false _ _) E2 x Hx) as N.
    now apply String.eqb_neq.
Qed.

Lemma insert_user_profile_ok p db db' :
  insert_user_profile p db = Ok db' ->
  db' = set_user_profiles (user_profiles db ++ [p]) db.
Proof.
  unfold insert_user_profile.
  destruct (existsb _ (user_profiles db)); [discriminate|].
  destruct (negb (has_user (up_user_id p) db)); [discriminate|].
  intros H; inversion H; reflexivity.
Qed.

(** How a registration can end: refused or failed before the
    transaction committed, nothing written; or the user and the profile
    committed, answered 201 unless the final query failed. *)
Lemma post_register_run toLowerCase enc body hash newId f w r w' :
  post_register toLowerCase enc body hash newId f w = (r, w') ->
  ((res_status r = 400 \/ res_status r = 500) /\ w_db w' = w_db w)
  \/ (university_accepted body (w_db w)
      /\ select_by_email (toLowerCase (rg_email body)) (w_db w) = []
      /\ (forall x, In x (users (w_db w)) -> u_id x <> newId)
      /\ w_db w' = after_register (toLowerCase (rg_email body)) (enc (rg_email body)) body hash newId (w_db w)
      /\ (r = json 500 (Detail "Registration failed")
          \/ exists su branding,
               r = json 201
                     (LoginResult
                        (generateToken
                           (registered_user (toLowerCase (rg_email body)) (enc (rg_email body)) body hash newId))
                        su branding None)
               /\ su_id su = newId
               /\ su_email su = toLowerCase (rg_email body)
               /\ su_role su = alumni)).
Proof.
  intros H. apply try_catch_inv in H as [H|(msg & H & ->)].
  - apply bind_inv in H as [(m & _ & ?)|(known & w1 & K & H)]; [discriminate|].
    assert (w_db w1 = w_db w /\ (known = true -> university_accepted body (w_db w)))
      as [D1 Acc].
    { unfold university_accepted.
      destruct (rg_university_id body) as [[|c s]|]; try (inv K; auto; fail).
      apply bind_inv in K as [(m & _ & ?)|(rows & w2 & Q & K)]; [discriminate|].
      apply query_inv in Q as [-> [(m & ? & _)|[E _]]]; [discriminate|].
      inv E. inv K. split; [reflexivity|]. apply nonempty_true. }
    destruct known; cbn [negb] in H.
    2:{ inv H. left. simpl. auto. }
    apply bind_inv in H as [(m & _ & ?)|(existing & w2 & Q & H)]; [discriminate|].
    apply query_inv in Q as [-> [(m & ? & _)|[E _]]]; [discriminate|].
    inv E.
    destruct (nonempty (select_by_email _ _)) eqn:Ex.
    { inv H. left. simpl. auto. }
    apply nonempty_false in Ex.
    apply bind_inv in H as [(m & _ & ?)|([] & w3 & T & H)]; [discriminate|].
    apply transaction_inv in T as [(m & ? & _)|([] & wc & _ & _ & _ & C & _ & ->)];
      [discriminate|].
    apply bind_inv in C as [(m & _ & ?)|([] & w4 & I & C)]; [discriminate|].
    apply execute_inv in I as [_ [(m & ? & _)|(_ & _ & I)]]; [discriminate|].
    apply execute_inv in C as [_ [(m & ? & _)|(_ & _ & P)]]; [discriminate|].
    fold (registered_user (toLowerCase (rg_email body)) (enc (rg_email body)) body hash newId) in I.
    cbn [w_db next_tick] in I. apply insert_user_ok in I as (I & Fresh & _).
    change (u_id (registered_user (toLowerCase (rg_email body)) (enc (rg_email body)) body hash newId))
      with newId in Fresh.
    rewrite I in P. apply insert_user_profile_ok in P.
    apply bind_inv in H as [(m & _ & ?)|(rows & w5 & Q & H)]; [discriminate|].
    apply query_inv in Q as [-> [(m & ? & _)|[E _]]]; [discriminate|].
    inv E. cbn [w_db next_tick] in H.
    right. rewrite D1 in *. split; [auto|]. split; [exact Ex|].
    split; [exact Fresh|].
    assert (w_db wc = after_register (toLowerCase (rg_email body)) (enc (rg_email body)) body hash newId (w_db w))
      as Dc by (rewrite P; reflexivity).
    pose proof (select_user_join_head (fun u => (u_id u =? newId)%N) (w_db wc)) as Hd.
    cbv beta in Hd. fold (select_registered newId (w_db wc)) in Hd.
    destruct (select_registered newId (w_db wc)) as [|[u un] rows] eqn:S.
    { discriminate. }
    cbv beta iota in Hd. destruct Hd as [Hf ->]. inv H. split; [exact Dc|].
    right. rewrite Dc in Hf. unfold after_register in Hf.
    cbn [users set_users set_user_profiles] in Hf.
    rewrite find_app_none in Hf.
    2:{ destruct (find _ (users (w_db w))) as [x|] eqn:Fx; [|reflexivity].
        apply find_some in Fx as [Hx Ex']. apply N.eqb_eq in Ex'.
        exfalso. exact (Fresh x Hx Ex'). }
    change (u_id (registered_user (toLowerCase (rg_email body)) (enc (rg_email body)) body hash newId))
      with newId in Hf.
    rewrite N.eqb_refl in Hf. inversion Hf; subst u.
    eexists _, _. split; [reflexivity|]. cbn [safe_user su_id su_email su_role].
    auto.
  - apply bind_inv in H as [(m & K & _)|(known & w1 & K & H)].
    + left. split; [simpl; auto|].
      destruct (rg_university_id body) as [[|c s]|]; try (inv K; fail).
      apply bind_inv in K as [(m' & Q & _)|(rows & w2 & Q & K)]; [|inv K].
      now apply query_inv in Q as [-> _].
    + assert (w_db w1 = w_db w /\ (known = true -> university_accepted body (w_db w)))
        as [D1 Acc].
      { unfold university_accepted.
        destruct (rg_university_id body) as [[|c s]|]; try (inv K; auto; fail).
        apply bind_inv in K as [(m & _ & ?)|(rows & w2 & Q & K)]; [discriminate|].
        apply query_inv in Q as [-> [(m & ? & _)|[E _]]]; [discriminate|].
        inv E. inv K. split; [reflexivity|]. apply nonempty_true. }
      destruct known; cbn [negb] in H; [|inv H].
      apply bind_inv in H as [(m & Q & _)|(existing & w2 & Q & H)].
      { left. split; [simpl; auto|]. apply query_inv in Q as [-> _]. exact D1. }
      apply query_inv in Q as [-> [(m & ? & _)|[E _]]]; [discriminate|].
      inv E.
      destruct (nonempty (select_by_email _ _)) eqn:Ex; [inv H|].
      apply nonempty_false in Ex.
      apply bind_inv in H as [(m & T & _)|([] & w3 & T & H)].
      { left. split; [simpl; auto|].
        apply transaction_inv in T as [(m' & _ & D)|(? & ? & ? & _)]; [|discriminate].
        simpl in D. congruence. }
      apply transaction_inv in T as [(m & ? & _)|([] & wc & _ & _ & _ & C & _ & ->)];
        [discriminate|].
      apply bind_inv in C as [(m & _ & ?)|([] & w4 & I & C)]; [discriminate|].
      apply execute_inv in I as [_ [(m & ? & _)|(_ & _ & I)]]; [discriminate|].
      apply execute_inv in C as [_ [(m & ? & _)|(_ & _ & P)]]; [discriminate|].
      fold (registered_user (toLowerCase (rg_email body)) (enc (rg_email body)) body hash newId) in I.
      cbn [w_db next_tick] in I. apply insert_user_ok in I as (I & Fresh & _).
      change (u_id (registered_user (toLowerCase (rg_email body)) (enc (rg_email body)) body hash newId))
        with newId in Fresh.
      rewrite I in P. apply insert_user_profile_ok in P.
      rewrite D1 in *.
      assert (w_db wc = after_register (toLowerCase (rg_email body)) (enc (rg_email body)) body hash newId (w_db w))
        as Dc by (rewrite P; reflexivity).
      right. split; [auto|]. split; [exact Ex|].
      split; [exact Fresh|].
      apply bind_inv in H as [(m & Q & _)|(rows & w5 & Q & H)].
      * apply query_inv in Q as [-> _]. cbn [w_db next_tick].
        split; [exact Dc|]. left; reflexivity.
      * apply query_inv in Q as [-> [(m & ? & _)|[E _]]]; [discriminate|].
        inv E. cbn [w_db next_tick] in H.
        destruct (select_registered newId (w_db wc)) as [|[u un] rows];
          unfold throw, ret in H; inv H.
        cbn [w_db next_tick]. split; [exact Dc|]. left; reflexivity.
Qed.

Lemma NoDup_snoc {A} (l : list A) x : NoDup l -> ~ In x l -> NoDup (l ++ [x]).
Proof.
  induction l as [|a l IH]; simpl; intros ND Hx.
  - constructor; [intros []|constructor].
  - inversion ND as [|? ? Ha ND']; subst. constructor.
    + rewrite in_app_iff. intros [H|[H|[]]]; [contradiction|]. apply Hx. now left.
    + apply IH; [exact ND'|]. intros H. apply Hx. now right.
Qed.

Lemma key_snoc {A K} (key : A -> K) (l : list A) x :
  NoDup (map key l) -> (forall y, In y l -> key y <> key x) ->
  NoDup (map key (l ++ [x])).
Proof.
  intros ND Hx. rewrite map_app. simpl. apply NoDup_snoc; [exact ND|].
  intros H. apply in_map_iff in H as (y & E & Hy). exact (Hx y Hy E).
Qed.

Lemma select_by_email_nil email db :
  select_by_email email db = [] <-> forall u, In u (users db) -> u_email u <> email.
Proof.
  unfold select_by_email. rewrite filter_nil_iff. split; intros H u Hu.
  - apply String.eqb_neq. exact (H u Hu).
  - apply String.eqb_neq. exact (H u Hu).
Qed.

(** X11. [POST /auth/register] writes the user and its empty profile
    together or not at all. It answers 201 only when the lower-cased
    e-mail was unused and the university, when one is given, is enabled;
    the new account is then an active alumni with that e-mail, and the
    token is issued for it. A 400 leaves the database unchanged, an
    e-mail already stored is never registered again, and the primary key
    of users and the uniqueness of e-mails are kept. *)
Theorem register_spec toLowerCase enc body hash newId f db r db' :
  serve (post_register toLowerCase enc body hash newId) f db = (r, db') ->
  let new := after_register (toLowerCase (rg_email body)) (enc (rg_email body)) body hash newId db in
  (db' = db \/ db' = new)
  /\ (res_status r = 201 ->
      db' = new /\ university_accepted body db
      /\ (forall u, In u (users db) ->
                    u_email u <> toLowerCase (rg_email body) /\ u_id u <> newId)
      /\ exists su branding,
           r = json 201
                 (LoginResult
                    (generateToken
                       (registered_user (toLowerCase (rg_email body)) (enc (rg_email body)) body hash newId))
                    su branding None)
           /\ su_id su = newId /\ su_email su = toLowerCase (rg_email body)
           /\ su_role su = alumni)
  /\ (res_status r = 400 -> db' = db)
  /\ (forall u, In u (users db) -> u_email u = toLowerCase (rg_email body) ->
                db' = db /\ res_status r <> 201)
  /\ (users_pkey db -> users_pkey db')
  /\ (users_email_key db -> users_email_key db').
Proof.
  intros H new. unfold serve in H.
  destruct (post_register _ _ _ _ _ _) as [r0 w0] eqn:E. inv H.
  apply post_register_run in E as [[S D]|(Acc & Em & Fresh & D & R)];
    cbn [w_db] in *.
  - rewrite D. split; [left; reflexivity|].
    split; [intros X; destruct S as [S|S]; rewrite S in X; discriminate|].
    split; [reflexivity|].
    split; [intros u _ _; split; [reflexivity|];
            destruct S as [S|S]; rewrite S; discriminate|].
    auto.
  - fold new in D. rewrite D. pose proof (proj1 (select_by_email_nil _ _) Em) as NoE.
    split; [right; reflexivity|].
    split.
    { intros X. split; [reflexivity|]. split; [exact Acc|]. split; [auto|].
      destruct R as [->|R]; [discriminate X|exact R]. }
    split.
    { intros X. exfalso. destruct R as [->|(su & br & -> & _)]; discriminate. }
    split.
    { intros u Hu Eu. exfalso. exact (NoE u Hu Eu). }
    split.
    + intros PK. unfold users_pkey, new, after_register. cbn [users set_users set_user_profiles].
      apply key_snoc; [exact PK|exact Fresh].
    + intros EK. unfold users_email_key, new, after_register.
      cbn [users set_users set_user_profiles].
      apply key_snoc; [exact EK|exact NoE].
Qed.

(** ** Registration, then login *)

Lemma post_login_ok toLowerCase text_lt bcrypt_compare email password f w u un rows :
  f (w_tick w) = None ->
  select_login (toLowerCase email) (w_db w) = (u, un) :: rows ->
  u_is_active u = true -> u_role u <> superadmin ->
  truthy (u_university_id u) && is_disabled un = false ->
  exists branding,
    post_login toLowerCase text_lt bcrypt_compare email password f w
    = (if bcrypt_compare password (u_password_hash u)
       then json 200 (LoginResult (generateToken u) (safe_user (u, un)) branding None)
       else json 401 (Detail "Invalid email or password"),
       next_tick w (w_db w)).
Proof.
  intros F S Act Role Dis.
  unfold post_login, try_catch. unfold bind at 1. unfold query at 1, statement.
  rewrite F. cbn [w_db next_tick]. rewrite S, Act. cbn [negb].
  assert (Role_eqb (u_role u) superadmin = false) as Rs
      by (destruct (u_role u); [reflexivity..|contradiction]).
  rewrite Rs. cbn [negb andb]. rewrite Dis. rewrite or_else_empty.
  destruct (bcrypt_compare password (u_password_hash u)); cbn [negb].
  - unfold bind, ret. eexists. reflexivity.
  - unfold ret. exists None. reflexivity.
Qed.

Lemma accepted_university_enabled body db id :
  universities_pkey db -> university_accepted body db ->
  rg_university_id body = Some id -> truthy (Some id) = true ->
  exists un,
    find (fun un => (un_id un =? id)%string) (universities db) = Some un
    /\ un_is_enabled un = true.
Proof.
  intros PK Acc E T. unfold university_accepted in Acc. rewrite E in Acc.
  destruct id as [|c s]; [discriminate|].
  destruct (select_enabled_university (String c s) db) as [|un0 rest] eqn:S;
    [contradiction|].
  apply filter_head_in in S as [Hin Hp]. apply andb_true_iff in Hp as [Hid En].
  apply String.eqb_eq in Hid.
  destruct (find _ (universities db)) as [un1|] eqn:Fd.
  - apply find_some in Fd as [Hin1 E1]. apply String.eqb_eq in E1.
    assert (un1 = un0) as ->
        by (apply (key_unique un_id (universities db)); auto; congruence).
    eauto.
  - exfalso. pose proof (find_none _ _ Fd un0 Hin) as X. simpl in X.
    rewrite Hid, String.eqb_refl in X. discriminate.
Qed.

Lemma route_register_inv toLowerCase is_email enc body hash newId f db r db' :
  serve (route_register toLowerCase is_email enc body hash newId) f db = (r, db') ->
  (r = json 400 ValidationFailed /\ db' = db
   /\ forall b, body = Some b -> register_schema is_email b = false)
  \/ (exists b,
        body = Some b /\ register_schema is_email b = true
        /\ serve (post_register toLowerCase enc b hash newId) f db = (r, db')).
Proof.
  unfold serve, route_register. intros H.
  destruct (validate _ _ _ _ _) as [r0 w0] eqn:V. inv H.
  apply validate_inv in V as [(-> & -> & Bad)|(b & -> & Good & P)].
  - left. auto.
  - right. exists b. rewrite P. auto.
Qed.

Lemma route_login_valid toLowerCase text_lt is_email bcrypt_compare b f db :
  login_schema is_email b = true ->
  serve (route_login toLowerCase text_lt is_email bcrypt_compare (Some b)) f db
  = serve (post_login toLowerCase text_lt bcrypt_compare (lg_email b) (lg_password b))
      f db.
Proof.
  intros V. unfold serve, route_login, validate. rewrite V. reflexivity.
Qed.

Lemma route_login_invalid toLowerCase text_lt is_email bcrypt_compare b f db :
  login_schema is_email b = false ->
  serve (route_login toLowerCase text_lt is_email bcrypt_compare (Some b)) f db
  = (json 400 ValidationFailed, db).
Proof.
  intros V. unfold serve, route_login, validate. rewrite V. reflexivity.
Qed.

Lemma login_schema_true is_email email password :
  login_schema is_email {| lg_email := email; lg_password := password |} = true
  <-> is_email email = true /\ password <> "".
Proof.
  unfold login_schema. cbn [lg_email lg_password].
  rewrite andb_true_iff, negb_true_iff. split; intros [E P]; split; auto.
  - intros ->. discriminate.
  - now apply String.eqb_neq.
Qed.

(** X12. An account registered with answer 201 can log in at once: with
    the registered e-mail in any letter case that [toLowerCase] takes to
    the same text and that the validation accepts, and a password that
    is not empty, login answers 200 with a token for the new account
    when [bcrypt.compare] accepts the password against the stored hash,
    and 401 when it rejects it; a body the validation refuses is answered
    400. *)
Theorem register_then_login toLowerCase text_lt is_email enc body hash newId
    f db r db' :
  universities_pkey db ->
  serve (route_register toLowerCase is_email enc (Some body) hash newId) f db
  = (r, db') ->
  res_status r = 201 ->
  forall bcrypt_compare email password f2,
    toLowerCase email = toLowerCase (rg_email body) -> f2 0 = None ->
    let login :=
      serve (route_login toLowerCase text_lt is_email bcrypt_compare
               (Some {| lg_email := email; lg_password := password |})) f2 db' in
    (is_email email = true -> password <> "" ->
     bcrypt_compare password hash = true ->
     exists su branding,
       login
       = (json 200
            (LoginResult
               (generateToken
                  (registered_user (toLowerCase (rg_email body))
                     (enc (rg_email body)) body hash newId))
               su branding None), db')
       /\ su_id su = newId)
    /\ (is_email email = true -> password <> "" ->
        bcrypt_compare password hash = false ->
        login = (json 401 (Detail "Invalid email or password"), db'))
    /\ (is_email email = false \/ password = "" ->
        login = (json 400 ValidationFailed, db')).
Proof.
  intros PK H R201 bcrypt_compare email password f2 Em F login.
  apply route_register_inv in H as [(-> & _)|(b & Eb & _ & H)];
    [discriminate R201|].
  inversion Eb; subst b; clear Eb.
  unfold serve in H. destruct (post_register _ _ _ _ _ _ _) as [r0 w0] eqn:E. inv H.
  apply post_register_run in E as [[X _]|(Acc & NoE & _ & D & _)];
    [destruct X as [X|X]; rewrite X in R201; discriminate|].
  cbn [w_db] in *. subst login. rewrite D. clear D.
  assert (is_email email = false \/ password = "" ->
          login_schema is_email {| lg_email := email; lg_password := password |}
          = false) as Bad.
  { intros X. destruct (login_schema _ _) eqn:V; [|reflexivity].
    apply login_schema_true in V as [V1 V2].
    destruct X as [X|X]; [congruence|contradiction]. }
  split; [|split]; [| |intros X; apply route_login_invalid; auto].
  all: intros V1 V2 B;
    rewrite route_login_valid by (apply login_schema_true; auto);
    cbn [lg_email lg_password].
  all: pose proof (proj1 (select_by_email_nil _ _) NoE) as Old;
    set (new := registered_user (toLowerCase (rg_email body)) (enc (rg_email body))
                  body hash newId);
    set (db1 := after_register (toLowerCase (rg_email body)) (enc (rg_email body))
                  body hash newId db);
    pose proof (select_login_head (toLowerCase email) db1) as Hd;
    assert (account (toLowerCase email) db1 = Some new) as Acct
      by (unfold account, db1, after_register;
          cbn [users set_users set_user_profiles];
          rewrite find_app_none;
          [fold new; change (u_email new) with (toLowerCase (rg_email body));
           rewrite Em, String.eqb_refl; reflexivity
          |destruct (find _ (users db)) as [x|] eqn:Fx; [|reflexivity];
           apply find_some in Fx as [Hx Ex]; apply String.eqb_eq in Ex;
           exfalso; apply (Old x Hx); congruence]);
    destruct (select_login (toLowerCase email) db1) as [|[u un] rows] eqn:S;
      [rewrite Acct in Hd; discriminate|];
    destruct Hd as [Hu ->]; rewrite Acct in Hu; inversion Hu; subst u; clear Hu;
    assert (truthy (u_university_id new) && is_disabled (owning_university new db1)
            = false) as Dis
      by (change (u_university_id new) with (rg_university_id body);
          destruct (rg_university_id body) as [id|] eqn:Eid; [|reflexivity];
          destruct (truthy (Some id)) eqn:T; [|reflexivity];
          destruct (accepted_university_enabled body db id PK Acc Eid T)
            as (un & Fd & En);
          unfold owning_university;
          change (u_university_id new) with (rg_university_id body);
          rewrite Eid; change (universities db1) with (universities db);
          rewrite Fd; simpl; rewrite En; reflexivity);
    destruct (post_login_ok toLowerCase text_lt bcrypt_compare email password f2
                {| w_db := db1; w_tick := 0 |} new _ rows F S eq_refl)
      as (branding & L); [discriminate|exact Dis|];
    unfold serve; rewrite L; change (u_password_hash new) with hash; rewrite B.
  - eexists _, branding. split; reflexivity.
  - reflexivity.
Qed.

(** ** The universities offered for registration *)

Lemma insert_by_perm {A} (before : A -> A -> bool) x l :
  Permutation (insert_by before x l) (x :: l).
Proof.
  induction l as [|a l IH]; simpl; [reflexivity|].
  destruct (before a x); [|reflexivity].
  rewrite IH. apply perm_swap.
Qed.

Lemma order_by_perm {A} (before : A -> A -> bool) l :
  Permutation (order_by before l) l.
Proof.
  induction l as [|a l IH]; simpl; [reflexivity|].
  rewrite insert_by_perm. now constructor.
Qed.

Lemma in_select_enabled_university id db :
  select_enabled_university id db <> []
  <-> exists un, In un (universities db) /\ un_id un = id /\ un_is_enabled un = true.
Proof.
  unfold select_enabled_university. split.
  - intros H. destruct (filter _ (universities db)) as [|un rest] eqn:S; [contradiction|].
    apply filter_head_in in S as [Hin Hp]. apply andb_true_iff in Hp as [Hid En].
    apply String.eqb_eq in Hid. eauto.
  - intros (un & Hin & Hid & En) E.
    assert (In un (filter (fun un => (un_id un =? id)%string && un_is_enabled un)
                     (universities db))) as X.
    { apply filter_In. split; [exact Hin|]. rewrite Hid, String.eqb_refl, En. reflexivity. }
    rewrite E in X. destruct X.
Qed.

Lemma in_select_enabled_universities text_lt o db :
  In o (select_enabled_universities text_lt db)
  <-> exists un, In un (universities db) /\ un_is_enabled un = true
                 /\ o = {| uo_id := un_id un; uo_name := un_name un |}.
Proof.
  unfold select_enabled_universities. rewrite in_map_iff. split.
  - intros (un & <- & H). apply in_order_by in H. apply filter_In in H as [Hin En].
    eauto.
  - intros (un & Hin & En & ->). exists un. split; [reflexivity|].
    apply in_order_by. apply filter_In. auto.
Qed.

(** X13. [GET /auth/universities] lists exactly the enabled universities,
    each once per stored row, and writes nothing. These are the
    universities registration accepts: a registration naming a
    university succeeds only if its id is listed, and one naming an id
    that is not listed writes nothing and is refused, with "Invalid or
    disabled university" when the body passes the validation. *)
Theorem offered_universities text_lt f db a db' :
  Api.serve (get_auth_universities text_lt) f db = (a, db') ->
  db' = db
  /\ (f 0 = None -> exists rows, a = Api.Reply 200 rows)
  /\ forall rows,
       a = Api.Reply 200 rows ->
       (forall o,
           In o rows
           <-> exists un, In un (universities db) /\ un_is_enabled un = true
                          /\ o = {| uo_id := un_id un; uo_name := un_name un |})
       /\ List.length rows = List.length (filter un_is_enabled (universities db))
       /\ forall toLowerCase is_email enc body hash newId f2 r2 db2 id,
            rg_university_id body = Some id -> id <> "" ->
            serve (route_register toLowerCase is_email enc (Some body) hash newId)
              f2 db = (r2, db2) ->
            (res_status r2 = 201 -> In id (map uo_id rows))
            /\ (~ In id (map uo_id rows) ->
                db2 = db /\ res_status r2 <> 201
                /\ (register_schema is_email body = true -> f2 0 = None ->
                    r2 = json 400 (Detail "Invalid or disabled university"))).
Proof.
  unfold Api.serve, get_auth_universities, Api.try_catch, bind, query, statement, ret.
  cbn [w_db w_tick next_tick].
  destruct (f 0%nat) as [e|] eqn:F0; intros H; inversion H as [[Ea Ed]];
    subst a; subst db'; clear H; cbn [w_db].
  { split; [reflexivity|]. split; [discriminate|]. intros rows X. discriminate. }
  split; [reflexivity|]. split; [eauto|].
  intros rows X. inversion X; subst rows; clear X.
  split; [intros o; apply in_select_enabled_universities|].
  split.
  { unfold select_enabled_universities. rewrite length_map.
    apply Permutation_length, order_by_perm. }
  intros toLowerCase is_email enc body hash newId f2 r2 db2 id Eid Ne H.
  assert (In id (map uo_id (select_enabled_universities text_lt db))
          <-> select_enabled_university id db <> []) as Listed.
  { split.
    - intros Hi. apply in_map_iff in Hi as (o & <- & Ho).
      apply in_select_enabled_universities in Ho as (un & Hin & En & ->).
      apply in_select_enabled_university. exists un. auto.
    - intros Hs. apply in_select_enabled_university in Hs as (un & Hin & Hid & En).
      apply in_map_iff.
      exists {| uo_id := un_id un; uo_name := un_name un |}. split; [exact Hid|].
      apply in_select_enabled_universities. eauto. }
  apply route_register_inv in H as [(-> & -> & Bad)|(b & Eb & Good & H)].
  { split; [discriminate|]. intros _. split; [reflexivity|].
    split; [discriminate|]. intros V. rewrite (Bad body eq_refl) in V. discriminate. }
  inversion Eb; subst b; clear Eb.
  split.
  - intros R201. apply Listed.
    unfold serve in H. destruct (post_register _ _ _ _ _ _ _) as [r0 w0] eqn:E. inv H.
    apply post_register_run in E as [[X _]|(Acc & _)];
      [destruct X as [X|X]; rewrite X in R201; discriminate|].
    unfold university_accepted in Acc. rewrite Eid in Acc.
    destruct id; [contradiction|exact Acc].
  - intros NotIn.
    assert (select_enabled_university id db = []) as S.
    { destruct (select_enabled_university id db) eqn:S; [reflexivity|].
      exfalso. apply NotIn, Listed. discriminate. }
    unfold serve, post_register, try_catch in H. rewrite Eid in H.
    destruct id as [|c s]; [contradiction|].
    unfold bind, query, statement, ret in H. cbn [w_db w_tick next_tick] in H.
    destruct (f2 0%nat) as [e|] eqn:F2.
    + inv H. split; [reflexivity|]. split; [discriminate|]. intros _ X. discriminate X.
    + rewrite S in H. cbn in H. inv H. split; [reflexivity|].
      split; [discriminate|]. reflexivity.
Qed.

(** ** Refreshing the token *)

Lemma select_active_user_pkey db u :
  users_pkey db -> In u (users db) -> u_is_active u = true ->
  exists rest, select_active_user (u_id u) db = u :: rest.
Proof.
  intros PK Hin Act.
  assert (In u (select_active_user (u_id u) db)) as H
      by (apply filter_In; rewrite N.eqb_refl, Act; auto).
  destruct (select_active_user (u_id u) db) as [|x rest] eqn:S; [destruct H|].
  exists rest. f_equal. apply select_active_user_head in S as (Hx & Hid & _).
  apply (key_unique u_id (users db)); auto.
Qed.

Lemma select_registered_pkey db u :
  users_pkey db -> In u (users db) ->
  exists rows, select_registered (u_id u) db = (u, owning_university u db) :: rows.
Proof.
  intros PK Hin.
  pose proof (select_user_join_head (fun x => (u_id x =? u_id u)%N) db) as Hd.
  cbv beta in Hd. fold (select_registered (u_id u) db) in Hd.
  destruct (select_registered (u_id u) db) as [|[x un] rows].
  - exfalso. pose proof (find_none _ _ Hd u Hin) as X. simpl in X.
    rewrite N.eqb_refl in X. discriminate.
  - destruct Hd as [Hf ->]. apply find_some in Hf as [Hx E]. apply N.eqb_eq in E.
    assert (x = u) as -> by (apply (key_unique u_id (users db)); auto).
    eauto.
Qed.

Lemma Role_eqb_eq a b : Role_eqb a b = true <-> a = b.
Proof. destruct a, b; simpl; split; congruence. Qed.

Lemma universities_for_select text_lt u db :
  universities_for u db
    (if Role_eqb (u_role u) superadmin
     then Some (select_universities text_lt db) else None).
Proof.
  unfold universities_for. destruct (Role_eqb (u_role u) superadmin) eqn:R.
  - split; [now apply Role_eqb_eq|]. apply order_by_perm.
  - intros E. apply Role_eqb_eq in E. congruence.
Qed.

Lemma universities_for_same u db a b :
  universities_for u db a -> universities_for u db b -> same_rows a b.
Proof.
  unfold universities_for, same_rows.
  destruct a as [l|], b as [l'|]; try tauto.
  intros [_ P] [_ P']. rewrite P, P'. reflexivity.
Qed.

Lemma post_login_200 toLowerCase text_lt bcrypt_compare email password f w
    token su branding all w' :
  post_login toLowerCase text_lt bcrypt_compare email password f w
  = (json 200 (LoginResult token su branding all), w') ->
  exists u,
    account (toLowerCase email) (w_db w) = Some u
    /\ u_is_active u = true
    /\ token = generateToken u
    /\ su = safe_user (u, owning_university u (w_db w))
    /\ branding = login_branding u (owning_university u (w_db w))
    /\ universities_for u (w_db w) all.
Proof.
  unfold post_login, try_catch. unfold bind at 1. unfold query at 1, statement.
  intros H. destruct (f (w_tick w)) as [m|] eqn:F0; [discriminate|].
  cbn [w_db next_tick] in H.
  pose proof (select_login_head (toLowerCase email) (w_db w)) as Hd.
  destruct (select_login (toLowerCase email) (w_db w)) as [|[u un] rows].
  { unfold ret in H. discriminate. }
  destruct Hd as [Acct ->].
  destruct (u_is_active u) eqn:Act; cbn [negb] in H; [|unfold ret in H; discriminate].
  destruct (negb (Role_eqb (u_role u) superadmin) && truthy (u_university_id u)
            && is_disabled (owning_university u (w_db w)));
    [unfold ret in H; discriminate|].
  destruct (negb (bcrypt_compare password (or_else (u_password_hash u) "")));
    [unfold ret in H; discriminate|].
  exists u. unfold login_branding.
  pose proof (universities_for_select text_lt u (w_db w)) as U.
  unfold bind, ret in H.
  destruct (Role_eqb (u_role u) superadmin).
  - unfold query, statement in H. cbn [w_db w_tick next_tick] in H.
    destruct (f (S (w_tick w))); inversion H; subst. auto 10.
  - inversion H; subst. auto 10.
Qed.

Lemma route_refresh_branding_ok text_lt f db u :
  users_pkey db -> In u (users db) -> u_is_active u = true ->
  f 0 = None -> f 1 = None -> (u_role u = superadmin -> f 2 = None) ->
  exists all,
    serve (route_refresh_branding text_lt (Verified (u_id u))) f db
    = (json 200
         (LoginResult (generateToken u) (safe_user (u, owning_university u db))
            (without_is_enabled (login_branding u (owning_university u db)))
            all), db)
    /\ universities_for u db all.
Proof.
  intros PK Hin Act F0 F1 F2.
  destruct (select_active_user_pkey db u PK Hin Act) as [rest SA].
  destruct (select_registered_pkey db u PK Hin) as [rows SR].
  exists (if Role_eqb (u_role u) superadmin
          then Some (select_universities text_lt db) else None).
  split; [|apply universities_for_select].
  unfold serve, route_refresh_branding.
  rewrite (authenticate_ok (u_id u) _ f {| w_db := db; w_tick := 0 |} u rest F0 SA).
  unfold post_refresh_branding, try_catch. unfold bind at 1.
  unfold query at 1, statement. cbn [w_db w_tick next_tick userId].
  rewrite F1, SR. unfold login_branding, without_is_enabled.
  unfold bind, ret.
  destruct (Role_eqb (u_role u) superadmin) eqn:R.
  - unfold query, statement. cbn [w_db w_tick next_tick].
    rewrite F2 by (destruct (u_role u); [discriminate..|reflexivity]).
    destruct (u_university_id u) as [[|c s]|]; reflexivity.
  - destruct (u_university_id u) as [[|c s]|]; reflexivity.
Qed.

(** X14. [POST /auth/refresh-branding] answers an active user with a
    fresh token for that same user, the user's row with the name of its
    university, and the branding of that university without
    [is_enabled]; a list with every university goes to a superadmin and
    no list to anybody else. It repeats what login answers for the
    account: the same token payload, the same user, the same branding but
    for [is_enabled], and a list with the same universities. Whether the
    university is enabled is not looked at. *)
Theorem refresh_matches_login text_lt f db u :
  users_pkey db -> In u (users db) -> u_is_active u = true ->
  f 0 = None -> f 1 = None -> (u_role u = superadmin -> f 2 = None) ->
  exists all,
    serve (route_refresh_branding text_lt (Verified (u_id u))) f db
    = (json 200
         (LoginResult (generateToken u) (safe_user (u, owning_university u db))
            (without_is_enabled (login_branding u (owning_university u db)))
            all), db)
    /\ universities_for u db all
    /\ forall toLowerCase text_lt1 is_email bcrypt_compare body f1
              token su branding all1 db',
         serve (route_login toLowerCase text_lt1 is_email bcrypt_compare body) f1 db
         = (json 200 (LoginResult token su branding all1), db') ->
         jwt_userId token = u_id u ->
         token = generateToken u
         /\ su = safe_user (u, owning_university u db)
         /\ without_is_enabled branding
            = without_is_enabled (login_branding u (owning_university u db))
         /\ same_rows all all1.
Proof.
  intros PK Hin Act F0 F1 F2.
  destruct (route_refresh_branding_ok text_lt f db u PK Hin Act F0 F1 F2)
    as (all & R & U).
  exists all. split; [exact R|]. split; [exact U|].
  intros toLowerCase text_lt1 is_email bcrypt_compare body f1 token su branding
    all1 db' L Tk.
  unfold serve, route_login in L.
  destruct (validate _ _ _ _ _) as [r0 w0] eqn:V.
  inversion L; subst r0; clear L.
  apply validate_inv in V as [(X & _)|(b & _ & _ & E)]; [discriminate X|].
  apply post_login_200 in E as (u' & Acct & _ & -> & -> & -> & U1).
  cbn [w_db] in *. unfold account in Acct. apply find_some in Acct as [Hin' _].
  assert (u' = u) as -> by (apply (key_unique u_id (users db)); auto).
  repeat split; auto. exact (universities_for_same u db all all1 U U1).
Qed.

(** ** Universities, by the superadmin *)

Lemma select_university_nil id db :
  select_university id db = [] <-> forall un, In un (universities db) -> un_id un <> id.
Proof.
  unfold select_university. rewrite filter_nil_iff. split; intros H un Hun.
  - apply String.eqb_neq. exact (H un Hun).
  - apply String.eqb_neq. exact (H un Hun).
Qed.

Lemma insert_university_ok un db db' :
  insert_university un db = Ok db' ->
  db' = set_universities (universities db ++ [un]) db.
Proof.
  unfold insert_university. destruct (has_university _ _); [discriminate|].
  intros H; inversion H; reflexivity.
Qed.

Lemma post_university_run id name req f w a w' :
  post_university id name req f w = (a, w') ->
  ((exists d, a = Api.Refuse 400 d \/ a = Api.Refuse 500 d) /\ w_db w' = w_db w)
  \/ (exists i n,
        id = Some i /\ name = Some n /\ i <> "" /\ n <> ""
        /\ select_university i (w_db w) = []
        /\ w_db w'
           = set_universities (universities (w_db w) ++ [new_university i n]) (w_db w)
        /\ (a = Api.Refuse 500 "Failed to create university"
            \/ a = Api.Reply 201 (Some (new_university i n)))).
Proof.
  unfold post_university, Api.try_catch.
  destruct id as [[|c i]|]; try (intros H; inv H; left; eauto; fail).
  destruct name as [[|c' n]|]; try (intros H; inv H; left; eauto; fail).
  unfold bind at 1. unfold query at 1, statement at 1.
  destruct (f (w_tick w)) as [e|] eqn:F0.
  { intros H; inv H. left. eauto. }
  destruct (nonempty (select_university (String c i) (w_db w))) eqn:E.
  { unfold ret. intros H; inv H. left. eauto. }
  apply nonempty_false in E.
  unfold bind at 1. unfold execute at 1, statement at 1. cbn [w_db w_tick next_tick].
  destruct (f (S (w_tick w))) as [e|] eqn:F1.
  { intros H; inv H. left. eauto. }
  destruct (insert_university _ (w_db w)) as [db1|e] eqn:I.
  2:{ intros H; inv H. left. eauto. }
  apply insert_university_ok in I.
  fold (new_university (String c i) (String c' n)) in I. subst db1.
  unfold bind, query, statement, ret. cbn [w_db w_tick next_tick].
  intros H. right. exists (String c i), (String c' n).
  repeat (split; [reflexivity || discriminate || assumption|]).
  destruct (f (S (S (w_tick w)))) as [e|] eqn:F2.
  - inv H. cbn [w_db]. auto.
  - inv H. cbn [w_db]. split; [reflexivity|]. right. f_equal.
    unfold select_university. cbn [universities set_universities].
    rewrite filter_app. fold (select_university (String c i) (w_db w)). rewrite E.
    cbn [filter app new_university un_id]. rewrite String.eqb_refl. reflexivity.
Qed.

(** X15. [POST /superadmin/universities] stores a university only for an
    active superadmin, only with a non-empty id and name, and only when
    no university has the id; the university is then enabled. Nothing
    else is written, so ids of universities stay non-empty and
    unique. *)
Theorem create_university_spec cred id name f db a db' :
  Api.serve (route_university_create cred id name) f db = (a, db') ->
  (db' = db
   \/ exists i n actor u,
        id = Some i /\ name = Some n /\ i <> "" /\ n <> ""
        /\ (forall un, In un (universities db) -> un_id un <> i)
        /\ cred = Verified actor /\ In u (users db) /\ u_id u = actor
        /\ u_is_active u = true /\ u_role u = superadmin
        /\ db' = set_universities (universities db ++ [new_university i n]) db)
  /\ (forall un, a = Api.Reply 201 un ->
      exists i n, id = Some i /\ name = Some n /\ un = Some (new_university i n)
                  /\ db' <> db)
  /\ (slugs_nonempty db -> slugs_nonempty db')
  /\ (universities_pkey db -> universities_pkey db').
Proof.
  intros H. unfold Api.serve, route_university_create in H.
  destruct (superadmin_route _ _ _ _) as [a0 w0] eqn:E. inv H.
  apply superadmin_route_inv in E as [[D (d & R)]|(actor & u & rest & -> & F & S & Ro & N)].
  - cbn [w_db] in D. rewrite D. split; [left; reflexivity|].
    split; [|auto].
    intros un X. destruct R as [R|[R|R]]; rewrite R in X; discriminate.
  - apply post_university_run in N
      as [[(d & R) D]|(i & n & -> & -> & Hi & Hn & Fresh & D & R)];
      cbn [w_db next_tick] in D; rewrite D.
    + split; [left; reflexivity|]. split; [|auto].
      intros un X. destruct R as [R|R]; rewrite R in X; discriminate.
    + pose proof (select_active_user_head _ _ _ _ S) as (Hin & Hid & Act).
      cbn [w_db] in *.
      pose proof (proj1 (select_university_nil _ _) Fresh) as NoId.
      split; [right; exists i, n, actor, u; auto 15|].
      split.
      { intros un X. destruct R as [R|R]; rewrite R in X; [discriminate|].
        inversion X; subst un. exists i, n. repeat split; auto.
        intros Eq. apply (f_equal (fun d => List.length (universities d))) in Eq.
        cbn [universities set_universities] in Eq. rewrite length_app in Eq.
        simpl in Eq. lia. }
      split.
      * intros Sl un Hun. cbn [universities set_universities] in Hun.
        apply in_app_iff in Hun as [Hun|[<-|[]]]; [exact (Sl un Hun)|exact Hi].
      * intros PK. unfold universities_pkey. cbn [universities set_universities].
        apply key_snoc; [exact PK|exact NoId].
Qed.

Lemma toggled_twice un : toggled (toggled un) = un.
Proof. destruct un as [i n e]. unfold toggled. simpl. now rewrite negb_involutive. Qed.

Lemma toggled_universities_twice id l :
  toggled_universities id (toggled_universities id l) = l.
Proof.
  unfold toggled_universities. rewrite map_map. rewrite <- (map_id l) at 2.
  apply map_ext. intros un. destruct (un_id un =? id)%string eqn:E.
  - cbn [toggled un_id]. rewrite E. apply toggled_twice.
  - rewrite E. reflexivity.
Qed.

Lemma set_universities_same db : set_universities (universities db) db = db.
Proof. destruct db; reflexivity. Qed.

(** The rows returned by the toggle are the rows of the id, toggled. *)
Lemma toggled_hits id l :
  filter (fun un => (un_id un =? id)%string) (toggled_universities id l)
  = map toggled (filter (fun un => (un_id un =? id)%string) l).
Proof.
  induction l as [|un l IH]; [reflexivity|].
  cbn [toggled_universities map filter]. fold (toggled_universities id l).
  destruct (un_id un =? id)%string eqn:E.
  - cbn [toggled un_id]. rewrite E. cbn [map]. now rewrite IH.
  - rewrite E. exact IH.
Qed.

Lemma post_toggle_status_run id req f w a w' :
  post_toggle_status id req f w = (a, w') ->
  (a = Api.Refuse 500 "Failed to toggle status" /\ w_db w' = w_db w)
  \/ (w_db w'
      = set_universities (toggled_universities id (universities (w_db w))) (w_db w)
      /\ match select_university id (w_db w) with
         | [] => a = Api.Refuse 404 "University not found"
         | un :: _ => a = Api.Reply 200 (negb (un_is_enabled un))
         end).
Proof.
  unfold post_toggle_status, Api.try_catch, bind, statement, toggle_university.
  destruct (f (w_tick w)) as [e|] eqn:F0.
  { intros H; inv H. left. auto. }
  fold (toggled_universities id (universities (w_db w))).
  rewrite toggled_hits. fold (select_university id (w_db w)).
  intros H. right.
  destruct (select_university id (w_db w)) as [|un rest]; unfold ret in H; inv H;
    cbn [w_db]; auto.
Qed.

Lemma toggle_none id db :
  select_university id db = [] ->
  set_universities (toggled_universities id (universities db)) db = db.
Proof.
  intros H. unfold toggled_universities.
  rewrite (map_if_none (fun un => (un_id un =? id)%string) toggled _ H).
  apply set_universities_same.
Qed.

Lemma route_university_toggle_run cred id f db a db' :
  Api.serve (route_university_toggle cred id) f db = (a, db') ->
  (db' = db /\ exists code d, a = Api.Refuse code d)
  \/ (exists actor u un rest,
        cred = Verified actor /\ In u (users db) /\ u_id u = actor
        /\ u_is_active u = true /\ u_role u = superadmin
        /\ select_university id db = un :: rest
        /\ a = Api.Reply 200 (negb (un_is_enabled un))
        /\ db' = set_universities (toggled_universities id (universities db)) db).
Proof.
  intros H. unfold Api.serve, route_university_toggle in H.
  destruct (superadmin_route _ _ _ _) as [a0 w0] eqn:E. inv H.
  apply superadmin_route_inv in E as [[D (d & R)]|(actor & u & rest & -> & F & S & Ro & N)].
  - left. cbn [w_db] in D. split; [exact D|].
    destruct R as [R|[R|R]]; rewrite R; eauto.
  - apply post_toggle_status_run in N as [[-> D]|[D R]]; cbn [w_db next_tick] in *.
    + left. eauto.
    + destruct (select_university id db) as [|un rest'] eqn:Su.
      * left. rewrite D, R. split; [now apply toggle_none|eauto].
      * right. pose proof (select_active_user_head _ _ _ _ S) as (Hin & Hid & Act).
        exists actor, u, un, rest'. auto 10.
Qed.

(** X16. [POST /superadmin/universities/:id/toggle-status] flips
    [is_enabled] of the university with that id for an active
    superadmin, answers the new value, and writes nothing else; a second
    toggle answers the first value again and leaves every university
    with the flag it had. Once a toggle answered that the university is
    disabled, the login of a user of that university who is not a
    superadmin never receives a token: a body that passes the validation
    is answered 401, with "University is currently disabled" when the
    account is active. *)
Theorem toggle_status_spec cred id f db a db' :
  Api.serve (route_university_toggle cred id) f db = (a, db') ->
  (db' = db
   \/ db' = set_universities (toggled_universities id (universities db)) db)
  /\ users db' = users db
  /\ (forall b, a = Api.Reply 200 b ->
      (exists un, In un (universities db) /\ un_id un = id
                  /\ b = negb (un_is_enabled un))
      /\ db' = set_universities (toggled_universities id (universities db)) db
      /\ (forall f2 a2 db2 b2,
            Api.serve (route_university_toggle cred id) f2 db' = (a2, db2) ->
            a2 = Api.Reply 200 b2 ->
            b2 = negb b
            /\ map (fun un => (un_id un, un_is_enabled un)) (universities db2)
               = map (fun un => (un_id un, un_is_enabled un)) (universities db))
      /\ (b = false -> id <> "" ->
          forall toLowerCase text_lt is_email bcrypt_compare lb f2 r2 db2 u,
            account (toLowerCase (lg_email lb)) db = Some u ->
            u_role u <> superadmin -> u_university_id u = Some id ->
            serve (route_login toLowerCase text_lt is_email bcrypt_compare (Some lb))
              f2 db' = (r2, db2) ->
            ~ has_token r2
            /\ (login_schema is_email lb = true -> f2 0 = None ->
                res_status r2 = 401
                /\ (u_is_active u = true ->
                    r2 = json 401 (Detail "University is currently disabled"))))).
Proof.
  intros H.
  apply route_university_toggle_run in H
    as [[-> (code & d & ->)]
       |(actor & u & un & rest & -> & Hin & Hid & Act & Ro & Su & -> & ->)].
  - split; [left; reflexivity|]. split; [reflexivity|]. intros b X. discriminate.
  - split; [right; reflexivity|]. split; [reflexivity|].
    intros b X. inversion X; subst b; clear X.
    pose proof (filter_head_in _ _ _ _ Su) as [Hun Eid].
    split; [exists un; repeat split; auto; now apply String.eqb_eq|].
    split; [reflexivity|].
    set (db1 := set_universities (toggled_universities id (universities db)) db).
    assert (select_university id db1 = toggled un :: map toggled rest) as Su1.
    { unfold select_university, db1. cbn [universities set_universities].
      rewrite toggled_hits. fold (select_university id db). now rewrite Su. }
    split.
    + intros f2 a2 db2 b2 H2 X.
      apply route_university_toggle_run in H2
        as [[_ (code & d & R)]|(_ & _ & un2 & rest2 & _ & _ & _ & _ & _ & Su2 & R & ->)];
        [rewrite R in X; discriminate|].
      rewrite Su1 in Su2. inversion Su2; subst un2.
      rewrite R in X. inversion X; subst b2. split; [reflexivity|].
      unfold db1. cbn [universities set_universities].
      rewrite toggled_universities_twice. reflexivity.
    + intros Dis Ne toLowerCase text_lt is_email bcrypt_compare lb f2 r2 db2 v
        Acct Rv Uv L.
      assert (~ has_token (json 400 ValidationFailed)) as NoToken400
          by (intros (t & su & x & y & E); discriminate).
      assert (~ has_token (json 500 (Detail "Login failed"))) as NoToken500
          by (intros (t & su & x & y & E); discriminate).
      destruct (login_schema is_email lb) eqn:V.
      2:{ rewrite route_login_invalid in L by exact V. inversion L; subst.
          split; [exact NoToken400|]. discriminate. }
      rewrite route_login_valid in L by exact V.
      set (email := lg_email lb) in *. set (password := lg_password lb) in *.
      unfold serve in L. destruct (post_login _ _ _ _ _ _ _) as [r0 w0] eqn:E. inv L.
      apply post_login_run in E as (_ & E500 & E). cbn [w_db w_tick] in E, E500.
      enough (f2 0%nat = None ->
              res_status r2 = 401
              /\ ~ has_token r2
              /\ (u_is_active v = true ->
                  r2 = json 401 (Detail "University is currently disabled"))) as K.
      { destruct (f2 0%nat) as [e|] eqn:F2.
        - rewrite E500 by discriminate. split; [exact NoToken500|discriminate].
        - destruct (K eq_refl) as (K1 & K2 & K3). split; [exact K2|]. auto. }
      intros F2. specialize (E F2).
      pose proof (select_login_head (toLowerCase email) db1) as Hd.
      destruct (select_login (toLowerCase email) db1) as [|[v' un'] rows].
      { change (account (toLowerCase email) db1) with (account (toLowerCase email) db)
          in Hd. congruence. }
      destruct Hd as [Acct' ->].
      change (account (toLowerCase email) db1) with (account (toLowerCase email) db)
        in Acct'.
      assert (v' = v) as -> by congruence.
      destruct (u_is_active v) eqn:Av; cbn [negb] in E.
      2:{ destruct (refused_response r2 _ E) as [S NT].
          split; [exact S|]. split; [exact NT|discriminate]. }
      assert (negb (Role_eqb (u_role v) superadmin) && truthy (u_university_id v)
              && is_disabled (owning_university v db1) = true) as C.
      { assert (Role_eqb (u_role v) superadmin = false) as ->
            by (destruct (u_role v); [reflexivity..|contradiction]).
        rewrite Uv. destruct id as [|c s]; [contradiction|]. cbn [negb andb truthy].
        unfold owning_university. rewrite Uv, find_filter_head.
        fold (select_university (String c s) db1). rewrite Su1.
        cbn [is_disabled toggled un_is_enabled]. now rewrite Dis. }
      rewrite C in E. destruct (refused_response r2 _ E) as [S NT]. auto.
Qed.

Lemma filter_all {A} (p : A -> bool) (l : list A) :
  (forall x, In x l -> p x = true) -> filter p l = l.
Proof.
  intros H. rewrite (filter_const p l true H). reflexivity.
Qed.

Lemma no_university_users id db :
  List.length (filter (fun u => sql_eq (u_university_id u) (Some id)) (users db)) = 0%nat
  <-> forall u, In u (users db) -> u_university_id u <> Some id.
Proof.
  rewrite length_zero_iff_nil, filter_nil_iff. split; intros H u Hu.
  - specialize (H u Hu). unfold sql_eq in H. intros E. rewrite E in H.
    rewrite String.eqb_refl in H. discriminate.
  - specialize (H u Hu). unfold sql_eq. destruct (u_university_id u) as [x|]; [|reflexivity].
    apply String.eqb_neq. congruence.
Qed.

Lemma delete_university_unreferenced id db ids db' :
  (forall u, In u (users db) -> u_university_id u <> Some id) ->
  delete_university id db = Ok (ids, db') ->
  ids = map un_id (select_university id db) /\ db' = without_university_row id db.
Proof.
  intros NoU H. unfold delete_university in H. inversion H; subst; clear H.
  split; [reflexivity|]. unfold without_university_row. f_equal.
  destruct (nonempty _); [|reflexivity].
  rewrite (map_if_none (fun u => sql_eq (u_university_id u) (Some id)) without_university).
  - apply set_users_same.
  - apply length_zero_iff_nil. now apply no_university_users.
Qed.

Lemma without_university_row_none id db :
  select_university id db = [] -> without_university_row id db = db.
Proof.
  intros H. unfold without_university_row. rewrite filter_all.
  - apply set_universities_same.
  - intros un Hun. pose proof (proj1 (select_university_nil _ _) H un Hun) as N.
    apply String.eqb_neq in N. now rewrite N.
Qed.

Lemma delete_university_route_run id req f w a w' :
  delete_university_route id req f w = (a, w') ->
  ((a = Api.Refuse 500 "Failed to delete university"
    \/ (a = Api.Refuse 400 "Cannot delete university with existing users"
        /\ exists u, In u (users (w_db w)) /\ u_university_id u = Some id)
    \/ (a = Api.Refuse 404 "University not found"))
   /\ w_db w' = w_db w)
  \/ (a = Api.Reply 200 "University deleted"
      /\ (forall u, In u (users (w_db w)) -> u_university_id u <> Some id)
      /\ select_university id (w_db w) <> []
      /\ w_db w' = without_university_row id (w_db w)).
Proof.
  unfold delete_university_route, Api.try_catch.
  unfold bind at 1. unfold query at 1, statement at 1.
  destruct (f (w_tick w)) as [e|] eqn:F0.
  { intros H; inv H. left. auto. }
  unfold count_university_users. cbn [hd w_db w_tick next_tick].
  destruct (List.length _) as [|n] eqn:Cnt.
  2:{ cbn. intros H; inv H. left. split; [|reflexivity]. right. left.
      split; [reflexivity|].
      destruct (filter (fun u => sql_eq (u_university_id u) (Some id)) (users (w_db w)))
        as [|u l] eqn:Fi; [discriminate|].
      apply filter_head_in in Fi as [Hu E]. exists u. split; [exact Hu|].
      unfold sql_eq in E. destruct (u_university_id u) as [x|]; [|discriminate].
      apply String.eqb_eq in E. now subst. }
  pose proof (proj1 (no_university_users id (w_db w)) Cnt) as NoU. clear Cnt.
  rename NoU into Cnt. cbn [Nat.ltb Nat.leb].
  unfold bind, statement. cbn [w_db w_tick next_tick].
  destruct (f (S (w_tick w))) as [e|] eqn:F1.
  { intros H; inv H. left. auto. }
  destruct (delete_university id (w_db w)) as [[ids db1]|e] eqn:D; [|discriminate].
  apply (delete_university_unreferenced _ _ _ _ Cnt) in D as [-> ->].
  destruct (select_university id (w_db w)) as [|un rest] eqn:Su.
  - cbn. intros H; inv H. left. cbn [w_db]. split; [auto|].
    now apply without_university_row_none.
  - cbn. intros H; inv H. right. cbn [w_db]. repeat split; auto. discriminate.
Qed.

(** X17. [DELETE /superadmin/universities/:id] deletes a university only
    for an active superadmin and only when no user references it:
    while a user of the university is stored the answer is not a
    success and nothing is written. The users table is never changed,
    and after a success no university has the id. *)
Theorem delete_university_spec cred id f db a db' :
  Api.serve (route_university_delete cred id) f db = (a, db') ->
  users db' = users db
  /\ (forall m, a = Api.Reply 200 m ->
      (exists actor u, cred = Verified actor /\ In u (users db) /\ u_id u = actor
                       /\ u_is_active u = true /\ u_role u = superadmin)
      /\ (forall u, In u (users db) -> u_university_id u <> Some id)
      /\ (exists un, In un (universities db) /\ un_id un = id)
      /\ (forall un, In un (universities db') -> un_id un <> id)
      /\ db' = without_university_row id db)
  /\ (forall code d, a = Api.Refuse code d -> db' = db)
  /\ (forall u, In u (users db) -> u_university_id u = Some id ->
      db' = db /\ exists code d, a = Api.Refuse code d).
Proof.
  intros H. unfold Api.serve, route_university_delete in H.
  destruct (superadmin_route _ _ _ _) as [a0 w0] eqn:E. inv H.
  apply superadmin_route_inv in E as [[D (d & R)]|(actor & u & rest & -> & F & S & Ro & N)].
  - cbn [w_db] in D. rewrite D. split; [reflexivity|].
    split; [intros m X; destruct R as [R|[R|R]]; rewrite R in X; discriminate|].
    split; [reflexivity|]. intros v _ _. split; [reflexivity|].
    destruct R as [R|[R|R]]; rewrite R; eauto.
  - apply delete_university_route_run in N as [[R D]|(-> & NoU & Su & D)];
      cbn [w_db next_tick] in *; rewrite D.
    + split; [reflexivity|].
      split; [intros m X; destruct R as [R|[[R _]|R]]; rewrite R in X; discriminate|].
      split; [reflexivity|]. intros v _ _. split; [reflexivity|].
      destruct R as [R|[[R _]|R]]; rewrite R; eauto.
    + pose proof (select_active_user_head _ _ _ _ S) as (Hin & Hid & Act).
      split; [reflexivity|]. split.
      * intros m _. split; [exists actor, u; auto 10|]. split; [exact NoU|].
        split.
        { destruct (select_university id db) as [|un l] eqn:Sx; [contradiction|].
          apply filter_head_in in Sx as [Hun Ex]. apply String.eqb_eq in Ex. eauto. }
        split; [|reflexivity].
        intros un Hun. cbn [without_university_row universities set_universities] in Hun.
        apply filter_In in Hun as [_ Hn]. apply String.eqb_neq.
        now destruct (un_id un =? id)%string.
      * split; [intros code d X; discriminate|].
        intros v Hv Ev. exfalso. exact (NoU v Hv Ev).
Qed.

(** ** Deactivating accounts *)

Lemma authenticate_inactive {A} id (next : AuthenticatedRequest -> Api.Route A) f db :
  f 0 = None ->
  (forall u, In u (users db) -> u_id u = id -> u_is_active u = false) ->
  Api.serve (Api.authenticate (Verified id) next) f db
  = (Api.Refuse 401 "User not found or inactive", db).
Proof.
  intros F Hn. unfold Api.serve, Api.authenticate, query, statement.
  cbn [w_db w_tick]. rewrite F.
  assert (select_active_user id db = []) as ->; [|reflexivity].
  apply filter_nil_iff. intros u Hu.
  destruct (N.eqb_spec (u_id u) id) as [Eq|]; [|reflexivity].
  cbn [andb]. now apply Hn.
Qed.

Lemma deactivated_twice u : deactivated (deactivated u) = deactivated u.
Proof. reflexivity. Qed.

Lemma deactivated_users_erased hit l :
  map deactivated (deactivated_users hit l) = map deactivated l.
Proof.
  unfold deactivated_users. rewrite map_map. apply map_ext. intros u.
  destruct (hit u); reflexivity.
Qed.

Lemma deactivated_users_row hit l v :
  In v l ->
  In v (deactivated_users hit l)
  \/ (hit v = true /\ In (deactivated v) (deactivated_users hit l)).
Proof.
  intros Hv. unfold deactivated_users. destruct (hit v) eqn:E.
  - right. split; [reflexivity|]. apply in_map_iff. exists v. now rewrite E.
  - left. apply in_map_iff. exists v. now rewrite E.
Qed.

Lemma deactivated_users_none hit db :
  filter hit (users db) = [] -> set_users (deactivated_users hit (users db)) db = db.
Proof.
  intros H. unfold deactivated_users. rewrite (map_if_none hit deactivated _ H).
  apply set_users_same.
Qed.

(** Once the row of [target] is hit, no active row has that id. *)
Lemma deactivated_target hit l target v0 :
  NoDup (map u_id l) -> In v0 l -> hit v0 = true -> u_id v0 = target ->
  forall u, In u (deactivated_users hit l) -> u_id u = target -> u_is_active u = false.
Proof.
  intros ND H0 Hit Hid u Hu Eu. unfold deactivated_users in Hu.
  apply in_map_iff in Hu as (x & <- & Hx).
  assert (x = v0) as ->.
  { apply (key_unique u_id l); auto.
    destruct (hit x); cbn [deactivated u_id] in Eu; congruence. }
  rewrite Hit. reflexivity.
Qed.

Lemma deactivate_statement_run {A} hit (found missing : Api.Answer A) failure
    f w a w' :
  Api.try_catch
    (result <- statement (deactivate_where hit) ;;
     if nonempty result then ret found else ret missing)
    (fun _ => Api.Refuse 500 failure) f w = (a, w') ->
  (a = Api.Refuse 500 failure /\ w_db w' = w_db w)
  \/ (a = missing /\ filter hit (users (w_db w)) = [] /\ w_db w' = w_db w)
  \/ (a = found
      /\ (exists v rest, filter hit (users (w_db w)) = v :: rest)
      /\ w_db w' = set_users (deactivated_users hit (users (w_db w))) (w_db w)).
Proof.
  unfold Api.try_catch, bind, statement, deactivate_where.
  destruct (f (w_tick w)) as [e|] eqn:F0.
  { intros H; inv H. left. auto. }
  fold (deactivated_users hit (users (w_db w))).
  destruct (filter hit (users (w_db w))) as [|v rest] eqn:Fi; cbn; intros H; inv H;
    cbn [w_db].
  - right. left. split; [reflexivity|]. split; [reflexivity|].
    now apply deactivated_users_none.
  - right. right. eauto.
Qed.

Lemma own_alumni_facts target tenant v :
  own_alumni target tenant v = true ->
  u_id v = target /\ u_role v = alumni
  /\ exists t, tenant = Some t /\ u_university_id v = Some t.
Proof.
  unfold own_alumni. intros H.
  apply andb_true_iff in H as [H R]. apply andb_true_iff in H as [I T].
  apply N.eqb_eq in I. split; [exact I|]. split.
  - destruct (u_role v); try discriminate. reflexivity.
  - unfold sql_eq in T. destruct (u_university_id v) as [x|]; [|discriminate].
    destruct tenant as [t|]; [|discriminate]. apply String.eqb_eq in T. subst.
    eauto.
Qed.

Lemma route_user_delete_run cred target f db a db' :
  Api.serve (route_user_delete cred target) f db = (a, db') ->
  (db' = db /\ exists code d, a = Api.Refuse code d)
  \/ (exists actor adm v rest,
        cred = Verified actor /\ In adm (users db) /\ u_id adm = actor
        /\ u_is_active adm = true /\ (u_role adm = admin \/ u_role adm = superadmin)
        /\ filter (own_alumni target (u_university_id adm)) (users db) = v :: rest
        /\ a = Api.Reply 200 "User deactivated"
        /\ db' = set_users
                   (deactivated_users (own_alumni target (u_university_id adm))
                      (users db)) db).
Proof.
  intros H. unfold Api.serve, route_user_delete in H.
  destruct (admin_route _ _ _ _) as [a0 w0] eqn:E. inv H.
  apply admin_route_inv in E as [[D (d & R)]|(actor & u & rest & -> & F & S & Ro & N)].
  - left. cbn [w_db] in D. split; [exact D|].
    destruct R as [R|[R|R]]; rewrite R; eauto.
  - unfold delete_user in N.
    apply deactivate_statement_run in N as [[-> D]|[(-> & _ & D)|(-> & (v & l & Fi) & D)]];
      cbn [w_db next_tick user] in *.
    + left. eauto.
    + left. eauto.
    + right. pose proof (select_active_user_head _ _ _ _ S) as (Hin & Hid & Act).
      exists actor, u, v, l. auto 10.
Qed.

(** X18. [DELETE /admin/users/:userId] deactivates only alumni of the
    acting admin's own university: any row it changes has the target id,
    the role alumni and the university of the admin, and the only column
    it ever changes is [is_active]. An admin or superadmin without a
    university deactivates nobody. After a success the target's token is
    refused by [authenticate] on every route. *)
Theorem deactivate_user_spec cred target f db a db' :
  Api.serve (route_user_delete cred target) f db = (a, db') ->
  map deactivated (users db') = map deactivated (users db)
  /\ (forall v, In v (users db) ->
      In v (users db')
      \/ (u_id v = target /\ u_role v = alumni
          /\ In (deactivated v) (users db')
          /\ exists actor adm t,
               cred = Verified actor /\ In adm (users db) /\ u_id adm = actor
               /\ (u_role adm = admin \/ u_role adm = superadmin)
               /\ u_university_id adm = Some t /\ u_university_id v = Some t))
  /\ (forall code d, a = Api.Refuse code d -> db' = db)
  /\ (forall m, a = Api.Reply 200 m ->
      (exists v, In v (users db) /\ u_id v = target /\ u_role v = alumni
                 /\ u_university_id v <> None)
      /\ (users_pkey db ->
          forall (next : AuthenticatedRequest -> Api.Route string) f2,
            f2 0 = None ->
            Api.serve (Api.authenticate (Verified target) next) f2 db'
            = (Api.Refuse 401 "User not found or inactive", db'))).
Proof.
  intros H.
  apply route_user_delete_run in H
    as [[-> (code & d & ->)]
       |(actor & adm & v0 & rest & -> & Hadm & Hid & Act & Ro & Fi & -> & ->)].
  - split; [reflexivity|]. split; [auto|]. split; [reflexivity|].
    intros m X. discriminate.
  - cbn [users set_users].
    split; [apply deactivated_users_erased|].
    apply filter_head_in in Fi as [Hv0 Hit0].
    pose proof (own_alumni_facts _ _ _ Hit0) as (Id0 & Ro0 & t0 & Et0 & Eu0).
    split.
    { intros v Hv.
      destruct (deactivated_users_row (own_alumni target (u_university_id adm))
                  (users db) v Hv) as [K|[Hit K]]; [left; exact K|].
      right. apply own_alumni_facts in Hit as (Iv & Rv & t & Et & Eu).
      repeat (split; [assumption|]). exists actor, adm, t. auto 10. }
    split; [intros code d X; discriminate|].
    intros m _. split.
    + exists v0. repeat (split; [assumption|]). rewrite Eu0. discriminate.
    + intros PK next f2 F2. apply authenticate_inactive; [exact F2|].
      cbn [users set_users].
      exact (deactivated_target _ _ target v0 PK Hv0 Hit0 Id0).
Qed.

Lemma is_admin_facts target v :
  is_admin target v = true -> u_id v = target /\ u_role v = admin.
Proof.
  unfold is_admin. intros H. apply andb_true_iff in H as [I R].
  apply N.eqb_eq in I. split; [exact I|]. destruct (u_role v); try discriminate.
  reflexivity.
Qed.

Lemma route_admin_delete_run cred target f db a db' :
  Api.serve (route_admin_delete cred target) f db = (a, db') ->
  (db' = db /\ exists code d, a = Api.Refuse code d)
  \/ (exists actor su v rest,
        cred = Verified actor /\ In su (users db) /\ u_id su = actor
        /\ u_is_active su = true /\ u_role su = superadmin
        /\ filter (is_admin target) (users db) = v :: rest
        /\ a = Api.Reply 200 "Admin deactivated"
        /\ db' = set_users (deactivated_users (is_admin target) (users db)) db).
Proof.
  intros H. unfold Api.serve, route_admin_delete in H.
  destruct (superadmin_route _ _ _ _) as [a0 w0] eqn:E. inv H.
  apply superadmin_route_inv in E as [[D (d & R)]|(actor & u & rest & -> & F & S & Ro & N)].
  - left. cbn [w_db] in D. split; [exact D|].
    destruct R as [R|[R|R]]; rewrite R; eauto.
  - unfold delete_admin in N.
    apply deactivate_statement_run in N as [[-> D]|[(-> & _ & D)|(-> & (v & l & Fi) & D)]];
      cbn [w_db next_tick user] in *.
    + left. eauto.
    + left. eauto.
    + right. pose proof (select_active_user_head _ _ _ _ S) as (Hin & Hid & Act).
      exists actor, u, v, l. auto 10.
Qed.

(** X19. [DELETE /superadmin/admins/:adminId] deactivates, for an active
    superadmin, the account with that id if its role is admin, and no
    other: alumni and superadmins are never touched, and the only column
    changed is [is_active]. After a success the admin's token is refused
    by [authenticate], so no admin route runs for it any more. *)
Theorem deactivate_admin_spec cred target f db a db' :
  Api.serve (route_admin_delete cred target) f db = (a, db') ->
  map deactivated (users db') = map deactivated (users db)
  /\ (forall v, In v (users db) ->
      In v (users db')
      \/ (u_id v = target /\ u_role v = admin /\ In (deactivated v) (users db')
          /\ exists actor su,
               cred = Verified actor /\ In su (users db) /\ u_id su = actor
               /\ u_is_active su = true /\ u_role su = superadmin))
  /\ (forall code d, a = Api.Refuse code d -> db' = db)
  /\ (forall m, a = Api.Reply 200 m ->
      (exists v, In v (users db) /\ u_id v = target /\ u_role v = admin)
      /\ (users_pkey db ->
          forall {A} (handler : AuthenticatedRequest -> Api.Route A) f2,
            f2 0 = None ->
            Api.serve (admin_route (Verified target) handler) f2 db'
            = (Api.Refuse 401 "User not found or inactive", db'))).
Proof.
  intros H.
  apply route_admin_delete_run in H
    as [[-> (code & d & ->)]
       |(actor & su & v0 & rest & -> & Hsu & Hid & Act & Ro & Fi & -> & ->)].
  - split; [reflexivity|]. split; [auto|]. split; [reflexivity|].
    intros m X. discriminate.
  - cbn [users set_users].
    split; [apply deactivated_users_erased|].
    apply filter_head_in in Fi as [Hv0 Hit0].
    pose proof (is_admin_facts _ _ Hit0) as (Id0 & Ro0).
    split.
    { intros v Hv.
      destruct (deactivated_users_row (is_admin target) (users db) v Hv)
        as [K|[Hit K]]; [left; exact K|].
      right. apply is_admin_facts in Hit as (Iv & Rv).
      repeat (split; [assumption|]). exists actor, su. auto 10. }
    split; [intros code d X; discriminate|].
    intros m _. split.
    + exists v0. auto.
    + intros PK A handler f2 F2. unfold admin_route.
      apply authenticate_inactive; [exact F2|].
      cbn [users set_users].
      exact (deactivated_target _ _ target v0 PK Hv0 Hit0 Id0).
Qed.

(** ** Accounts created by an admin *)

Lemma insert_account_run account f w o w' :
  insert_account account f w = (o, w') ->
  (exists m, o = Throw m /\ w_db w' = w_db w)
  \/ (o = Ok tt
      /\ (forall x, In x (users (w_db w)) ->
                    u_id x <> u_id account /\ u_email x <> u_email account)
      /\ w_db w' = after_account account (w_db w)).
Proof.
  unfold insert_account. intros H.
  apply transaction_inv in H as [(m & -> & D)|([] & wc & -> & _ & _ & C & _ & ->)].
  - left. eauto.
  - right. split; [reflexivity|].
    apply bind_inv in C as [(m & _ & ?)|([] & w1 & I & C)]; [discriminate|].
    apply execute_inv in I as [_ [(m & ? & _)|(_ & _ & I)]]; [discriminate|].
    apply execute_inv in C as [_ [(m & ? & _)|(_ & _ & P)]]; [discriminate|].
    cbn [w_db next_tick] in *. apply insert_user_ok in I as (I & FreshId & FreshEm).
    rewrite I in P. apply insert_user_profile_ok in P. split; [auto|].
    rewrite P. reflexivity.
Qed.

Lemma select_user_new account db :
  (forall x, In x (users db) -> u_id x <> u_id account) ->
  select_user (u_id account) (after_account account db) = [account].
Proof.
  intros Fresh. unfold select_user, after_account.
  cbn [users set_users set_user_profiles]. rewrite filter_app.
  replace (filter _ (users db)) with (@nil User).
  - cbn [filter app]. now rewrite N.eqb_refl.
  - symmetry. apply filter_nil_iff. intros x Hx. apply N.eqb_neq. auto.
Qed.

Lemma create_account_run lower enc role failure b year major hash newId req f w a w' :
  create_account lower enc role failure b year major hash newId req f w = (a, w') ->
  ((exists d, a = Api.Refuse 400 d \/ a = Api.Refuse 500 d) /\ w_db w' = w_db w)
  \/ (exists email name,
        ab_email b = Some email /\ ab_name b = Some name
        /\ email <> "" /\ name <> ""
        /\ (forall x, In x (users (w_db w)) ->
                      u_email x <> lower email /\ u_id x <> newId)
        /\ let account :=
             new_account (lower email) (enc email) hash name
               (u_university_id (user req)) year major role newId in
           w_db w' = after_account account (w_db w)
           /\ (a = Api.Refuse 500 failure
               \/ a = Api.Reply 201 (safe_user (account, None)))).
Proof.
  unfold create_account.
  destruct (ab_email b) as [[|c e]|] eqn:Ee;
    try (intros H; inv H; left; eauto; fail).
  destruct (ab_password b) as [[|c1 p]|];
    try (intros H; inv H; left; eauto; fail).
  destruct (ab_name b) as [[|c2 n]|] eqn:En;
    try (intros H; inv H; left; eauto; fail).
  set (account := new_account (lower (String c e)) (enc (String c e)) hash
                    (String c2 n) (u_university_id (user req)) year major role
                    newId).
  intros H. apply api_try_catch_inv in H as [H|(msg & H & ->)].
  - apply bind_inv in H as [(m & _ & ?)|(existing & w1 & Q & H)]; [discriminate|].
    apply query_inv in Q as [-> [(m & ? & _)|[E _]]]; [discriminate|].
    inversion E; subst existing; clear E.
    destruct (nonempty (select_by_email _ _)) eqn:Ex.
    { inv H. left. eauto. }
    apply nonempty_false in Ex.
    apply bind_inv in H as [(m & _ & ?)|([] & w2 & T & H)]; [discriminate|].
    apply insert_account_run in T as [(m & ? & _)|(_ & Fresh & D)]; [discriminate|].
    cbn [w_db next_tick] in *.
    change (u_id account) with newId in Fresh.
    apply bind_inv in H as [(m & _ & ?)|(rows & w3 & Q & H)]; [discriminate|].
    apply query_inv in Q as [-> [(m & ? & _)|[E _]]]; [discriminate|].
    inversion E; subst rows; clear E. rewrite D in H.
    change newId with (u_id account) in H at 1.
    rewrite select_user_new in H by (intros x Hx; exact (proj1 (Fresh x Hx))).
    inv H. right. exists (String c e), (String c2 n).
    repeat (split; [reflexivity || discriminate|]).
    split.
    { intros x Hx. split; [|exact (proj1 (Fresh x Hx))].
      exact (proj1 (select_by_email_nil _ _) Ex x Hx). }
    cbn [w_db next_tick]. split; [first [exact D|rewrite ?D; reflexivity]|].
    right. reflexivity.
  - apply bind_inv in H as [(m & Q & _)|(existing & w1 & Q & H)].
    { left. split; [eauto|]. now apply query_inv in Q as [-> _]. }
    apply query_inv in Q as [-> [(m & ? & _)|[E _]]]; [discriminate|].
    inversion E; subst existing; clear E.
    destruct (nonempty (select_by_email _ _)) eqn:Ex; [inv H|].
    apply nonempty_false in Ex.
    apply bind_inv in H as [(m & T & _)|([] & w2 & T & H)].
    { left. split; [eauto|].
      apply insert_account_run in T as [(m' & _ & D)|(? & _)]; [exact D|discriminate]. }
    apply insert_account_run in T as [(m & ? & _)|(_ & Fresh & D)]; [discriminate|].
    cbn [w_db next_tick] in *.
    change (u_id account) with newId in Fresh.
    right. exists (String c e), (String c2 n).
    repeat (split; [reflexivity || discriminate|]).
    split.
    { intros x Hx. split; [|exact (proj1 (Fresh x Hx))].
      exact (proj1 (select_by_email_nil _ _) Ex x Hx). }
    assert (w_db w' = w_db w2) as ->.
    { apply bind_inv in H as [(m & Q & _)|(rows & w3 & Q & H)].
      - now apply query_inv in Q as [-> _].
      - apply query_inv in Q as [-> _].
        destruct rows; unfold throw, ret in H; inv H. reflexivity. }
    split; [exact D|]. left. reflexivity.
Qed.

Lemma create_account_route lower enc role failure b year major hash newId cred
    f db a db' :
  Api.serve (admin_route cred
               (create_account lower enc role failure b year major hash newId)) f db
  = (a, db') ->
  account_created lower enc role year major failure cred b hash newId db a db'.
Proof.
  intros H. unfold Api.serve in H.
  destruct (admin_route _ _ _ _) as [a0 w0] eqn:E. inv H.
  apply admin_route_inv in E as [[D (d & R)]|(actor & u & rest & -> & F & S & Ro & N)].
  - left. cbn [w_db] in D. split; [exact D|].
    destruct R as [R|[R|R]]; rewrite R; eauto.
  - apply create_account_run in N
      as [[(d & R) D]|(email & name & Ee & En & Ne & Nn & Fresh & D & R)];
      cbn [w_db next_tick user] in *.
    + left. split; [exact D|]. destruct R as [R|R]; rewrite R; eauto.
    + right. pose proof (select_active_user_head _ _ _ _ S) as (Hin & Hid & Act).
      exists actor, u, email, name. cbn zeta. auto 15.
Qed.

Lemma account_created_keys lower enc role year major failure cred b hash newId
    db a db' :
  account_created lower enc role year major failure cred b hash newId db a db' ->
  (users_pkey db -> users_pkey db') /\ (users_email_key db -> users_email_key db').
Proof.
  intros [[-> _]|(actor & adm & email & name & _ & _ & _ & _ & _ & _ & _ & _ & _
                  & Fresh & D & _)]; [auto|].
  rewrite D. unfold users_pkey, users_email_key, after_account.
  cbn [users set_users set_user_profiles]. split; intros K.
  - apply key_snoc; [exact K|]. intros x Hx. exact (proj2 (Fresh x Hx)).
  - apply key_snoc; [exact K|]. intros x Hx. exact (proj1 (Fresh x Hx)).
Qed.

(** X20. An account created by an admin belongs to that admin's
    university. [POST /admin/users] creates an alumni and
    [POST /admin/admins] an admin, never a superadmin, only for an active
    admin or superadmin and only with an e-mail that, as [toLowerCase]
    returns it, is not stored yet, and is stored so;
    the account and its empty profile are committed together or not at
    all, and the primary key of users and the uniqueness of e-mails are
    kept. *)
Theorem admin_creates_in_own_university toLowerCase enc cred b hash newId f db :
  (forall a db',
      Api.serve (route_admin_user toLowerCase enc cred b hash newId) f db = (a, db') ->
      account_created toLowerCase enc alumni (ab_graduation_year b) (ab_major b)
        "Failed to create user" cred b hash newId db a db'
      /\ (users_pkey db -> users_pkey db')
      /\ (users_email_key db -> users_email_key db'))
  /\ (forall a db',
        Api.serve (route_admin_admin toLowerCase enc cred b hash newId) f db
        = (a, db') ->
        account_created toLowerCase enc admin None None
          "Failed to create admin" cred b hash newId db a db'
        /\ (users_pkey db -> users_pkey db')
        /\ (users_email_key db -> users_email_key db')).
Proof.
  split; intros a db' H.
  - unfold route_admin_user, post_admin_user in H.
    apply create_account_route in H. split; [exact H|].
    exact (account_created_keys _ _ _ _ _ _ _ _ _ _ _ _ _ H).
  - unfold route_admin_admin, post_admin_admin in H.
    apply create_account_route in H. split; [exact H|].
    exact (account_created_keys _ _ _ _ _ _ _ _ _ _ _ _ _ H).
Qed.

(** ** Bulk import *)










(** ** The user's own row *)

Lemma updated_users_protected b actor l :
  map user_protected (updated_users b actor l) = map user_protected l.
Proof.
  unfold updated_users. rewrite map_map. apply map_ext. intros u.
  destruct (u_id u =? actor)%N; reflexivity.
Qed.

Lemma in_updated_users_mine b actor l x :
  In x (filter (fun u => (u_id u =? actor)%N) (updated_users b actor l)) ->
  exists u, In u l /\ u_id u = actor /\ x = update_user b u.
Proof.
  intros H. apply filter_In in H as [Hin Hx].
  unfold updated_users in Hin. apply in_map_iff in Hin as (u & E & Hu).
  destruct (u_id u =? actor)%N eqn:Mine.
  - exists u. apply N.eqb_eq in Mine. auto.
  - subst x. congruence.
Qed.

Lemma put_me_run b req f w a w' :
  put_me b req f w = (a, w') ->
  (w_db w' = w_db w
   /\ ((a = Api.Refuse 400 "No fields to update" /\ no_updates b = true)
       \/ a = Api.Refuse 500 "Failed to update user"))
  \/ (no_updates b = false
      /\ w_db w' = set_users (updated_users b (userId req) (users (w_db w))) (w_db w)
      /\ ((a = Api.Refuse 404 "User not found"
           /\ forall u, In u (users (w_db w)) -> u_id u <> userId req)
          \/ (exists u, In u (users (w_db w)) /\ u_id u = userId req
                /\ a = Api.Reply 200 (safe_user (update_user b u, None))))).
Proof.
  unfold put_me, Api.try_catch.
  destruct (no_updates b) eqn:No.
  { intros H; inv H. left. auto. }
  unfold bind, statement, update_me.
  destruct (f (w_tick w)) as [e|] eqn:F0.
  { intros H; inv H. left. auto. }
  destruct (filter _ (updated_users b (userId req) (users (w_db w))))
    as [|x rest] eqn:Fi; unfold ret; intros H; inv H; right;
    (split; [reflexivity|]); (split; [reflexivity|]).
  - left. split; [reflexivity|]. intros u Hu E.
    assert (In (update_user b u)
              (filter (fun u => (u_id u =? userId req)%N)
                 (updated_users b (userId req) (users (w_db w))))) as X.
    { apply filter_In. split.
      - unfold updated_users. apply in_map_iff. exists u.
        rewrite E, N.eqb_refl. auto.
      - cbn [update_user u_id]. rewrite E. apply N.eqb_refl. }
    rewrite Fi in X. destruct X.
  - right. assert (In x (x :: rest)) as X by now left.
    rewrite <- Fi in X. apply in_updated_users_mine in X as (u & Hu & E & ->).
    exists u. auto.
Qed.

(** X23. [PUT /users/me] rewrites only the row of the authenticated
    actor and only its name, avatar, graduation year, major and mentor
    flag: id, e-mail, password hash, university, role and active flag of
    every user are left as they were, and no other table is written (a
    mentor flag set here creates no mentor row). A body without any of
    the five fields is refused and changes nothing. *)
Theorem user_update_spec cred b f db a db' :
  Api.serve (route_me_update cred b) f db = (a, db') ->
  map user_protected (users db') = map user_protected (users db)
  /\ (db' = db
      \/ exists actor,
           cred = Verified actor
           /\ db' = set_users (updated_users b actor (users db)) db)
  /\ (forall v actor,
        In v (users db) -> cred = Verified actor -> u_id v <> actor ->
        In v (users db'))
  /\ (no_updates b = true -> db' = db /\ exists code d, a = Api.Refuse code d)
  /\ (forall su, a = Api.Reply 200 su ->
      exists actor u,
        cred = Verified actor /\ In u (users db) /\ u_id u = actor
        /\ su = safe_user (update_user b u, None)
        /\ su_role su = u_role u /\ su_email su = u_email u
        /\ su_university_id su = u_university_id u).
Proof.
  intros H. unfold Api.serve, route_me_update in H.
  destruct (Api.authenticate _ _ _ _) as [a0 w0] eqn:Au. inv H.
  apply api_authenticate_inv in Au
    as [[D (d & R)]|(id & u & rest & -> & F & S & N)].
  - cbn [w_db] in D. rewrite D. split; [reflexivity|]. split; [left; reflexivity|].
    split; [auto|]. split.
    + intros _. split; [reflexivity|]. destruct R as [R|R]; rewrite R; eauto.
    + intros su X. destruct R as [R|R]; rewrite R in X; discriminate.
  - apply put_me_run in N as [[D R]|(No & D & R)]; cbn [w_db next_tick userId] in *;
      rewrite D.
    + split; [reflexivity|]. split; [left; reflexivity|]. split; [auto|]. split.
      * intros _. split; [reflexivity|]. destruct R as [[R _]|R]; rewrite R; eauto.
      * intros su X. destruct R as [[R _]|R]; rewrite R in X; discriminate.
    + cbn [users set_users].
      split; [apply updated_users_protected|].
      split; [right; exists id; auto|].
      split.
      { intros v actor Hv E Ne. inversion E; subst actor.
        unfold updated_users. apply in_map_iff. exists v.
        apply N.eqb_neq in Ne. rewrite Ne. auto. }
      split; [intros X; congruence|].
      intros su X. destruct R as [[R _]|(v & Hv & Ev & R)]; rewrite R in X;
        [discriminate|].
      inversion X; subst su. exists id, v. repeat split; auto.
Qed.

(** ** Becoming and ceasing to be a mentor *)









(** ** routes/notifications.ts *)

Lemma mark_all_read_none A l :
  filter (fun n => (n_user_id n =? A)%N && negb (n_is_read n))
         (map (fun n => if (n_user_id n =? A)%N then read n else n) l) = [].
Proof.
  apply filter_nil_iff. intros x Hx. apply in_map_iff in Hx as (n & <- & _).
  destruct (n_user_id n =? A)%N eqn:E.
  - cbn [read n_user_id n_is_read negb]. apply andb_false_r.
  - rewrite E. reflexivity.
Qed.

Lemma mark_all_read_others A B l :
  B <> A ->
  filter (fun n => (n_user_id n =? B)%N)
         (map (fun n => if (n_user_id n =? A)%N then read n else n) l)
  = filter (fun n => (n_user_id n =? B)%N) l.
Proof.
  intros Ne. induction l as [|n l IH]; [reflexivity|].
  cbn [map filter]. rewrite IH.
  destruct (n_user_id n =? A)%N eqn:E; [|reflexivity].
  cbn [read n_user_id].
  assert ((n_user_id n =? B)%N = false) as F
    by (apply N.eqb_neq; apply N.eqb_eq in E; congruence).
  rewrite F. reflexivity.
Qed.

Lemma put_read_all_run req f w r w' :
  put_read_all req f w = (r, w') ->
  (res_status r = 500 /\ w_db w' = w_db w)
  \/ (r = json 200 (Success "All notifications marked as read")
      /\ f (w_tick w) = None
      /\ w_db w'
         = set_notifications
             (map (fun n => if (n_user_id n =? userId req)%N then read n else n)
                  (notifications (w_db w))) (w_db w)).
Proof.
  unfold put_read_all. intros H.
  apply try_catch_inv in H as [H|(m & H & ->)];
    apply bind_inv in H as [(msg & H & E)|(a & w1 & H & K)].
  - discriminate.
  - apply execute_inv in H as [_ [(m & X & _)|(_ & F & W)]]; [discriminate|].
    unfold ret in K. inversion K; subst r w1. right.
    unfold mark_all_read in W. inversion W as [W']. auto.
  - apply execute_inv in H as [_ [(m' & _ & D)|(X & _)]]; [|discriminate].
    left. split; [reflexivity|exact D].
  - unfold ret in K. discriminate.
Qed.

Lemma route_unread_count_run cred f db a db' :
  Api.serve (route_unread_count cred) f db = (a, db') ->
  db' = db
  /\ ((exists d, a = Api.Refuse 401 d \/ a = Api.Refuse 500 d)
      \/ (exists A u rest,
            cred = Verified A /\ select_active_user A db = u :: rest
            /\ f 0 = None /\ f 1 = None
            /\ a = Api.Reply 200 (unread A db))).
Proof.
  unfold Api.serve, route_unread_count. intros H.
  destruct (Api.authenticate _ _ _ _) as [a0 w0] eqn:Au.
  inversion H; subst a db'; clear H.
  apply api_authenticate_inv in Au
    as [(D & d & S)|(id & u & rest & -> & F0 & S & Hn)].
  - split; [exact D|]. left. eauto.
  - cbn [w_db w_tick] in *.
    unfold get_unread_count in Hn.
    apply api_try_catch_inv in Hn as [Hn|(m & Hn & ->)];
      apply bind_inv in Hn as [(msg & Q & E)|(rows & w1 & Q & K)].
    + discriminate.
    + apply query_inv in Q as [-> [(m & X & _)|[E F1]]]; [discriminate|].
      inversion E; subst rows. unfold ret in K. inversion K; subst a0 w0.
      cbn [w_db next_tick w_tick] in *. split; [reflexivity|].
      right. exists id, u, rest. repeat split; auto.
    + apply query_inv in Q as [-> _]. cbn [w_db next_tick].
      split; [reflexivity|]. left. eauto.
    + unfold ret in K. discriminate.
Qed.

Lemma route_unread_count_ok A f db u rest :
  select_active_user A db = u :: rest -> f 0 = None -> f 1 = None ->
  Api.serve (route_unread_count (Verified A)) f db
  = (Api.Reply 200 (unread A db), db).
Proof.
  intros S F0 F1. unfold Api.serve, route_unread_count.
  rewrite (api_authenticate_ok A _ f {| w_db := db; w_tick := 0 |} u rest F0 S).
  unfold get_unread_count, Api.try_catch, bind, query, statement.
  cbn [w_db w_tick next_tick]. rewrite F1. reflexivity.
Qed.

(** X24. [PUT /notifications/read-all] answers 500 or 401 and changes
    nothing, or answers with success: the caller then has no unread
    notification, no notification is deleted, those of the other users
    are as they were, and [GET /notifications/unread-count] of the
    caller, when its two statements run, replies 0. *)
Theorem read_all_spec cred f db r db' :
  serve (route_read_all cred) f db = (r, db') ->
  ((res_status r = 401 \/ res_status r = 500) /\ db' = db)
  \/ (exists A,
        cred = Verified A
        /\ r = json 200 (Success "All notifications marked as read")
        /\ unread A db' = 0%nat
        /\ List.length (notifications db') = List.length (notifications db)
        /\ (forall B, B <> A ->
              filter (fun n => (n_user_id n =? B)%N) (notifications db')
              = filter (fun n => (n_user_id n =? B)%N) (notifications db))
        /\ users db' = users db
        /\ forall g, g 0 = None -> g 1 = None ->
             Api.serve (route_unread_count cred) g db' = (Api.Reply 200 0%nat, db')).
Proof.
  unfold serve, route_read_all. intros H.
  through_authenticate H Au.
  apply authenticate_inv in Au as [(D & S & _)|(id & u & rest & -> & F0 & S & Hn)].
  - left. split; [exact S|exact D].
  - apply put_read_all_run in Hn as [[S5 D]|(-> & F1 & D)];
      cbn [w_db w_tick next_tick userId] in *.
    + left. split; [right; exact S5|exact D].
    + right. exists id. rewrite D.
      assert (unread id
                (set_notifications
                   (map (fun n => if (n_user_id n =? id)%N then read n else n)
                        (notifications db)) db) = 0%nat) as U.
      { unfold unread. cbn [notifications set_notifications].
        rewrite mark_all_read_none. reflexivity. }
      split; [reflexivity|]. split; [reflexivity|]. split; [exact U|].
      cbn [notifications set_notifications users].
      split; [apply length_map|].
      split; [intros B Ne; apply mark_all_read_others; exact Ne|].
      split; [reflexivity|].
      intros g G0 G1.
      pose proof (route_unread_count_ok id g
                    (set_notifications
                       (map (fun n => if (n_user_id n =? id)%N then read n else n)
                            (notifications db)) db) u rest S G0 G1) as R.
      rewrite U in R. exact R.
Qed.

Lemma unread_app A l rows db :
  notifications db = l ->
  unread A (set_notifications (l ++ rows) db)
  = (unread A db
     + List.length (filter (fun n => (n_user_id n =? A)%N && negb (n_is_read n)) rows))%nat.
Proof.
  intros <-. unfold unread. cbn [notifications set_notifications].
  rewrite filter_app, length_app. reflexivity.
Qed.

(** X25. A connection request that is answered with success adds one
    unread notification for the recipient and none for anybody else, and
    [GET /notifications/unread-count] of the recipient then replies with
    the count it had before plus one, or refuses; it never writes. *)
Theorem send_request_raises_unread cred to rid f db r db' :
  users_pkey db ->
  serve (route_send cred to rid) f db = (r, db') ->
  res_status r = 200 ->
  exists A text,
    let B := parsed text in
    cred = Verified A /\ to = Some text
    /\ unread B db' = S (unread B db)
    /\ (forall C, C <> B -> unread C db' = unread C db)
    /\ forall g a db'',
         Api.serve (route_unread_count (Verified B)) g db' = (a, db'') ->
         db'' = db'
         /\ forall n, a = Api.Reply 200 n -> n = S (unread B db).
Proof.
  intros PK H S2. apply route_send_run in H
    as [[N _]|(A & text & u & rest & -> & -> & Ne & Su & _ & _ & _ & _ & _ & _
               & [(-> & _)|(-> & _ & ->)])]; [contradiction|discriminate|].
  exists A, text. set (B := parsed text). cbv zeta.
  split; [reflexivity|]. split; [reflexivity|].
  apply select_active_user_head in Su as Hu.
  assert (filter (fun x => (u_id x =? A)%N) (users db) = [u]) as Fu.
  { destruct Hu as (Hin & Hid & _). rewrite <- Hid. apply filter_pkey; assumption. }
  assert (forall C,
            unread C (after_send rid A B (u_name u) db)
            = (unread C db + if (B =? C)%N then 1 else 0)%nat) as U.
  { intros C. unfold after_send.
    rewrite (unread_app C (notifications db)) by reflexivity.
    unfold connection_request_rows. rewrite Fu. cbn [map filter n_user_id n_is_read negb].
    unfold unread, after_request_insert. cbn [notifications set_connection_requests].
    destruct (B =? C)%N; reflexivity. }
  split; [rewrite U, N.eqb_refl; lia|].
  split.
  { intros C NC. rewrite U. apply not_eq_sym in NC. apply N.eqb_neq in NC.
    rewrite NC. lia. }
  intros g a db'' L. apply route_unread_count_run in L as [D L].
  split; [exact D|]. intros n E.
  destruct L as [(d & [X|X])|(A' & u' & rest' & E' & _ & _ & _ & X)];
    try (rewrite X in E; discriminate).
  inversion E'; subst A'. rewrite X in E. inversion E. rewrite U, N.eqb_refl. lia.
Qed.

(** ** formatTime *)

(** X26. [formatTime] by the age [now - date] in milliseconds: under a
    minute (a date in the future included) it is 'Just now'; under an hour
    the whole minutes, from 1 to 59; under a day the whole hours, from 1 to
    23; under a week the whole days, from 1 to 6; from a week on the date
    itself. *)
Theorem formatTime_buckets (toLocaleDateString : Z -> string) (now date : Z) :
  let age := (now - date)%Z in
  ((age < 60000)%Z -> formatTime toLocaleDateString now date = "Just now")
  /\ ((60000 <= age < 3600000)%Z ->
      formatTime toLocaleDateString now date
      = (decimal (age / 60000) ++ "m ago")%string
      /\ (1 <= age / 60000 <= 59)%Z)
  /\ ((3600000 <= age < 86400000)%Z ->
      formatTime toLocaleDateString now date
      = (decimal (age / 3600000) ++ "h ago")%string
      /\ (1 <= age / 3600000 <= 23)%Z)
  /\ ((86400000 <= age < 604800000)%Z ->
      formatTime toLocaleDateString now date
      = (decimal (age / 86400000) ++ "d ago")%string
      /\ (1 <= age / 86400000 <= 6)%Z)
  /\ ((604800000 <= age)%Z ->
      formatTime toLocaleDateString now date = toLocaleDateString date).
Proof.
  intros age. unfold formatTime. fold age.
  assert (age / 60000 / 60 = age / 3600000)%Z as Eh
    by (rewrite Z.div_div by lia; reflexivity).
  assert (age / 60000 / 60 / 24 = age / 86400000)%Z as Ed
    by (rewrite Eh, Z.div_div by lia; reflexivity).
  rewrite Ed, Eh.
  split; [|split; [|split; [|split]]]; intros R.
  - assert (age / 60000 < 1)%Z as L by (apply Z.div_lt_upper_bound; lia).
    apply Z.ltb_lt in L. rewrite L. reflexivity.
  - assert (1 <= age / 60000)%Z as L1 by (apply Z.div_le_lower_bound; lia).
    assert (age / 60000 < 60)%Z as L2 by (apply Z.div_lt_upper_bound; lia).
    split; [|lia].
    apply Z.ltb_ge in L1. apply Z.ltb_lt in L2. rewrite L1, L2. reflexivity.
  - assert (60 <= age / 60000)%Z as L1 by (apply Z.div_le_lower_bound; lia).
    assert (1 <= age / 3600000)%Z as L0 by (apply Z.div_le_lower_bound; lia).
    assert (age / 3600000 < 24)%Z as L2 by (apply Z.div_lt_upper_bound; lia).
    split; [|lia].
    assert ((age / 60000 <? 1) = false)%Z as K1 by (apply Z.ltb_ge; lia).
    assert ((age / 60000 <? 60) = false)%Z as K2 by (apply Z.ltb_ge; lia).
    apply Z.ltb_lt in L2. rewrite K1, K2, L2. reflexivity.
  - assert (60 <= age / 60000)%Z as L1 by (apply Z.div_le_lower_bound; lia).
    assert (24 <= age / 3600000)%Z as L2 by (apply Z.div_le_lower_bound; lia).
    assert (1 <= age / 86400000)%Z as L0 by (apply Z.div_le_lower_bound; lia).
    assert (age / 86400000 < 7)%Z as L3 by (apply Z.div_lt_upper_bound; lia).
    split; [|lia].
    assert ((age / 60000 <? 1) = false)%Z as K1 by (apply Z.ltb_ge; lia).
    assert ((age / 60000 <? 60) = false)%Z as K2 by (apply Z.ltb_ge; lia).
    assert ((age / 3600000 <? 24) = false)%Z as K3 by (apply Z.ltb_ge; lia).
    apply Z.ltb_lt in L3. rewrite K1, K2, K3, L3. reflexivity.
  - assert (60 <= age / 60000)%Z as L1 by (apply Z.div_le_lower_bound; lia).
    assert (24 <= age / 3600000)%Z as L2 by (apply Z.div_le_lower_bound; lia).
    assert (7 <= age / 86400000)%Z as L3 by (apply Z.div_le_lower_bound; lia).
    assert ((age / 60000 <? 1) = false)%Z as K1 by (apply Z.ltb_ge; lia).
    assert ((age / 60000 <? 60) = false)%Z as K2 by (apply Z.ltb_ge; lia).
    assert ((age / 3600000 <? 24) = false)%Z as K3 by (apply Z.ltb_ge; lia).
    assert ((age / 86400000 <? 7) = false)%Z as K4 by (apply Z.ltb_ge; lia).
    rewrite K1, K2, K3, K4. reflexivity.
Qed.

(** ** Route tables *)

Ltac route_cases H :=
  repeat match type of H with
         | context [String.eqb ?a ?b] =>
             let E := fresh "E" in destruct (String.eqb a b) eqn:E
         end.

(** An empty segment is no literal. *)
Ltac empty_segment :=
  match goal with
  | E : String.eqb ?s EmptyString = true |- _ =>
      apply String.eqb_eq in E; subst s;
      match goal with
      | L : String.eqb (lower_ascii_text EmptyString) _ = true |- _ =>
          vm_compute in L; discriminate L
      end
  end.

Ltac dispatched H :=
  cbn [dispatch match_path on reg_method reg_path reg_handler Method_eqb option_map] in H;
  route_cases H;
  cbn [option_map] in H;
  try discriminate H;
  try empty_segment.

Lemma lower_not_empty s t :
  (lower_ascii_text s =? t)%string = true -> t <> EmptyString -> (s =? "")%string = false.
Proof.
  intros E Ne. destruct s; [|reflexivity].
  apply String.eqb_eq in E. cbn [lower_ascii_text] in E. congruence.
Qed.

(** X27. Routes registered behind a one-segment parameter route of the
    same method are never reached: whatever the method and the path, the
    mentors router never hands a request to the handlers of [GET /me],
    [GET /my-requests] and [GET /incoming-requests], the notifications
    router never to that of [DELETE /clear-all], the users router never to
    those of [GET /search] and [GET /locations], the universities router
    never to that of [GET /ads]; such a request goes to the parameter
    route, with the literal as the identifier. *)
Theorem shadowed_routes :
  (forall m path h params,
      dispatch mentors_router m path = Some (h, params) ->
      h <> GetMyMentor /\ h <> MyRequests /\ h <> IncomingRequests)
  /\ (forall m path h params,
        dispatch notifications_router m path = Some (h, params) -> h <> ClearAll)
  /\ (forall m path h params,
        dispatch users_router m path = Some (h, params) ->
        h <> SearchUsers /\ h <> Locations)
  /\ (forall m path h params,
        dispatch universities_router m path = Some (h, params) -> h <> GetAds)
  /\ (forall s, s <> EmptyString ->
        dispatch mentors_router GET [s] = Some (GetMentor, [("mentorId", s)])
        /\ dispatch notifications_router DELETE [s]
           = Some (DeleteNotification, [("notificationId", s)])
        /\ dispatch universities_router GET [s]
           = Some (GetUniversity, [("universityId", s)])
        /\ ((lower_ascii_text s =? "me")%string = false ->
            dispatch users_router GET [s] = Some (GetUser, [("userId", s)]))).
Proof.
  split; [|split; [|split; [|split; [|]]]].
  - intros m path h params H. unfold mentors_router in H.
    destruct m; destruct path as [|s1 [|s2 [|s3 [|s4 rest]]]];
      dispatched H; inversion H; repeat split; discriminate.
  - intros m path h params H. unfold notifications_router in H.
    destruct m; destruct path as [|s1 [|s2 [|s3 [|s4 rest]]]];
      dispatched H; inversion H; discriminate.
  - intros m path h params H. unfold users_router in H.
    destruct m; destruct path as [|s1 [|s2 [|s3 [|s4 rest]]]];
      dispatched H; inversion H; repeat split; discriminate.
  - intros m path h params H. unfold universities_router in H.
    destruct m; destruct path as [|s1 [|s2 [|s3 [|s4 rest]]]];
      dispatched H; inversion H; discriminate.
  - intros s Ne. apply String.eqb_neq in Ne.
    unfold mentors_router, notifications_router, universities_router, users_router.
    cbn [dispatch match_path on reg_method reg_path reg_handler Method_eqb option_map].
    rewrite Ne. cbn [option_map]. repeat split.
    intros E. change (lower_ascii_text "me") with "me"%string. rewrite E. reflexivity.
Qed.

(** * Scenarios *)

(** Ann asks Bob, Bob accepts: each sees the other connected, and Ann
    has her notification. *)
Example scenario_connection :
  fst (serve (route_check (Verified 1%N) 2%N) no_faults Sample.campus_connected)
  = json 200 (CheckResult true None)
  /\ fst (serve (route_check (Verified 2%N) 1%N) no_faults Sample.campus_connected)
     = json 200 (CheckResult true None)
  /\ map (fun n => (n_user_id n, n_type n)) (notifications Sample.campus_connected)
     = [(2%N, "connection_request"); (1%N, "connection_accepted")].
Proof. repeat split. Qed.

(** Nobody but Bob can accept Ann's request, and Bob only once. *)
Example scenario_accept_once :
  fst (serve (route_accept (Verified 1%N) 100%N 200%N) no_faults Sample.campus_pending)
  = json 400 (Detail "Request not found or already processed")
  /\ fst (serve (route_accept (Verified 2%N) 100%N 201%N) no_faults
            Sample.campus_connected)
     = json 400 (Detail "Request not found or already processed").
Proof. split; reflexivity. Qed.

(** After Bob's rejection neither of them can ask again. *)
Example scenario_rejected_for_good :
  fst (serve (route_send (Verified 1%N) (Some (printed 2%N)) 101%N) no_faults
         Sample.campus_rejected)
  = json 400 (Detail "Request already exists")
  /\ fst (serve (route_send (Verified 2%N) (Some (printed 1%N)) 101%N) no_faults
            Sample.campus_rejected)
     = json 400 (Detail "Request already exists")
  /\ fst (serve (route_send (Verified 1%N) (Some (printed 1%N)) 101%N) no_faults
            Sample.campus)
     = json 400 (Detail "Cannot connect to yourself").
Proof. repeat split. Qed.

(** Ann names herself as the target: refused when her identifier is
    spelled as the server prints it, stored when it is spelled
    otherwise. *)
Example scenario_self_request :
  fst (serve (route_send (Verified 1%N) (Some (printed 1%N)) 101%N) no_faults
         Sample.campus)
  = json 400 (Detail "Cannot connect to yourself")
  /\ serve (route_send (Verified 1%N) (Some Sample.ann_unhyphenated) 101%N) no_faults
       Sample.campus
     = (json 200 (Success "Connection request sent"),
        after_send 101%N 1%N 1%N "Ann" Sample.campus).
Proof. split; reflexivity. Qed.

(** Ann asks Dave to be her mentor and Dave accepts: his counter goes
    from 0 to 1, and a second accept finds nothing to accept; Dave
    cannot ask himself. *)
Example scenario_mentorship :
  let asked :=
    snd (serve (route_mentorship_request (Verified 1%N) 40%N None 500%N)
           no_faults Tenants.db) in
  let accepted :=
    snd (serve (route_mentorship_accept (Verified 4%N) 500%N) no_faults asked) in
  mentees_count 40%N asked = Some 0%Z
  /\ mentees_count 40%N accepted = Some 1%Z
  /\ fst (serve (route_mentorship_accept (Verified 4%N) 500%N) no_faults accepted)
     = json 400 (Detail "Request not found or already processed")
  /\ fst (serve (route_mentorship_request (Verified 4%N) 40%N None 501%N)
            no_faults Tenants.db)
     = json 400 (Detail "Cannot request mentorship from yourself").
Proof. repeat split. Qed.

(** * The theorems at work on the sample data *)

Lemma campus_users_pkey : users_pkey Sample.campus.
Proof.
  unfold users_pkey. simpl. repeat constructor; simpl; intuition discriminate.
Defined.

Lemma tenants_users_pkey : users_pkey Tenants.db.
Proof.
  unfold users_pkey. simpl. repeat constructor; simpl; intuition discriminate.
Defined.

Lemma campus_engine_inv : engine_inv Sample.campus.
Proof.
  apply engine_inv_empty; reflexivity.
Defined.

(** Bob accepts Ann's pending request. *)
Lemma accept_request_spec_witness :
  users_pkey Sample.campus_pending
  /\ serve (route_accept (Verified 2%N) 100%N 200%N) no_faults Sample.campus_pending
     = (Sample.request_accepted,
        after_accept (new_request 100%N 1%N 2%N) 200%N 2%N Sample.campus_pending)
  /\ (res_status Sample.request_accepted = 200 ->
      exists actor R n,
        Verified 2%N = Verified actor
        /\ In R (connection_requests Sample.campus_pending)
        /\ cr_id R = 100%N /\ cr_status R = pending /\ cr_to_user_id R = actor
        /\ connection_requests
             (after_accept (new_request 100%N 1%N 2%N) 200%N 2%N Sample.campus_pending)
           = with_status accepted 100%N (connection_requests Sample.campus_pending)
        /\ connections
             (after_accept (new_request 100%N 1%N 2%N) 200%N 2%N Sample.campus_pending)
           = connections Sample.campus_pending
             ++ [{| c_id := 200%N; c_user_id := cr_from_user_id R;
                    c_connected_user_id := cr_to_user_id R |}]
        /\ notifications
             (after_accept (new_request 100%N 1%N 2%N) 200%N 2%N Sample.campus_pending)
           = notifications Sample.campus_pending ++ [n]
        /\ n_user_id n = cr_from_user_id R
        /\ n_type n = "connection_accepted"
        /\ after_accept (new_request 100%N 1%N 2%N) 200%N 2%N Sample.campus_pending
           = after_accept R 200%N actor Sample.campus_pending
        /\ forall cred2 connId2 f2 r2 db2,
             serve (route_accept cred2 100%N connId2) f2
                   (after_accept (new_request 100%N 1%N 2%N) 200%N 2%N
                      Sample.campus_pending)
             = (r2, db2) ->
             db2 = after_accept (new_request 100%N 1%N 2%N) 200%N 2%N
                     Sample.campus_pending
             /\ res_status r2 <> 200
             /\ ((forall k, f2 k = None) -> cred2 = Verified 2%N ->
                 r2 = json 400 (Detail "Request not found or already processed"))).
Proof.
  assert (users_pkey Sample.campus_pending) as PK by exact campus_users_pkey.
  split; [exact PK|]. split; [reflexivity|].
  exact (proj2 (accept_request_spec (Verified 2%N) 100%N 200%N no_faults
                  Sample.campus_pending Sample.request_accepted
                  (after_accept (new_request 100%N 1%N 2%N) 200%N 2%N
                     Sample.campus_pending)
                  PK eq_refl)).
Defined.

(** Ann's request to Bob goes through; the pair is then closed. *)
Lemma no_duplicate_live_requests_witness :
  serve (route_send (Verified 1%N) (Some (printed 2%N)) 100%N) no_faults Sample.campus
  = (Sample.request_sent, after_send 100%N 1%N 2%N "Ann" Sample.campus)
  /\ res_status Sample.request_sent = 200
  /\ In (new_request 100%N 1%N 2%N)
        (connection_requests (after_send 100%N 1%N 2%N "Ann" Sample.campus)).
Proof.
  split; [reflexivity|]. split; [reflexivity|].
  exact (proj1 (no_duplicate_live_requests 1%N (printed 2%N) 100%N no_faults
                  Sample.campus Sample.request_sent
                  (after_send 100%N 1%N 2%N "Ann" Sample.campus) eq_refl eq_refl)).
Defined.


(** After Ann asked and Bob accepted, both see each other connected. *)
Lemma connection_symmetry_witness :
  engine_inv Sample.campus
  /\ (exists c, In c (connections (run Sample.ann_then_bob Sample.campus))
                /\ connects 1%N 2%N c = true)
  /\ fst (serve (route_check (Verified 1%N) 2%N) no_faults
            (run Sample.ann_then_bob Sample.campus))
     = json 200 (CheckResult true None)
  /\ fst (serve (route_check (Verified 2%N) 1%N) no_faults
            (run Sample.ann_then_bob Sample.campus))
     = json 200 (CheckResult true None)
  /\ List.length (select_connections 1%N 2%N (run Sample.ann_then_bob Sample.campus))
     = 1%nat.
Proof.
  assert (exists c, In c (connections (run Sample.ann_then_bob Sample.campus))
                    /\ connects 1%N 2%N c = true) as Hc.
  { exists {| c_id := 200%N; c_user_id := 1%N; c_connected_user_id := 2%N |}.
    split; [left; reflexivity|reflexivity]. }
  split; [exact campus_engine_inv|]. split; [exact Hc|].
  destruct (connection_symmetry Sample.campus Sample.ann_then_bob 1%N 2%N
              campus_engine_inv Hc) as (HA & HB & L & _).
  split; [|split; [|exact L]].
  - apply HA; [reflexivity|reflexivity|]. vm_compute. discriminate.
  - apply HB; [reflexivity|reflexivity|]. vm_compute. discriminate.
Defined.

(** The schema refuses a second row from Ann to Bob and takes one from
    Bob to Ann. *)
Lemma storage_uniqueness_witness :
  (exists message,
      insert_connection
        {| c_id := 201%N; c_user_id := 1%N; c_connected_user_id := 2%N |}
        Sample.campus_connected = Throw message)
  /\ insert_connection
       {| c_id := 201%N; c_user_id := 2%N; c_connected_user_id := 1%N |}
       Sample.campus_connected
     = Ok (set_connections
             (connections Sample.campus_connected
              ++ [{| c_id := 201%N; c_user_id := 2%N; c_connected_user_id := 1%N |}])
             Sample.campus_connected).
Proof.
  destruct (storage_uniqueness Sample.campus_connected)
    as (_ & Dup & _ & _ & _ & Fresh & _).
  split.
  - apply (Dup {| c_id := 201%N; c_user_id := 1%N; c_connected_user_id := 2%N |}
               {| c_id := 200%N; c_user_id := 1%N; c_connected_user_id := 2%N |});
      [left; reflexivity|reflexivity|reflexivity].
  - apply Fresh; [|reflexivity|reflexivity].
    intros x [<-|[]]. simpl. split; [discriminate|]. intros [E _]. discriminate.
Defined.

(** Dave accepts one request and rejects the other: one mentee more;
    had he accepted both, two more. *)
Lemma mentees_count_accepts_witness :
  mentees_count 40%N Tenants.mentoring = Some 0%Z
  /\ accepted_for 40%N Tenants.dave_answers Tenants.mentoring = 1%nat
  /\ mentees_count 40%N (run_mentorship Tenants.dave_answers Tenants.mentoring)
     = Some (0 + Z.of_nat (accepted_for 40%N Tenants.dave_answers Tenants.mentoring))%Z
  /\ all_accepted 40%N Tenants.dave_accepts_both Tenants.mentoring
  /\ NoDup (map (fun c => request_of (fst c)) Tenants.dave_accepts_both)
  /\ mentees_count 40%N (run_mentorship Tenants.dave_accepts_both Tenants.mentoring)
     = Some (0 + Z.of_nat (List.length Tenants.dave_accepts_both))%Z.
Proof.
  assert (all_accepted 40%N Tenants.dave_accepts_both Tenants.mentoring) as All
      by (simpl; repeat split; reflexivity).
  split; [reflexivity|]. split; [reflexivity|].
  split.
  - exact (proj1 (mentees_count_accepts 40%N Tenants.dave_answers Tenants.mentoring
                    0%Z eq_refl)).
  - split; [exact All|].
    exact (proj1 (proj2 (mentees_count_accepts 40%N Tenants.dave_accepts_both
                           Tenants.mentoring 0%Z eq_refl)) All).
Defined.


(** Ann asks about Bob after he rejected her request. *)
Lemma check_status_cases_witness :
  select_active_user 1%N Sample.campus_rejected <> []
  /\ no_faults 0%nat = None /\ no_faults 1%nat = None
  /\ serve (route_check (Verified 1%N) 2%N) no_faults Sample.campus_rejected
     = (json 200 (CheckResult false (Some rejected)), Sample.campus_rejected)
  /\ (((exists c, In c (connections Sample.campus_rejected)
                  /\ connects 1%N 2%N c = true)
       /\ json 200 (CheckResult false (Some rejected))
          = json 200 (CheckResult true None))
      \/ ((forall c, In c (connections Sample.campus_rejected) ->
                     connects 1%N 2%N c = false)
          /\ (no_faults 2%nat <> None ->
              json 200 (CheckResult false (Some rejected))
              = json 500 (Detail "Failed to check connection"))
          /\ (no_faults 2%nat = None ->
              (exists q rest,
                  select_requests 1%N 2%N Sample.campus_rejected = q :: rest
                  /\ In q (connection_requests Sample.campus_rejected)
                  /\ requested 1%N 2%N q = true
                  /\ json 200 (CheckResult false (Some rejected))
                     = json 200 (CheckResult false (Some (cr_status q))))
              \/ ((forall q, In q (connection_requests Sample.campus_rejected) ->
                             requested 1%N 2%N q = false)
                  /\ json 200 (CheckResult false (Some rejected))
                     = json 200 (CheckResult false None))))).
Proof.
  assert (select_active_user 1%N Sample.campus_rejected <> []) as Act
      by (vm_compute; discriminate).
  split; [exact Act|]. split; [reflexivity|]. split; [reflexivity|].
  split; [reflexivity|].
  exact (proj2 (check_status_cases 1%N 2%N no_faults Sample.campus_rejected
                  (json 200 (CheckResult false (Some rejected)))
                  Sample.campus_rejected Act eq_refl eq_refl eq_refl)).
Defined.



(** Ann is suggested Bob, an active alumnus. *)
Lemma suggestions_only_active_alumni_witness :
  users_pkey Sample.campus
  /\ serve (route_suggestions (Verified 1%N) None (fun _ => 0%Z) (fun i => N.of_nat i))
           no_faults Sample.campus
     = (json 200 (ConnectionList [Sample.item_of_bob] 1), Sample.campus)
  /\ In Sample.item_of_bob [Sample.item_of_bob]
  /\ (exists u, In u (users Sample.campus)
                /\ u_id u = cu_id (ci_user Sample.item_of_bob)
                /\ u_is_active u = true /\ u_role u = alumni).
Proof.
  split; [exact campus_users_pkey|]. split; [reflexivity|].
  split; [left; reflexivity|].
  exact (proj1 (suggestions_only_active_alumni (Verified 1%N) None (fun _ => 0%Z)
                  (fun i => N.of_nat i) no_faults Sample.campus
                  (json 200 (ConnectionList [Sample.item_of_bob] 1)) Sample.campus
                  [Sample.item_of_bob] 1%nat Sample.item_of_bob
                  campus_users_pkey eq_refl eq_refl (or_introl eq_refl))).
Defined.

(** * The further theorems at work on the sample data *)

Lemma office_users_pkey : users_pkey Staff.office.
Proof.
  unfold users_pkey. simpl. repeat constructor; simpl; intuition discriminate.
Defined.

(** Ann's token opens the route: Ann is stored and active. *)
Lemma authenticate_gate_witness :
  Api.serve (Api.authenticate (Verified 1%N) get_unread_count) no_faults Sample.campus
  = (Api.Reply 200 0%nat, Sample.campus)
  /\ exists u, In u (users Sample.campus) /\ u_id u = 1%N /\ u_is_active u = true.
Proof.
  split; [reflexivity|].
  destruct (proj1 (authenticate_gate (Verified 1%N) get_unread_count no_faults
                     Sample.campus (Api.Reply 200 0%nat) Sample.campus eq_refl))
    as [(id & u & w' & E & _ & Hin & Hid & Ha & _)|(_ & d & [X|X])];
    [|discriminate X|discriminate X].
  exists u. inversion E. subst id. auto.
Defined.

(** Bob marks his notification as read inside a transaction. *)
Lemma transaction_all_or_nothing_witness :
  transaction (execute (mark_all_read 2%N)) no_faults
    {| w_db := Sample.campus_pending; w_tick := 0 |}
  = (Ok tt,
     {| w_db := set_notifications
                  (map read (notifications Sample.campus_pending))
                  Sample.campus_pending;
        w_tick := 4 |})
  /\ exists wc,
       execute (mark_all_read 2%N) no_faults
         {| w_db := Sample.campus_pending; w_tick := 2 |} = (Ok tt, wc)
       /\ set_notifications (map read (notifications Sample.campus_pending))
            Sample.campus_pending = w_db wc.
Proof.
  split; [reflexivity|].
  destruct (proj1 (transaction_all_or_nothing (execute (mark_all_read 2%N)) no_faults
                     {| w_db := Sample.campus_pending; w_tick := 0 |} (Ok tt)
                     {| w_db := set_notifications
                                  (map read (notifications Sample.campus_pending))
                                  Sample.campus_pending;
                        w_tick := 4 |} eq_refl))
    as [(m & X & _)|(r & wc & _ & C & D)]; [discriminate X|].
  exists wc. destruct r. split; [exact C|exact D].
Defined.

(** Bob rejects Ann's request: no connection, no notification. *)
Lemma reject_request_spec_witness :
  serve (route_reject (Verified 2%N) 100%N) no_faults Sample.campus_pending
  = (json 200 (Success "Request rejected"), after_reject 100%N 2%N Sample.campus_pending)
  /\ connections (after_reject 100%N 2%N Sample.campus_pending)
     = connections Sample.campus_pending
  /\ notifications (after_reject 100%N 2%N Sample.campus_pending)
     = notifications Sample.campus_pending.
Proof.
  split; [reflexivity|].
  destruct (reject_request_spec (Verified 2%N) 100%N no_faults Sample.campus_pending
              (json 200 (Success "Request rejected"))
              (after_reject 100%N 2%N Sample.campus_pending) eq_refl)
    as (_ & _ & C & N & _).
  split; [exact C|exact N].
Defined.

Lemma campus_connections_requested : connections_requested Sample.campus.
Proof. intros c Hc. destruct Hc. Defined.

(** Ann removes her connection with Bob: the accepted request stays, and
    Bob cannot ask her again. *)
Lemma no_reconnect_after_remove_witness :
  connections_requested Sample.campus
  /\ In {| c_id := 200%N; c_user_id := 1%N; c_connected_user_id := 2%N |}
        (connections (run Sample.ann_then_bob Sample.campus))
  /\ serve (route_remove (Verified 1%N) 2%N) no_faults
       (run Sample.ann_then_bob Sample.campus)
     = (json 200 (Success "Connection removed"),
        set_connections [] Sample.campus_connected)
  /\ serve (route_send (Verified 2%N) (Some (printed 1%N)) 101%N) no_faults
       (set_connections [] Sample.campus_connected)
     = (json 400 (Detail "Request already exists"),
        set_connections [] Sample.campus_connected).
Proof.
  assert (In {| c_id := 200%N; c_user_id := 1%N; c_connected_user_id := 2%N |}
             (connections (run Sample.ann_then_bob Sample.campus))) as Hin
    by (left; reflexivity).
  split; [exact campus_connections_requested|]. split; [exact Hin|].
  split; [reflexivity|].
  destruct (no_reconnect_after_remove Sample.campus Sample.ann_then_bob 1%N 2%N
              {| c_id := 200%N; c_user_id := 1%N; c_connected_user_id := 2%N |}
              no_faults (json 200 (Success "Connection removed"))
              (set_connections [] Sample.campus_connected)
              campus_connections_requested Hin eq_refl eq_refl) as (_ & _ & K).
  destruct (K 2%N (printed 1%N) 101%N no_faults
              (fst (serve (route_send (Verified 2%N) (Some (printed 1%N)) 101%N)
                      no_faults (set_connections [] Sample.campus_connected)))
              (snd (serve (route_send (Verified 2%N) (Some (printed 1%N)) 101%N)
                      no_faults (set_connections [] Sample.campus_connected)))
              (or_intror (conj eq_refl eq_refl)) eq_refl) as (D & _ & R).
  rewrite <- (R eq_refl (fun _ => eq_refl) eq_refl ltac:(discriminate)).
  rewrite <- D at 3. reflexivity.
Defined.


Lemma tenants_mentors_pkey : mentors_pkey Tenants.db.
Proof.
  unfold mentors_pkey. simpl. repeat constructor; simpl; intuition discriminate.
Defined.

Lemma before_universities_pkey : universities_pkey Tenants.before.
Proof.
  unfold universities_pkey. simpl. repeat constructor; simpl; intuition discriminate.
Defined.

Lemma office_universities_pkey : universities_pkey Staff.office.
Proof. exact before_universities_pkey. Defined.

(** Ann fetches Dave's mentor profile. *)
Lemma mentor_by_id_witness :
  users_pkey Tenants.db /\ mentors_pkey Tenants.db
  /\ select_active_user 1%N Tenants.db = [Sample.ann]
  /\ Api.serve (route_mentor (Verified 1%N) 40%N 5%Z) no_faults Tenants.db
     = (Api.Reply 200
          (mentor_item (fun _ => 75%Z) (0%nat, (Tenants.profile_of_dave, Tenants.dave))),
        Tenants.db).
Proof.
  split; [exact tenants_users_pkey|]. split; [exact tenants_mentors_pkey|].
  split; [reflexivity|].
  refine (proj1 (mentor_by_id (fun _ _ => true) 1%N 5%Z no_faults Tenants.db
                   Sample.ann [] tenants_users_pkey tenants_mentors_pkey
                   eq_refl eq_refl eq_refl)
            Tenants.profile_of_dave Tenants.dave _ eq_refl _ eq_refl).
  - left. reflexivity.
  - right. right. left. reflexivity.
Defined.


(** Carol registers without a university. *)
Lemma register_spec_witness :
  serve (post_register lower_ascii_text Staff.encode Tenants.carol_body
           "$2a$10$carol" 3%N) no_faults Tenants.before
  = (json 201 (LoginResult (generateToken Tenants.carol)
                 (safe_user (Tenants.carol, None)) None None),
     Tenants.db)
  /\ forall u, In u (users Tenants.before) ->
       u_email u <> "carol@example.org" /\ u_id u <> 3%N.
Proof.
  split; [reflexivity|].
  destruct (register_spec lower_ascii_text Staff.encode Tenants.carol_body
              "$2a$10$carol" 3%N no_faults Tenants.before
              (json 201 (LoginResult (generateToken Tenants.carol)
                           (safe_user (Tenants.carol, None)) None None))
              Tenants.db eq_refl)
    as (_ & R & _).
  destruct (R eq_refl) as (_ & _ & U & _). exact U.
Defined.

(** Carol logs in with her address in capitals and a wrong password. *)
Lemma register_then_login_witness :
  universities_pkey Tenants.before
  /\ serve (route_register lower_ascii_text Sample.is_email Staff.encode
              (Some Tenants.carol_body) "$2a$10$carol" 3%N)
       no_faults Tenants.before
     = (json 201 (LoginResult (generateToken Tenants.carol)
                    (safe_user (Tenants.carol, None)) None None),
        Tenants.db)
  /\ lower_ascii_text "CAROL@EXAMPLE.ORG"
     = lower_ascii_text (rg_email Tenants.carol_body)
  /\ serve (route_login lower_ascii_text String.ltb Sample.is_email String.eqb
              (Some {| lg_email := "CAROL@EXAMPLE.ORG"; lg_password := "wrong" |}))
       no_faults Tenants.db
     = (json 401 (Detail "Invalid email or password"), Tenants.db).
Proof.
  split; [exact before_universities_pkey|]. split; [reflexivity|].
  split; [reflexivity|].
  refine (proj1 (proj2 (register_then_login lower_ascii_text String.ltb
                          Sample.is_email Staff.encode Tenants.carol_body
                          "$2a$10$carol" 3%N no_faults Tenants.before
                          (json 201 (LoginResult (generateToken Tenants.carol)
                                       (safe_user (Tenants.carol, None)) None None))
                          Tenants.db before_universities_pkey eq_refl eq_refl
                          String.eqb "CAROL@EXAMPLE.ORG" "wrong" no_faults
                          eq_refl eq_refl))
            eq_refl _ eq_refl).
  discriminate.
Defined.

(** The two universities offered for registration. *)
Lemma offered_universities_witness :
  Api.serve (get_auth_universities String.ltb) no_faults Tenants.db
  = (Api.Reply 200 [{| uo_id := "mit"; uo_name := "MIT" |};
                    {| uo_id := "stanford"; uo_name := "Stanford" |}],
     Tenants.db)
  /\ forall o,
       In o [{| uo_id := "mit"; uo_name := "MIT" |};
             {| uo_id := "stanford"; uo_name := "Stanford" |}]
       <-> exists un, In un (universities Tenants.db) /\ un_is_enabled un = true
                      /\ o = {| uo_id := un_id un; uo_name := un_name un |}.
Proof.
  split; [reflexivity|].
  destruct (offered_universities String.ltb no_faults Tenants.db
              (Api.Reply 200 [{| uo_id := "mit"; uo_name := "MIT" |};
                              {| uo_id := "stanford"; uo_name := "Stanford" |}])
              Tenants.db eq_refl)
    as (_ & _ & R).
  destruct (R _ eq_refl) as (I & _). exact I.
Defined.

(** Ann refreshes her branding: no list of universities for her. *)
Lemma refresh_matches_login_witness :
  users_pkey Sample.campus /\ In Sample.ann (users Sample.campus)
  /\ u_is_active Sample.ann = true
  /\ exists all,
       serve (route_refresh_branding String.ltb (Verified (u_id Sample.ann)))
         no_faults Sample.campus
       = (json 200
            (LoginResult (generateToken Sample.ann)
               (safe_user (Sample.ann, owning_university Sample.ann Sample.campus))
               (without_is_enabled
                  (login_branding Sample.ann
                     (owning_university Sample.ann Sample.campus)))
               all),
          Sample.campus)
       /\ universities_for Sample.ann Sample.campus all.
Proof.
  assert (In Sample.ann (users Sample.campus)) as Hin by (left; reflexivity).
  split; [exact campus_users_pkey|]. split; [exact Hin|]. split; [reflexivity|].
  destruct (refresh_matches_login String.ltb no_faults Sample.campus Sample.ann
              campus_users_pkey Hin eq_refl eq_refl eq_refl (fun _ => eq_refl))
    as (all & R & U & _).
  exists all. split; [exact R|exact U].
Defined.

(** Root adds a university. *)
Lemma create_university_spec_witness :
  Api.serve (route_university_create (Verified 9%N) (Some "cmu") (Some "CMU"))
    no_faults Staff.office
  = (Api.Reply 201 (Some (new_university "cmu" "CMU")),
     set_universities (universities Staff.office ++ [new_university "cmu" "CMU"])
       Staff.office)
  /\ universities_pkey
       (set_universities (universities Staff.office ++ [new_university "cmu" "CMU"])
          Staff.office).
Proof.
  split; [reflexivity|].
  destruct (create_university_spec (Verified 9%N) (Some "cmu") (Some "CMU") no_faults
              Staff.office (Api.Reply 201 (Some (new_university "cmu" "CMU")))
              (set_universities
                 (universities Staff.office ++ [new_university "cmu" "CMU"])
                 Staff.office) eq_refl)
    as (_ & _ & _ & K).
  exact (K office_universities_pkey).
Defined.

(** Root disables MIT. *)
Lemma toggle_status_spec_witness :
  Api.serve (route_university_toggle (Verified 9%N) "mit") no_faults Staff.office
  = (Api.Reply 200 false,
     set_universities (toggled_universities "mit" (universities Staff.office))
       Staff.office)
  /\ exists un, In un (universities Staff.office) /\ un_id un = "mit"
                /\ false = negb (un_is_enabled un).
Proof.
  split; [reflexivity|].
  destruct (toggle_status_spec (Verified 9%N) "mit" no_faults Staff.office
              (Api.Reply 200 false)
              (set_universities (toggled_universities "mit" (universities Staff.office))
                 Staff.office) eq_refl)
    as (_ & _ & R).
  destruct (R false eq_refl) as (E & _). exact E.
Defined.

(** Root deletes Stanford, which has no user. *)
Lemma delete_university_spec_witness :
  Api.serve (route_university_delete (Verified 9%N) "stanford") no_faults Staff.office
  = (Api.Reply 200 "University deleted", without_university_row "stanford" Staff.office)
  /\ forall un, In un (universities (without_university_row "stanford" Staff.office)) ->
                un_id un <> "stanford".
Proof.
  split; [reflexivity|].
  destruct (delete_university_spec (Verified 9%N) "stanford" no_faults Staff.office
              (Api.Reply 200 "University deleted")
              (without_university_row "stanford" Staff.office) eq_refl)
    as (_ & R & _).
  destruct (R _ eq_refl) as (_ & _ & _ & N & _). exact N.
Defined.

(** Eve deactivates Ann, whose token is refused afterwards. *)
Lemma deactivate_user_spec_witness :
  Api.serve (route_user_delete (Verified 5%N) 1%N) no_faults Staff.office
  = (Api.Reply 200 "User deactivated",
     set_users (deactivated_users (own_alumni 1%N (Some "mit")) (users Staff.office))
       Staff.office)
  /\ Api.serve (Api.authenticate (Verified 1%N) (delete_user 2%N))
       no_faults
       (set_users (deactivated_users (own_alumni 1%N (Some "mit")) (users Staff.office))
          Staff.office)
     = (Api.Refuse 401 "User not found or inactive",
        set_users (deactivated_users (own_alumni 1%N (Some "mit")) (users Staff.office))
          Staff.office).
Proof.
  split; [reflexivity|].
  destruct (deactivate_user_spec (Verified 5%N) 1%N no_faults Staff.office
              (Api.Reply 200 "User deactivated")
              (set_users (deactivated_users (own_alumni 1%N (Some "mit"))
                            (users Staff.office)) Staff.office) eq_refl)
    as (_ & _ & _ & R).
  destruct (R _ eq_refl) as (_ & K).
  exact (K office_users_pkey (delete_user 2%N) no_faults eq_refl).
Defined.

(** Root deactivates Eve. *)
Lemma deactivate_admin_spec_witness :
  Api.serve (route_admin_delete (Verified 9%N) 5%N) no_faults Staff.office
  = (Api.Reply 200 "Admin deactivated",
     set_users (deactivated_users (is_admin 5%N) (users Staff.office)) Staff.office)
  /\ map deactivated
       (users (set_users (deactivated_users (is_admin 5%N) (users Staff.office))
                 Staff.office))
     = map deactivated (users Staff.office).
Proof.
  split; [reflexivity|].
  exact (proj1 (deactivate_admin_spec (Verified 9%N) 5%N no_faults Staff.office
                  (Api.Reply 200 "Admin deactivated")
                  (set_users (deactivated_users (is_admin 5%N) (users Staff.office))
                     Staff.office) eq_refl)).
Defined.


(** Eve imports Fay and a [null]: the answer is 500 and Fay's account
    stays. *)
Example scenario_import_null :
  Api.serve (route_bulk_import lower_ascii_text (fun s => s) (Verified 5%N)
               (Some [Some Staff.fay_body; None]) (fun _ => "hash")
               (fun i => N.of_nat (50 + i))) no_faults Staff.office
  = (Api.Refuse 500 "Failed to import users", after_import [Staff.fay] Staff.office).
Proof. reflexivity. Qed.


(** Ann changes her name: nothing protected changes. *)
Lemma user_update_spec_witness :
  Api.serve (route_me_update (Verified 1%N) Staff.new_name) no_faults Sample.campus
  = (Api.Reply 200 (safe_user (update_user Staff.new_name Sample.ann, None)),
     set_users (updated_users Staff.new_name 1%N (users Sample.campus)) Sample.campus)
  /\ map user_protected
       (users (set_users (updated_users Staff.new_name 1%N (users Sample.campus))
                 Sample.campus))
     = map user_protected (users Sample.campus).
Proof.
  split; [reflexivity|].
  exact (proj1 (user_update_spec (Verified 1%N) Staff.new_name no_faults Sample.campus
                  (Api.Reply 200 (safe_user (update_user Staff.new_name Sample.ann, None)))
                  (set_users (updated_users Staff.new_name 1%N (users Sample.campus))
                     Sample.campus) eq_refl)).
Defined.

(** Bob reads everything: his unread count is 0. *)
Lemma read_all_spec_witness :
  serve (route_read_all (Verified 2%N)) no_faults Sample.campus_pending
  = (json 200 (Success "All notifications marked as read"),
     set_notifications (map read (notifications Sample.campus_pending))
       Sample.campus_pending)
  /\ unread 2%N Sample.campus_pending = 1%nat
  /\ unread 2%N
       (set_notifications (map read (notifications Sample.campus_pending))
          Sample.campus_pending) = 0%nat.
Proof.
  split; [reflexivity|]. split; [reflexivity|].
  destruct (read_all_spec (Verified 2%N) no_faults Sample.campus_pending
              (json 200 (Success "All notifications marked as read"))
              (set_notifications (map read (notifications Sample.campus_pending))
                 Sample.campus_pending) eq_refl)
    as [([X|X] & _)|(A & E & _ & U & _)]; [discriminate X|discriminate X|].
  inversion E. subst A. exact U.
Defined.

(** Ann asks Bob to connect: Bob has one more unread notification. *)
Lemma send_request_raises_unread_witness :
  users_pkey Sample.campus
  /\ serve (route_send (Verified 1%N) (Some (printed 2%N)) 100%N) no_faults
       Sample.campus
     = (Sample.request_sent, after_send 100%N 1%N 2%N "Ann" Sample.campus)
  /\ res_status Sample.request_sent = 200%nat
  /\ unread 2%N (after_send 100%N 1%N 2%N "Ann" Sample.campus)
     = S (unread 2%N Sample.campus).
Proof.
  split; [exact campus_users_pkey|]. split; [reflexivity|]. split; [reflexivity|].
  destruct (send_request_raises_unread (Verified 1%N) (Some (printed 2%N)) 100%N
              no_faults Sample.campus Sample.request_sent
              (after_send 100%N 1%N 2%N "Ann" Sample.campus)
              campus_users_pkey eq_refl eq_refl)
    as (A & text & _ & E & U & _).
  inversion E. subst text. exact U.
Defined.

(** Eve creates Fay's account in her own university. *)
Lemma admin_creates_in_own_university_witness :
  Api.serve (route_admin_user lower_ascii_text (fun s => s) (Verified 5%N)
               Staff.fay_body "hash" 50%N)
    no_faults Staff.office
  = (Api.Reply 201 (safe_user (Staff.fay, None)), after_account Staff.fay Staff.office)
  /\ u_university_id Staff.fay = u_university_id Staff.eve
  /\ users_pkey (after_account Staff.fay Staff.office).
Proof.
  split; [reflexivity|]. split; [reflexivity|].
  destruct (proj1 (admin_creates_in_own_university lower_ascii_text (fun s => s)
                     (Verified 5%N)
                     Staff.fay_body "hash" 50%N no_faults Staff.office)
              (Api.Reply 201 (safe_user (Staff.fay, None)))
              (after_account Staff.fay Staff.office) eq_refl)
    as (_ & K & _).
  exact (K office_users_pkey).
Defined.

(** Two hours and forty-six minutes ago. *)
Lemma formatTime_buckets_witness :
  formatTime (fun _ => "1/1/2026") 10000000 0 = "2h ago".
Proof.
  pose proof (formatTime_buckets (fun _ => "1/1/2026") 10000000 0) as H.
  cbv zeta in H. destruct H as (_ & _ & H & _).
  destruct H as [E _]; [split; [discriminate|reflexivity]|].
  exact E.
Defined.

(** [GET /mentors/me] is served by the route of [GET /mentors/:mentorId]. *)
Lemma shadowed_routes_witness :
  dispatch mentors_router GET ["me"] = Some (GetMentor, [("mentorId", "me")])
  /\ dispatch notifications_router DELETE ["clear-all"]
     = Some (DeleteNotification, [("notificationId", "clear-all")])
  /\ dispatch universities_router GET ["ads"]
     = Some (GetUniversity, [("universityId", "ads")]).
Proof.
  destruct shadowed_routes as (_ & _ & _ & _ & H).
  assert (forall a s, String a s <> EmptyString) as Ne by (intros a s X; discriminate X).
  split; [exact (proj1 (H "me" (Ne _ _)))|].
  split; [exact (proj1 (proj2 (H "clear-all" (Ne _ _))))|].
  exact (proj1 (proj2 (proj2 (H "ads" (Ne _ _))))).
Defined.
